(** * Image adjustment engine ([src/vmm/adjustment.py]): model and properties

    The Python module is embedded shallowly:
    - Python floats are IEEE binary64 values and [np.float32] elements are
      binary32 values, both as [spec_float] with the operations of the
      Standard Library's [SpecFloat] at the matching precision;
    - a NumPy array is a record of an object identity, an element type, a
      shape and the row-major element list;
    - methods of [ImageAdjuster] run in a state-and-exception monad whose
      state holds the allocation counter and the [self] object;
    - the persistence functions run in the same monad over a world made of a
      file system, a clock, an I/O fault oracle and the standard output.

    The routines of NumPy's power and SciPy's Gaussian filter, the
    machine's result for a float-to-integer conversion of a value that has no
    integer image, and the sign of the zero that [min] and [max] return
    when zeros of both signs are extreme elements, are not part of the
    repository: they are section variables, packed in the record
    [external]. *)

From Stdlib Require Import ZArith List String Ascii Bool Lia SpecFloat.
From Stdlib Require Import DecimalString DecimalN DecimalPos.
From stdpp Require Import base gmap strings.
Import ListNotations.

Local Open Scope string_scope.
Local Open Scope Z_scope.

(* ===================================================================== *)
(** * Python runtime: exceptions, state-and-exception monad               *)
(* ===================================================================== *)

Module Py.

(** The exception classes the module can meet; all derive from
    [Exception], which is what both [except] clauses catch. *)
Inductive exn : Type :=
| ValueError
| ZeroDivisionError
| IndexError
| OSError.

Inductive outcome (A : Type) : Type :=
| Ok (a : A)
| Raise (e : exn).
Arguments Ok {A} a.
Arguments Raise {A} e.

(** A computation over a state [S]: the state survives an exception, as
    the Python heap does. *)
Definition M (S A : Type) : Type := S -> outcome A * S.

Definition ret {S A} (a : A) : M S A := fun s => (Ok a, s).

Definition bind {S A B} (c : M S A) (k : A -> M S B) : M S B :=
  fun s =>
    match c s with
    | (Ok a, s') => k a s'
    | (Raise e, s') => (Raise e, s')
    end.

Definition raise {S A} (e : exn) : M S A := fun s => (Raise e, s).

Definition get {S} : M S S := fun s => (Ok s, s).

Definition modify {S} (f : S -> S) : M S unit := fun s => (Ok tt, f s).

(** [try: body / except Exception as e: handler e]. *)
Definition try_except {S A} (body : M S A) (handler : exn -> M S A) : M S A :=
  fun s =>
    match body s with
    | (Ok a, s') => (Ok a, s')
    | (Raise e, s') => handler e s'
    end.

(** A [for] loop over a list, stopped by the first exception. *)
Fixpoint for_each {S A} (body : A -> M S unit) (l : list A) : M S unit :=
  match l with
  | [] => ret tt
  | x :: l' => bind (body x) (fun _ => for_each body l')
  end.

End Py.

Import Py.

Declare Scope py_scope.
Delimit Scope py_scope with py.
Notation "'let*' x := c 'in' k" := (bind c (fun x => k))
  (at level 10, x name, c at level 100, k at level 200,
   format "'[v' 'let*'  x  :=  c  'in' '/' k ']'") : py_scope.
Notation "'let*' ' p := c 'in' k" := (bind c (fun x => let 'p := x in k))
  (at level 10, p pattern, c at level 100, k at level 200, only parsing) : py_scope.
Local Open Scope py_scope.

(* ===================================================================== *)
(** * Python [str] methods (characters of code below 256)                 *)
(* ===================================================================== *)

Module Str.

Definition code (c : ascii) : nat := nat_of_ascii c.

(** [str.isspace] on one character: TAB, LF, VT, FF, CR, the four
    separators 0x1c-0x1f, the space, NEL (0x85) and the no-break space
    (0xa0). *)
Definition is_space (c : ascii) : bool :=
  let n := code c in
  ((9 <=? n) && (n <=? 13) || (28 <=? n) && (n <=? 32)
   || (n =? 133) || (n =? 160))%nat.

Definition is_digit (c : ascii) : bool :=
  let n := code c in ((48 <=? n) && (n <=? 57))%nat.

Definition digit_val (c : ascii) : Z := Z.of_nat (code c) - 48.

Fixpoint lstrip (s : string) : string :=
  match s with
  | String c s' => if is_space c then lstrip s' else s
  | EmptyString => EmptyString
  end.

Fixpoint rstrip (s : string) : string :=
  match s with
  | String c s' =>
      match rstrip s' with
      | EmptyString => if is_space c then EmptyString else String c EmptyString
      | t => String c t
      end
  | EmptyString => EmptyString
  end.

(** [s.strip()] *)
Definition strip (s : string) : string := rstrip (lstrip s).

(** [s.startswith(p)] *)
Definition startswith (s p : string) : bool := String.prefix p s.

(** Lower case of one character: the letters A-Z and the capital letters
    of the range 0xc0-0xde (the multiplication sign 0xd7 is no letter). *)
Definition lower_char (c : ascii) : ascii :=
  let n := code c in
  if ((65 <=? n) && (n <=? 90)
      || (192 <=? n) && (n <=? 222) && negb (n =? 215))%nat
  then ascii_of_nat (n + 32) else c.

(** [s.lower()] *)
Fixpoint lower (s : string) : string :=
  match s with
  | String c s' => String (lower_char c) (lower s')
  | EmptyString => EmptyString
  end.

(** [s.split(sep)] for a one-character separator: the fields between the
    separators, the current field being accumulated in [cur]. *)
Fixpoint split_from (sep : ascii) (cur : string) (s : string) : list string :=
  match s with
  | EmptyString => [cur]
  | String c s' =>
      if Ascii.eqb c sep then cur :: split_from sep EmptyString s'
      else split_from sep (cur ++ String c EmptyString) s'
  end.

Definition split (sep : ascii) (s : string) : list string :=
  split_from sep EmptyString s.

(** [c * n] *)
Fixpoint repeat_char (c : ascii) (n : nat) : string :=
  match n with
  | O => EmptyString
  | S n' => String c (repeat_char c n')
  end.

(** Decimal digits of a non-negative integer. *)
Definition of_Z (z : Z) : string :=
  NilEmpty.string_of_uint (N.to_uint (Z.to_N z)).

(** The digits of [z], padded with zeros on the left to [width]. *)
Definition zero_pad (width : nat) (z : Z) : string :=
  let d := of_Z z in
  repeat_char "0" (width - String.length d) ++ d.

(** The lines a text-mode file object yields when iterated, with
    universal newlines: a line ends at LF, CR LF or CR, each given back
    as LF; a last line without terminator is yielded when not empty. *)
Fixpoint lines_from (cur : string) (s : string) : list string :=
  match s with
  | EmptyString => match cur with EmptyString => [] | _ => [cur] end
  | String c s' =>
      if Ascii.eqb c "010" then
        (cur ++ String "010" EmptyString) :: lines_from EmptyString s'
      else if Ascii.eqb c "013" then
        match s' with
        | String c' s'' =>
            if Ascii.eqb c' "010" then
              (cur ++ String "010" EmptyString) :: lines_from EmptyString s''
            else
              (cur ++ String "010" EmptyString) :: lines_from EmptyString s'
        | EmptyString => [cur ++ String "010" EmptyString]
        end
      else lines_from (cur ++ String c EmptyString) s'
  end.

Definition lines (s : string) : list string := lines_from EmptyString s.

End Str.

(* ===================================================================== *)
(** * IEEE 754 binary floating point                                      *)
(* ===================================================================== *)

Module Float.

Record format : Type := Format { prec : Z; emax : Z }.

(** Python's [float] and [np.float64]. *)
Definition binary64 : format := Format 53 1024.
(** [np.float32]. *)
Definition binary32 : format := Format 24 128.

Definition add (f : format) := SFadd (prec f) (emax f).
Definition sub (f : format) := SFsub (prec f) (emax f).
Definition mul (f : format) := SFmul (prec f) (emax f).
Definition div (f : format) := SFdiv (prec f) (emax f).

(** The integer [z] rounded to the format (to nearest, ties to even). *)
Definition of_Z (f : format) (z : Z) : spec_float :=
  binary_normalize (prec f) (emax f) z 0 false.

(** A float of any format rounded to the format [f]; exact when the
    value is representable, as from binary32 to binary64. *)
Definition round (f : format) (x : spec_float) : spec_float :=
  match x with
  | S754_finite s m e => binary_round (prec f) (emax f) s m e
  | _ => x
  end.

(** The quotient [n / d] of two positive integers, correctly rounded. *)
Definition of_ratio (f : format) (s : bool) (n d : positive) : spec_float :=
  div f (S754_finite s n 0) (S754_finite false d 0).

Definition is_nan (x : spec_float) : bool :=
  match x with S754_nan => true | _ => false end.

Definition is_finite (x : spec_float) : bool :=
  match x with S754_zero _ | S754_finite _ _ _ => true | _ => false end.

(** A finite value as a signed mantissa and an exponent. *)
Definition dyadic (x : spec_float) : option (Z * Z) :=
  match x with
  | S754_zero _ => Some (0, 0)
  | S754_finite s m e => Some (if s then Z.neg m else Z.pos m, e)
  | _ => None
  end.

(** Comparison by value, whatever the format of the operands: [None]
    when an operand is a NaN. *)
Definition compare (x y : spec_float) : option comparison :=
  match x, y with
  | S754_nan, _ | _, S754_nan => None
  | S754_infinity s1, S754_infinity s2 =>
      Some (match s1, s2 with
            | true, false => Lt
            | false, true => Gt
            | _, _ => Eq
            end)
  | S754_infinity s, _ => Some (if s then Lt else Gt)
  | _, S754_infinity s => Some (if s then Gt else Lt)
  | _, _ =>
      match dyadic x, dyadic y with
      | Some (m1, e1), Some (m2, e2) =>
          let e := Z.min e1 e2 in
          Some (Z.compare (m1 * 2 ^ (e1 - e)) (m2 * 2 ^ (e2 - e)))
      | _, _ => None
      end
  end.

(** [x == y], [x < y], [x <= y] *)
Definition eqb (x y : spec_float) : bool :=
  match compare x y with Some Eq => true | _ => false end.
Definition ltb (x y : spec_float) : bool :=
  match compare x y with Some Lt => true | _ => false end.
Definition leb (x y : spec_float) : bool :=
  match compare x y with Some (Lt | Eq) => true | _ => false end.

(** The integer part of a finite value (rounding toward zero), as a C
    conversion to an integer type takes it. *)
Definition trunc (x : spec_float) : option Z :=
  match dyadic x with
  | Some (m, e) => Some (if 0 <=? e then m * 2 ^ e else Z.quot m (2 ^ (- e)))
  | None => None
  end.

Definition zero : spec_float := S754_zero false.

End Float.

(** Python float literals and operators. *)
Module PyFloat.

Definition t : Type := spec_float.

Definition of_int (z : Z) : t := Float.of_Z Float.binary64 z.

(** The literals of the module: [0.0], [1.0], [0.5], [50.0], [100.0]. *)
Definition lit_0_0 : t := Float.zero.
Definition lit_1_0 : t := Eval vm_compute in of_int 1.
Definition lit_0_5 : t := Eval vm_compute in Float.of_ratio Float.binary64 false 1 2.
Definition lit_50_0 : t := Eval vm_compute in of_int 50.
Definition lit_100_0 : t := Eval vm_compute in of_int 100.

Definition sub (x y : t) : t := Float.sub Float.binary64 x y.

(** [x / y]: a zero divisor raises [ZeroDivisionError]. *)
Definition truediv {S} (x y : t) : M S t :=
  if Float.eqb y Float.zero then raise ZeroDivisionError
  else ret (Float.div Float.binary64 x y).

(** ** Fixed-point formatting: [format(x, '.Nf')] and [format(x, '+.Nf')] *)

Definition round_half_even (n d : Z) : Z :=
  let q := n / d in
  let r := n mod d in
  match Z.compare (2 * r) d with
  | Lt => q
  | Gt => q + 1
  | Eq => if Z.even q then q else q + 1
  end.

(** [|x| * 10^digits] rounded to an integer, from the exact value. *)
Definition scaled (digits : nat) (m : positive) (e : Z) : Z :=
  let p := 10 ^ Z.of_nat digits in
  if 0 <=? e then Z.pos m * 2 ^ e * p
  else round_half_even (Z.pos m * p) (2 ^ (- e)).

Definition fixed (digits : nat) (q : Z) : string :=
  let p := 10 ^ Z.of_nat digits in
  Str.of_Z (q / p) ++ "." ++ Str.zero_pad digits (q mod p).

Definition sign_str (plus neg : bool) : string :=
  if neg then "-" else if plus then "+" else "".

Definition format_f (plus : bool) (digits : nat) (x : t) : string :=
  match x with
  | S754_nan => sign_str plus false ++ "nan"
  | S754_infinity s => sign_str plus s ++ "inf"
  | S754_zero s => sign_str plus s ++ fixed digits 0
  | S754_finite s m e => sign_str plus s ++ fixed digits (scaled digits m e)
  end.

(** ** [float(s)] on a string *)

(** The digits that continue a digit part: a digit, or an underscore
    followed by a digit. Returns the value so far, the number of digits
    and the rest of the input. *)
Fixpoint digits_tail (s : string) (acc cnt : Z) : Z * Z * string :=
  match s with
  | String c s' =>
      if Str.is_digit c then digits_tail s' (10 * acc + Str.digit_val c) (cnt + 1)
      else if Ascii.eqb c "_" then
        match s' with
        | String d s'' =>
            if Str.is_digit d
            then digits_tail s'' (10 * acc + Str.digit_val d) (cnt + 1)
            else (acc, cnt, s)
        | EmptyString => (acc, cnt, s)
        end
      else (acc, cnt, s)
  | EmptyString => (acc, cnt, s)
  end.

Definition digitpart (s : string) : option (Z * Z * string) :=
  match s with
  | String c s' =>
      if Str.is_digit c then Some (digits_tail s' (Str.digit_val c) 1) else None
  | EmptyString => None
  end.

(** [[digitpart] "." digitpart | digitpart ["."]]: mantissa digits as an
    integer, number of digits after the point, rest. *)
Definition number (s : string) : option (Z * Z * string) :=
  match digitpart s with
  | Some (ip, _, String "." r) =>
      match digitpart r with
      | Some (fp, n, r') => Some (ip * 10 ^ n + fp, n, r')
      | None => Some (ip, 0, r)
      end
  | Some (ip, _, r) => Some (ip, 0, r)
  | None =>
      match s with
      | String "." r =>
          match digitpart r with
          | Some (fp, n, r') => Some (fp, n, r')
          | None => None
          end
      | _ => None
      end
  end.

Definition take_sign (s : string) : bool * string :=
  match s with
  | String "-" r => (true, r)
  | String "+" r => (false, r)
  | _ => (false, s)
  end.

(** [("e" | "E") [sign] digitpart], absent when the rest is empty. *)
Definition exponent (s : string) : option Z :=
  match s with
  | EmptyString => Some 0
  | String c r =>
      if Ascii.eqb c "e" || Ascii.eqb c "E" then
        let '(neg, r1) := take_sign r in
        match digitpart r1 with
        | Some (x, _, EmptyString) => Some (if neg then - x else x)
        | _ => None
        end
      else None
  end.

(** The decimal [m * 10^e] rounded to binary64. *)
Definition of_decimal (neg : bool) (m e : Z) : t :=
  match m with
  | Z.pos p =>
      if 0 <=? e
      then Float.of_ratio Float.binary64 neg (p * Z.to_pos (10 ^ e)) 1
      else Float.of_ratio Float.binary64 neg p (Z.to_pos (10 ^ (- e)))
  | _ => S754_zero neg
  end.

(** [float(s)]: [None] stands for the [ValueError] of an ill-formed
    string. *)
Definition parse (s : string) : option t :=
  let '(neg, r) := take_sign (Str.strip s) in
  let l := Str.lower r in
  if String.eqb l "inf" || String.eqb l "infinity" then Some (S754_infinity neg)
  else if String.eqb l "nan" then Some S754_nan
  else
    match number r with
    | Some (m, n, r') =>
        match exponent r' with
        | Some x => Some (of_decimal neg m (x - n))
        | None => None
        end
    | None => None
    end.

Definition float_of_str {S} (s : string) : M S t :=
  match parse s with
  | Some x => ret x
  | None => raise ValueError
  end.

End PyFloat.

(* ===================================================================== *)
(** * NumPy arrays                                                        *)
(* ===================================================================== *)

Module Np.

(** The integer and floating element types. *)
Inductive dtype : Type :=
| uint8 | int8 | uint16 | int16 | uint32 | int32 | uint64 | int64
| float32 | float64.

(** [np.issubdtype(d, np.integer)] *)
Definition is_integer (d : dtype) : bool :=
  match d with float32 | float64 => false | _ => true end.

Definition bits (d : dtype) : Z :=
  match d with
  | uint8 | int8 => 8
  | uint16 | int16 => 16
  | uint32 | int32 | float32 => 32
  | uint64 | int64 | float64 => 64
  end.

Definition is_signed (d : dtype) : bool :=
  match d with uint8 | uint16 | uint32 | uint64 => false | _ => true end.

(** [np.iinfo(d).min] and [np.iinfo(d).max] *)
Definition iinfo_min (d : dtype) : Z :=
  if is_signed d then - 2 ^ (bits d - 1) else 0.
Definition iinfo_max (d : dtype) : Z :=
  if is_signed d then 2 ^ (bits d - 1) - 1 else 2 ^ bits d - 1.

Definition in_range (d : dtype) (z : Z) : bool :=
  (iinfo_min d <=? z) && (z <=? iinfo_max d).

(** Two's complement wrap-around into the range of an integer type. *)
Definition wrap (d : dtype) (z : Z) : Z :=
  (z - iinfo_min d) mod 2 ^ bits d + iinfo_min d.

(** The floating type of an arithmetic result between an array of type
    [d] and a Python float, by NumPy's promotion rules (NEP 50: a Python
    scalar adapts to the array): a float32 array stays float32, every
    other array gives float64. *)
Definition promote (d : dtype) : dtype :=
  match d with float32 => float32 | _ => float64 end.

Definition float_format (d : dtype) : Float.format :=
  match d with float32 => Float.binary32 | _ => Float.binary64 end.

(** The signed and the unsigned integer type of [b] bits. *)
Definition signed_of (b : Z) : dtype :=
  if b <=? 8 then int8 else if b <=? 16 then int16
  else if b <=? 32 then int32 else int64.
Definition unsigned_of (b : Z) : dtype :=
  if b <=? 8 then uint8 else if b <=? 16 then uint16
  else if b <=? 32 then uint32 else uint64.

(** The element type of an arithmetic result between two arrays, by
    NumPy's promotion rules. Two integer types of the same signedness give
    the wider one; a signed and an unsigned type give the signed type when
    it is the wider, or else the signed type twice as wide as the unsigned
    one, float64 standing in for it past 64 bits. With a floating type the
    result is floating: float32 when it holds every value of the other
    type, float64 otherwise. *)
Definition result_type (d1 d2 : dtype) : dtype :=
  if is_integer d1 && is_integer d2 then
    match is_signed d1, is_signed d2 with
    | true, true => signed_of (Z.max (bits d1) (bits d2))
    | false, false => unsigned_of (Z.max (bits d1) (bits d2))
    | true, false =>
        if bits d2 <? bits d1 then d1
        else if bits d2 <? 64 then signed_of (2 * bits d2) else float64
    | false, true =>
        if bits d1 <? bits d2 then d2
        else if bits d1 <? 64 then signed_of (2 * bits d1) else float64
    end
  else
    match d1, d2 with
    | float32, (float32 | uint8 | int8 | uint16 | int16) => float32
    | (uint8 | int8 | uint16 | int16), float32 => float32
    | _, _ => float64
    end.

(** An element: an integer of an integer array, a float of a floating
    one. *)
Inductive num : Type :=
| NInt (z : Z)
| NFloat (x : spec_float).

(** The exact value of an element, as a float of no particular format. *)
Definition value (n : num) : spec_float :=
  match n with
  | NInt 0 => S754_zero false
  | NInt (Z.pos p) => S754_finite false p 0
  | NInt (Z.neg p) => S754_finite true p 0
  | NFloat x => x
  end.

(** An element converted to a floating format. *)
Definition to_float (f : Float.format) (n : num) : spec_float :=
  match n with
  | NInt z => Float.of_Z f z
  | NFloat x => Float.round f x
  end.

(** [float(x)] on an array scalar. *)
Definition py_float (n : num) : PyFloat.t := to_float Float.binary64 n.

(** What is outside the repository: the element routine behind
    [np.power]; the data pass of [scipy.ndimage.gaussian_filter] with
    [sigma=1.0] (from element type, shape and elements to elements); the
    integer a float-to-integer conversion stores when the value has no
    image in the target type (a NaN, an infinity, a value out of range),
    which C leaves to the machine; and the sign of the zero that [min]
    and [max] return for an array (given by element type, shape and
    elements) whose extreme elements are zeros of both signs: [0.0] and
    [-0.0] compare equal, and which of them comes out depends on the
    loop NumPy selects for the machine and on where the elements lie
    ([true] stands for [-0.0]). *)
Record external : Type := External {
  power_elem : Float.format -> spec_float -> spec_float -> spec_float;
  gaussian_filter_data : dtype -> list nat -> list num -> list num;
  invalid_cast : dtype -> spec_float -> Z;
  zero_of_min : dtype -> list nat -> list num -> bool;
  zero_of_max : dtype -> list nat -> list num -> bool
}.

(** A float stored into an integer type: truncation toward zero. *)
Definition float_to_int (ext : external) (d : dtype) (x : spec_float) : Z :=
  match Float.trunc x with
  | Some z => if in_range d z then z else wrap d (invalid_cast ext d x)
  | None => wrap d (invalid_cast ext d x)
  end.

(** An element taken as an integer of the type [d]. *)
Definition to_int (ext : external) (d : dtype) (n : num) : Z :=
  match n with
  | NInt z => wrap d z
  | NFloat x => float_to_int ext d x
  end.

(** One element converted by [astype(d)]. *)
Definition convert (ext : external) (d : dtype) (n : num) : num :=
  if is_integer d then NInt (to_int ext d n)
  else NFloat (to_float (float_format d) n).

Record ndarray : Type := NDArray {
  oid : nat;              (* identity of the buffer *)
  dtype_of : dtype;       (* [a.dtype] *)
  shape : list nat;       (* [a.shape] *)
  data : list num         (* elements, row major *)
}.

(** The Python heap as the module sees it: the next free object identity
    and the one object of type [T] whose fields are assigned ([self]). *)
Record heap (T : Type) : Type := Heap { next_oid : nat; self : T }.
Arguments Heap {T} _ _.
Arguments next_oid {T} _.
Arguments self {T} _.

Section Ops.
Context {T : Type}.
Variable ext : external.

(** A new array: it takes the next free identity. *)
Definition alloc (d : dtype) (sh : list nat) (l : list num) : M (heap T) ndarray :=
  fun h => (Ok (NDArray (next_oid h) d sh l), Heap (S (next_oid h)) (self h)).

(** [a.copy()] *)
Definition copy (a : ndarray) : M (heap T) ndarray :=
  alloc (dtype_of a) (shape a) (data a).

(** [a.astype(d)] *)
Definition astype (a : ndarray) (d : dtype) : M (heap T) ndarray :=
  alloc d (shape a) (map (convert ext d) (data a)).

(** [np.zeros_like(a, dtype=d)] for a floating [d] *)
Definition zeros_like (a : ndarray) (d : dtype) : M (heap T) ndarray :=
  alloc d (shape a) (map (fun _ => NFloat Float.zero) (data a)).

(** The smaller and the larger of two elements, a NaN winning. Of two
    elements that compare equal the first is kept: they are the same
    element, or zeros of opposite signs, which [settle] deals with. *)
Definition min1 (a b : num) : num :=
  if Float.is_nan (value a) then a
  else if Float.is_nan (value b) then b
  else if Float.ltb (value b) (value a) then b else a.
Definition max1 (a b : num) : num :=
  if Float.is_nan (value a) then a
  else if Float.is_nan (value b) then b
  else if Float.ltb (value a) (value b) then b else a.

(** The floating zero of sign [s] ([true] for [-0.0]). *)
Definition is_zero_of (s : bool) (n : num) : bool :=
  match n with
  | NFloat (S754_zero s') => Bool.eqb s s'
  | _ => false
  end.

(** The extreme element [m] of the elements [l], as the reduction returns
    it: when [m] is a zero and [l] holds the zero of the other sign as
    well, the result is the zero of sign [negative]. *)
Definition settle (negative : bool) (l : list num) (m : num) : num :=
  match m with
  | NFloat (S754_zero s) =>
      if existsb (is_zero_of (negb s)) l then NFloat (S754_zero negative) else m
  | _ => m
  end.

(** The least and the greatest element of an array that has one. *)
Definition least (a : ndarray) : option num :=
  match data a with
  | [] => None
  | x :: l =>
      Some (settle (zero_of_min ext (dtype_of a) (shape a) (data a)) (data a)
                   (fold_left min1 l x))
  end.
Definition greatest (a : ndarray) : option num :=
  match data a with
  | [] => None
  | x :: l =>
      Some (settle (zero_of_max ext (dtype_of a) (shape a) (data a)) (data a)
                   (fold_left max1 l x))
  end.

(** [a.min()] and [a.max()]: [ValueError] on an array without
    elements. *)
Definition amin (a : ndarray) : M (heap T) num :=
  match least a with
  | None => raise ValueError
  | Some m => ret m
  end.
Definition amax (a : ndarray) : M (heap T) num :=
  match greatest a with
  | None => raise ValueError
  | Some m => ret m
  end.

(** An arithmetic operator between an array and a Python float: the
    scalar is rounded to the floating type of the result. *)
Definition scalar_op (op : Float.format -> spec_float -> spec_float -> spec_float)
           (a : ndarray) (s : PyFloat.t) : M (heap T) ndarray :=
  let f := float_format (dtype_of a) in
  alloc (promote (dtype_of a)) (shape a)
        (map (fun x => NFloat (op f (to_float f x) (Float.round f s))) (data a)).

(** [a + s], [a - s], [a * s], [a / s], [s - a] and [np.power(a, s)] *)
Definition add_scalar := scalar_op Float.add.
Definition sub_scalar := scalar_op Float.sub.
Definition mul_scalar := scalar_op Float.mul.
Definition div_scalar := scalar_op Float.div.
Definition rsub_scalar := scalar_op (fun f x s => Float.sub f s x).
Definition power := scalar_op (power_elem ext).

(** An arithmetic operator between two arrays of the same shape: both
    operands are taken in the element type of the result; an integer
    result wraps around, a floating one is rounded. *)
Definition array_op (iop : Z -> Z -> Z)
           (op : Float.format -> spec_float -> spec_float -> spec_float)
           (a b : ndarray) : M (heap T) ndarray :=
  let d := result_type (dtype_of a) (dtype_of b) in
  let f := float_format d in
  alloc d (shape a)
        (map (fun p =>
                if is_integer d
                then NInt (wrap d (iop (to_int ext d (fst p)) (to_int ext d (snd p))))
                else NFloat (op f (to_float f (fst p)) (to_float f (snd p))))
             (combine (data a) (data b))).

(** [a + b] and [a - b] *)
Definition add := array_op Z.add Float.add.
Definition sub := array_op Z.sub Float.sub.

(** [np.maximum] and [np.minimum] on floats: a NaN goes through. *)
Definition fmaximum (x y : spec_float) : spec_float :=
  if Float.is_nan x then x else if Float.is_nan y then y
  else if Float.ltb x y then y else x.
Definition fminimum (x y : spec_float) : spec_float :=
  if Float.is_nan x then x else if Float.is_nan y then y
  else if Float.ltb y x then y else x.

Definition clip_elem (d : dtype) (lo hi : Z) (n : num) : num :=
  match n with
  | NInt z => NInt (Z.min (Z.max z lo) hi)
  | NFloat x =>
      let f := float_format d in
      NFloat (fminimum (fmaximum x (Float.of_Z f lo)) (Float.of_Z f hi))
  end.

(** [np.clip(a, lo, hi)] with Python integers as bounds: the bounds are
    taken in the array's element type (rounded to it for a floating
    array; for an integer array they are bounds the type holds). *)
Definition clip (a : ndarray) (lo hi : Z) : M (heap T) ndarray :=
  alloc (dtype_of a) (shape a) (map (clip_elem (dtype_of a) lo hi) (data a)).

(** [gaussian_filter(a, sigma=1.0)]: same shape and element type. *)
Definition gaussian_filter (a : ndarray) : M (heap T) ndarray :=
  alloc (dtype_of a) (shape a)
        (gaussian_filter_data ext (dtype_of a) (shape a) (data a)).

End Ops.

(** [np.array_equal(a, b)]: same shape and equal elements by value. *)
Definition num_eqb (a b : num) : bool := Float.eqb (value a) (value b).

Fixpoint all_eqb (l1 l2 : list num) : bool :=
  match l1, l2 with
  | [], [] => true
  | x :: l1', y :: l2' => num_eqb x y && all_eqb l1' l2'
  | _, _ => false
  end.

Definition array_equal (a b : ndarray) : bool :=
  bool_decide (shape a = shape b) && all_eqb (data a) (data b).

(** The sub-array made of the elements at the flat positions [pos], with
    shape [sh]: a plane [a[k]], [a[:, k]] or [a[:, :, k]] of a volume is
    such a selection. *)
Definition select (pos : list nat) (sh : list nat) (a : ndarray) : ndarray :=
  NDArray (oid a) (dtype_of a) sh (map (fun i => nth i (data a) (NInt 0)) pos).

(** [a[k]]: the [k]-th plane along the first axis (a view of [a]). *)
Definition plane (k : nat) (a : ndarray) : ndarray :=
  let sh := tl (shape a) in
  let sz := fold_right Nat.mul 1%nat sh in
  select (seq (k * sz) sz) sh a.

End Np.

Import Np.

(* ===================================================================== *)
(** * [AdjustmentSettings]                                                *)
(* ===================================================================== *)

Record AdjustmentSettings : Type := Settings {
  brightness : PyFloat.t;
  contrast : PyFloat.t;
  gamma : PyFloat.t;
  sharpness : PyFloat.t;
  invert : bool
}.

(** [AdjustmentSettings()]: the dataclass defaults. *)
Definition default_settings : AdjustmentSettings :=
  Settings PyFloat.lit_0_0 PyFloat.lit_1_0 PyFloat.lit_1_0 PyFloat.lit_0_0 false.

(** [AdjustmentSettings.is_default] *)
Definition is_default (s : AdjustmentSettings) : bool :=
  Float.eqb (brightness s) PyFloat.lit_0_0 &&
  Float.eqb (contrast s) PyFloat.lit_1_0 &&
  Float.eqb (gamma s) PyFloat.lit_1_0 &&
  Float.eqb (sharpness s) PyFloat.lit_0_0 &&
  negb (invert s).

(** Field assignments [settings.f = v]. *)
Definition set_brightness (v : PyFloat.t) (s : AdjustmentSettings) :=
  Settings v (contrast s) (gamma s) (sharpness s) (invert s).
Definition set_contrast (v : PyFloat.t) (s : AdjustmentSettings) :=
  Settings (brightness s) v (gamma s) (sharpness s) (invert s).
Definition set_gamma (v : PyFloat.t) (s : AdjustmentSettings) :=
  Settings (brightness s) (contrast s) v (sharpness s) (invert s).
Definition set_sharpness (v : PyFloat.t) (s : AdjustmentSettings) :=
  Settings (brightness s) (contrast s) (gamma s) v (invert s).
Definition set_invert (v : bool) (s : AdjustmentSettings) :=
  Settings (brightness s) (contrast s) (gamma s) (sharpness s) v.

(** A value held by a settings dictionary: a float or a bool, the types
    [to_dict] produces. *)
Inductive pyval : Type :=
| VFloat (x : PyFloat.t)
| VBool (b : bool).

(** A dictionary value of the type its field is annotated with. *)
Definition float_value (v : pyval) : option PyFloat.t :=
  match v with
  | VFloat x => Some x
  | VBool _ => None
  end.
Definition bool_value (v : pyval) : option bool :=
  match v with
  | VBool b => Some b
  | VFloat _ => None
  end.

(** [AdjustmentSettings.to_dict] *)
Definition to_dict (s : AdjustmentSettings) : gmap string pyval :=
  <["brightness" := VFloat (brightness s)]>
    (<["contrast" := VFloat (contrast s)]>
       (<["gamma" := VFloat (gamma s)]>
          (<["sharpness" := VFloat (sharpness s)]>
             (<["invert" := VBool (invert s)]> ∅)))).

(** [d.get(key, default)] *)
Definition dict_get (d : gmap string pyval) (key : string) (dflt : pyval) : pyval :=
  default dflt (d !! key).

(** [AdjustmentSettings.from_dict]: each field is the value found under
    its key, or else the default of the field, stored as it is. The fields
    of the record are typed here, so the function is defined on the
    dictionaries whose values have the annotated types, as those of
    [to_dict] have; a value of another type, which the source stores
    unchanged, has no image in the record. *)
Definition from_dict (data : gmap string pyval) : option AdjustmentSettings :=
  match float_value (dict_get data "brightness" (VFloat PyFloat.lit_0_0)),
        float_value (dict_get data "contrast" (VFloat PyFloat.lit_1_0)),
        float_value (dict_get data "gamma" (VFloat PyFloat.lit_1_0)),
        float_value (dict_get data "sharpness" (VFloat PyFloat.lit_0_0)),
        bool_value (dict_get data "invert" (VBool false)) with
  | Some b, Some c, Some g, Some sh, Some i => Some (Settings b c g sh i)
  | _, _, _, _, _ => None
  end.

(** [AdjustmentSettings.reset]: five assignments. *)
Definition reset (s : AdjustmentSettings) : AdjustmentSettings :=
  set_invert false
    (set_sharpness PyFloat.lit_0_0
       (set_gamma PyFloat.lit_1_0
          (set_contrast PyFloat.lit_1_0
             (set_brightness PyFloat.lit_0_0 s)))).

(* ===================================================================== *)
(** * [ImageAdjuster]                                                     *)
(* ===================================================================== *)

Record ImageAdjuster : Type := Adjuster {
  settings : AdjustmentSettings;
  _original_volume : option ndarray;
  _original_dtype : option dtype;
  _original_min : option PyFloat.t;
  _original_max : option PyFloat.t
}.

(** [ImageAdjuster.__init__] *)
Definition init_adjuster : ImageAdjuster :=
  Adjuster default_settings None None None None.

(** The interpreter state of a program that holds one adjuster. *)
Definition pystate : Type := heap ImageAdjuster.

Definition get_self : M pystate ImageAdjuster :=
  fun h => (Ok (self h), h).

Definition set_self (f : ImageAdjuster -> ImageAdjuster) : M pystate unit :=
  fun h => (Ok tt, Heap (next_oid h) (f (self h))).

Section Adjuster.

Variable ext : external.

(** [ImageAdjuster.set_original_volume]: four assignments in a row; the
    reductions raise on an array without elements, after the first two
    assignments have been made. *)
Definition set_original_volume (volume : ndarray) : M pystate unit :=
  let* c := copy volume in
  let* _ := set_self (fun a => Adjuster (settings a) (Some c) (_original_dtype a)
                                        (_original_min a) (_original_max a)) in
  let* _ := set_self (fun a => Adjuster (settings a) (_original_volume a)
                                        (Some (dtype_of volume))
                                        (_original_min a) (_original_max a)) in
  let* lo := amin ext volume in
  let* _ := set_self (fun a => Adjuster (settings a) (_original_volume a)
                                        (_original_dtype a)
                                        (Some (py_float lo)) (_original_max a)) in
  let* hi := amax ext volume in
  set_self (fun a => Adjuster (settings a) (_original_volume a) (_original_dtype a)
                              (_original_min a) (Some (py_float hi))).

(** [ImageAdjuster.get_original_volume]: the stored array itself. *)
Definition get_original_volume : M pystate (option ndarray) :=
  let* a := get_self in
  ret (_original_volume a).

(** [ImageAdjuster.has_original_volume] *)
Definition has_original_volume : M pystate bool :=
  let* a := get_self in
  ret (match _original_volume a with Some _ => true | None => false end).

(** [ImageAdjuster.apply_brightness] *)
Definition apply_brightness (image : ndarray) (brightness : PyFloat.t)
  : M pystate ndarray :=
  if Float.eqb brightness (PyFloat.of_int 0) then ret image
  else
    let* offset := PyFloat.truediv brightness PyFloat.lit_100_0 in
    let* shifted := add_scalar image offset in
    clip shifted 0 1.

(** [ImageAdjuster.apply_contrast] *)
Definition apply_contrast (image : ndarray) (contrast : PyFloat.t)
  : M pystate ndarray :=
  if Float.eqb contrast PyFloat.lit_1_0 then ret image
  else
    let* centred := sub_scalar image PyFloat.lit_0_5 in
    let* scaled := mul_scalar centred contrast in
    let* moved := add_scalar scaled PyFloat.lit_0_5 in
    clip moved 0 1.

(** [ImageAdjuster.apply_gamma]: the clipped image is built before the
    exponent [1.0 / gamma] is evaluated. *)
Definition apply_gamma (image : ndarray) (gamma : PyFloat.t)
  : M pystate ndarray :=
  if Float.eqb gamma PyFloat.lit_1_0 then ret image
  else
    let* clipped := clip image 0 1 in
    let* exponent := PyFloat.truediv PyFloat.lit_1_0 gamma in
    power ext clipped exponent.

(** [ImageAdjuster.apply_sharpness] *)
Definition apply_sharpness (image : ndarray) (sharpness : PyFloat.t)
  : M pystate ndarray :=
  if Float.eqb sharpness (PyFloat.of_int 0) then ret image
  else
    let* amount := PyFloat.truediv sharpness PyFloat.lit_50_0 in
    let* blurred := gaussian_filter ext image in
    let* detail := sub ext image blurred in
    let* boost := mul_scalar detail amount in
    let* sharpened := add ext image boost in
    clip sharpened 0 1.

(** [ImageAdjuster.apply_invert] *)
Definition apply_invert (image : ndarray) (invert : bool) : M pystate ndarray :=
  if negb invert then ret image
  else rsub_scalar image PyFloat.lit_1_0.

(** Lines 205-208 and 255-258, the same in both entry points: the field
    normalized to the reference range. *)
Definition normalized_field (volume : ndarray) (v_min v_max : PyFloat.t)
  : M pystate ndarray :=
  if Float.eqb v_max v_min then zeros_like volume float32
  else
    let* as_float := astype ext volume float32 in
    let* shifted := sub_scalar as_float v_min in
    div_scalar shifted (PyFloat.sub v_max v_min).

(** Lines 211-216 and 261-266: the five transforms, one after the
    other. *)
Definition apply_transforms (normalized : ndarray) (s : AdjustmentSettings)
  : M pystate ndarray :=
  let result := normalized in
  let* result := apply_brightness result (brightness s) in
  let* result := apply_contrast result (contrast s) in
  let* result := apply_gamma result (gamma s) in
  let* result := apply_sharpness result (sharpness s) in
  apply_invert result (invert s).

(** Lines 219 and 269: back to the reference range. *)
Definition denormalized (result : ndarray) (v_min v_max : PyFloat.t)
  : M pystate ndarray :=
  let* scaled := mul_scalar result (PyFloat.sub v_max v_min) in
  add_scalar scaled v_min.

(** Lines 222-226: back to the registered element type. *)
Definition restore_dtype (original_dtype : option dtype) (result : ndarray)
  : M pystate ndarray :=
  match original_dtype with
  | Some d =>
      let* result :=
        (if is_integer d then clip result (iinfo_min d) (iinfo_max d)
         else ret result) in
      astype ext result d
  | None => ret result
  end.

(** [ImageAdjuster.apply_adjustments(volume=None, settings=None)] *)
Definition apply_adjustments (volume : option ndarray)
           (settings_arg : option AdjustmentSettings) : M pystate ndarray :=
  let* this := get_self in
  let* volume :=
    match volume with
    | None =>
        match _original_volume this with
        | None => raise ValueError
        | Some v => ret v
        end
    | Some v => ret v
    end in
  let s := match settings_arg with None => settings this | Some s => s end in
  if is_default s then copy volume
  else
    let* v_min :=
      match _original_min this with
      | Some m => ret m
      | None => let* m := amin ext volume in ret (py_float m)
      end in
    let* v_max :=
      match _original_max this with
      | Some m => ret m
      | None => let* m := amax ext volume in ret (py_float m)
      end in
    let* normalized := normalized_field volume v_min v_max in
    let* result := apply_transforms normalized s in
    let* result := denormalized result v_min v_max in
    restore_dtype (_original_dtype this) result.

(** [ImageAdjuster.apply_to_slice(slice_2d, settings=None)] *)
Definition apply_to_slice (slice_2d : ndarray)
           (settings_arg : option AdjustmentSettings) : M pystate ndarray :=
  let* this := get_self in
  let s := match settings_arg with None => settings this | Some s => s end in
  if is_default s then copy slice_2d
  else
    let* '(v_min, v_max) :=
      match _original_min this, _original_max this with
      | Some lo, Some hi => ret (lo, hi)
      | _, _ =>
          let* lo := amin ext slice_2d in
          let* hi := amax ext slice_2d in
          ret (py_float lo, py_float hi)
      end in
    let* normalized := normalized_field slice_2d v_min v_max in
    let* result := apply_transforms normalized s in
    denormalized result v_min v_max.

End Adjuster.

(* ===================================================================== *)
(** * The world of the persistence functions                              *)
(* ===================================================================== *)

(** [datetime.now()] *)
Record datetime : Type := DateTime {
  year : Z; month : Z; day : Z; hour : Z; minute : Z; second : Z
}.

(** [d.strftime('%Y-%m-%d %H:%M:%S')] *)
Definition strftime (d : datetime) : string :=
  Str.zero_pad 4 (year d) ++ "-" ++ Str.zero_pad 2 (month d) ++ "-" ++
  Str.zero_pad 2 (day d) ++ " " ++ Str.zero_pad 2 (hour d) ++ ":" ++
  Str.zero_pad 2 (minute d) ++ ":" ++ Str.zero_pad 2 (second d).

(** A line on the standard output: [print(f"{prefix}{e}")]. *)
Inductive event : Type :=
| Printed (prefix : string) (e : exn).

Record world : Type := World {
  fs : gmap string string;   (* the text of each file, by path *)
  now : datetime;            (* the clock *)
  io_fault : nat -> bool;    (* whether the k-th I/O operation fails *)
  io_count : nat;            (* I/O operations made so far *)
  stdout : list event
}.

(** One I/O operation: it raises [OSError] when the oracle says so. *)
Definition io_step : M world unit :=
  fun w =>
    let w' := World (fs w) (now w) (io_fault w) (S (io_count w)) (stdout w) in
    if io_fault w (io_count w) then (Raise OSError, w') else (Ok tt, w').

Definition set_file (path text : string) : M world unit :=
  modify (fun w => World (<[path := text]> (fs w)) (now w) (io_fault w)
                         (io_count w) (stdout w)).

(** [open(path, 'w', encoding='utf-8')]: the file is created or emptied;
    the file object is represented by its path. *)
Definition open_w (path : string) : M world string :=
  let* _ := io_step in
  let* _ := set_file path "" in
  ret path.

(** [f.write(text)] *)
Definition write (f : string) (text : string) : M world unit :=
  let* _ := io_step in
  let* w := get in
  set_file f (default "" (fs w !! f) ++ text).

(** [f.close()], as the [with] statement calls it on the way out. *)
Definition close (f : string) : M world unit := io_step.

(** [open(path, 'r', encoding='utf-8')] and the reading of the file by the
    [for] loop: the lines of the text. A missing file is an [OSError]. *)
Definition open_r (path : string) : M world string :=
  let* _ := io_step in
  let* w := get in
  match fs w !! path with
  | Some _ => ret path
  | None => raise OSError
  end.

Definition read_lines (f : string) : M world (list string) :=
  let* _ := io_step in
  let* w := get in
  ret (Str.lines (default "" (fs w !! f))).

(** [with opened as f: body f]: the file is closed on the way out, also
    when the body raises; the exception then goes on (or the one of
    [close], if it raises too). *)
Definition with_file {A} (opened : M world string) (body : string -> M world A)
  : M world A :=
  let* f := opened in
  fun w =>
    match body f w with
    | (Ok a, w') => (let* _ := close f in ret a) w'
    | (Raise e, w') =>
        match close f w' with
        | (Ok _, w'') => (Raise e, w'')
        | (Raise e', w'') => (Raise e', w'')
        end
    end.

Definition print (ev : event) : M world unit :=
  modify (fun w => World (fs w) (now w) (io_fault w) (io_count w)
                         (stdout w ++ [ev])%list).

Definition nl : string := String "010" EmptyString.

(** [l[i]] *)
Definition index {S A} (l : list A) (i : nat) : M S A :=
  match nth_error l i with
  | Some x => ret x
  | None => raise IndexError
  end.

(* ===================================================================== *)
(** * [export_adjustment_settings] and [load_adjustment_settings]         *)
(* ===================================================================== *)

(** The body of the [try] of [export_adjustment_settings]. [volume_info]
    is the dictionary's items in order, keys and values as [str] gives
    them. *)
Definition export_body (s : AdjustmentSettings) (filepath : string)
           (volume_info : option (list (string * string))) : M world unit :=
  with_file (open_w filepath) (fun f =>
    let* _ := write f (Str.repeat_char "=" 60 ++ nl) in
    let* _ := write f ("VMM-FRC Image Adjustment Settings" ++ nl) in
    let* _ := write f (Str.repeat_char "=" 60 ++ nl ++ nl) in
    let* w := get in
    let* _ := write f ("Exported: " ++ strftime (now w) ++ nl ++ nl) in
    let* _ :=
      match volume_info with
      | Some ((_ :: _) as items) =>
          let* _ := write f (Str.repeat_char "-" 40 ++ nl) in
          let* _ := write f ("Volume Information" ++ nl) in
          let* _ := write f (Str.repeat_char "-" 40 ++ nl) in
          let* _ := for_each (fun kv => write f ("  " ++ fst kv ++ ": " ++ snd kv ++ nl))
                             items in
          write f nl
      | _ => ret tt
      end in
    let* _ := write f (Str.repeat_char "-" 40 ++ nl) in
    let* _ := write f ("Adjustment Parameters" ++ nl) in
    let* _ := write f (Str.repeat_char "-" 40 ++ nl) in
    let* _ := write f ("  Brightness:  " ++ PyFloat.format_f true 1 (brightness s) ++ nl) in
    let* _ := write f ("  Contrast:    " ++ PyFloat.format_f false 2 (contrast s) ++ nl) in
    let* _ := write f ("  Gamma:       " ++ PyFloat.format_f false 2 (gamma s) ++ nl) in
    let* _ := write f ("  Sharpness:   " ++ PyFloat.format_f false 1 (sharpness s) ++ nl) in
    let* _ := write f ("  Invert:      " ++ (if invert s then "Yes" else "No") ++ nl) in
    let* _ := write f nl in
    let* _ := write f (Str.repeat_char "-" 40 ++ nl) in
    let* _ := write f ("Parameter Descriptions" ++ nl) in
    let* _ := write f (Str.repeat_char "-" 40 ++ nl) in
    let* _ := write f ("  Brightness:  Shifts all pixel values (-100 to +100)" ++ nl) in
    let* _ := write f ("  Contrast:    Multiplier around midpoint (0.1 to 3.0, 1.0 = no change)" ++ nl) in
    let* _ := write f ("  Gamma:       Gamma correction (0.1 to 3.0, 1.0 = no change)" ++ nl) in
    let* _ := write f ("               Lower values brighten, higher values darken" ++ nl) in
    let* _ := write f ("  Sharpness:   Unsharp mask amount (0 to 100)" ++ nl) in
    let* _ := write f ("  Invert:      Inverts all pixel intensities" ++ nl) in
    write f (nl ++ Str.repeat_char "=" 60 ++ nl)).

(** [export_adjustment_settings(settings, filepath, volume_info=None)] *)
Definition export_adjustment_settings (s : AdjustmentSettings) (filepath : string)
           (volume_info : option (list (string * string))) : M world bool :=
  try_except
    (let* _ := export_body s filepath volume_info in ret true)
    (fun e =>
       let* _ := print (Printed "Error exporting adjustment settings: " e) in
       ret false).

(** The field after the first colon, stripped: [line.split(':')[1].strip()]. *)
Definition field {S} (line : string) : M S string :=
  let* x := index (Str.split ":" line) 1 in
  ret (Str.strip x).

(** One turn of the [for] loop of [load_adjustment_settings]. *)
Definition load_line (s : AdjustmentSettings) (line : string)
  : M world AdjustmentSettings :=
  let line := Str.strip line in
  if Str.startswith line "Brightness:" then
    let* x := field line in
    let* v := PyFloat.float_of_str x in
    ret (set_brightness v s)
  else if Str.startswith line "Contrast:" then
    let* x := field line in
    let* v := PyFloat.float_of_str x in
    ret (set_contrast v s)
  else if Str.startswith line "Gamma:" then
    let* x := field line in
    let* v := PyFloat.float_of_str x in
    ret (set_gamma v s)
  else if Str.startswith line "Sharpness:" then
    let* x := field line in
    let* v := PyFloat.float_of_str x in
    ret (set_sharpness v s)
  else if Str.startswith line "Invert:" then
    let* x := field line in
    let value := Str.lower x in
    ret (set_invert (String.eqb value "yes" || String.eqb value "true"
                     || String.eqb value "1") s)
  else ret s.

(** The [for] loop: the settings object is updated line after line. *)
Fixpoint load_lines (s : AdjustmentSettings) (l : list string)
  : M world AdjustmentSettings :=
  match l with
  | [] => ret s
  | line :: l' => let* s' := load_line s line in load_lines s' l'
  end.

(** The body of the [try] of [load_adjustment_settings]. *)
Definition load_body (filepath : string) : M world AdjustmentSettings :=
  let s := default_settings in
  with_file (open_r filepath) (fun f =>
    let* l := read_lines f in
    load_lines s l).

(** [load_adjustment_settings(filepath)] *)
Definition load_adjustment_settings (filepath : string)
  : M world (option AdjustmentSettings) :=
  try_except
    (let* s := load_body filepath in ret (Some s))
    (fun e =>
       let* _ := print (Printed "Error loading adjustment settings: " e) in
       ret None).

(* ===================================================================== *)
(** * Vocabulary of the properties, and concrete inputs                   *)
(* ===================================================================== *)

(** ** Outcomes of a method *)

(** [runs c st Q]: from the state [st] the computation [c] returns a value
    that satisfies [Q]; it leaves [self] as it was and only allocates. *)
Definition runs {A} (c : M pystate A) (st : pystate) (Q : A -> Prop) : Prop :=
  exists a st', c st = (Ok a, st') /\ self st' = self st /\
                (next_oid st <= next_oid st')%nat /\ Q a.

(** An array that has the element type [d], the shape of [a] and, element
    by element, the image of [a] by [f]. *)
Definition image_of (d : dtype) (f : num -> num) (a r : ndarray) : Prop :=
  dtype_of r = d /\ shape r = shape a /\ data r = map f (data a).

(** [raises c st e]: from the state [st] the computation [c] raises [e]. *)
Definition raises {A} (c : M pystate A) (st : pystate) (e : exn) : Prop :=
  exists st', c st = (Raise e, st').

(** ** The pipeline, element by element *)

(** What an operator between a float32 array and a Python float does to
    one element. *)
Definition scalar_elem (op : Float.format -> spec_float -> spec_float -> spec_float)
           (s : PyFloat.t) (x : num) : num :=
  NFloat (op Float.binary32 (to_float Float.binary32 x) (Float.round Float.binary32 s)).

Definition brightness_elem (b : PyFloat.t) (x : num) : num :=
  if Float.eqb b (PyFloat.of_int 0) then x
  else clip_elem float32 0 1
         (scalar_elem Float.add (Float.div Float.binary64 b PyFloat.lit_100_0) x).

Definition contrast_elem (c : PyFloat.t) (x : num) : num :=
  if Float.eqb c PyFloat.lit_1_0 then x
  else clip_elem float32 0 1
         (scalar_elem Float.add PyFloat.lit_0_5
            (scalar_elem Float.mul c (scalar_elem Float.sub PyFloat.lit_0_5 x))).

Definition gamma_elem (ext : external) (g : PyFloat.t) (x : num) : num :=
  if Float.eqb g PyFloat.lit_1_0 then x
  else scalar_elem (power_elem ext) (Float.div Float.binary64 PyFloat.lit_1_0 g)
         (clip_elem float32 0 1 x).

Definition invert_elem (i : bool) (x : num) : num :=
  if negb i then x
  else scalar_elem (fun f x s => Float.sub f s x) PyFloat.lit_1_0 x.

Definition normalize_elem (ext : external) (lo hi : PyFloat.t) (x : num) : num :=
  if Float.eqb hi lo then NFloat Float.zero
  else scalar_elem Float.div (PyFloat.sub hi lo)
         (scalar_elem Float.sub lo (convert ext float32 x)).

Definition denormalize_elem (lo hi : PyFloat.t) (x : num) : num :=
  scalar_elem Float.add lo (scalar_elem Float.mul (PyFloat.sub hi lo) x).

Definition restore_elem (ext : external) (od : option dtype) (x : num) : num :=
  match od with
  | Some d =>
      convert ext d
        (if is_integer d then clip_elem float32 (iinfo_min d) (iinfo_max d) x else x)
  | None => x
  end.

Definition transform_elem (ext : external) (s : AdjustmentSettings) (x : num) : num :=
  invert_elem (invert s)
    (gamma_elem ext (gamma s)
       (contrast_elem (contrast s) (brightness_elem (brightness s) x))).

(** ** The arguments a call works with *)

(** The settings a call works with: the argument, or the stored ones. *)
Definition effective_settings (a : ImageAdjuster) (sarg : option AdjustmentSettings)
  : AdjustmentSettings :=
  match sarg with None => settings a | Some s => s end.

(** The volume a call of [apply_adjustments] works on, when there is one. *)
Definition available (a : ImageAdjuster) (varg : option ndarray) : option ndarray :=
  match varg with Some v => Some v | None => _original_volume a end.

(** [float(v.min())] and [float(v.max())], when [v] has an element:
    [reduced (least ext) v] and [reduced (greatest ext) v]. *)
Definition reduced (f : ndarray -> option num) (v : ndarray) : option PyFloat.t :=
  match f v with
  | None => None
  | Some m => Some (py_float m)
  end.

(** The reference range of [apply_adjustments]: each bound is the cached
    one, or else the bound of the volume at hand. *)
Definition reference_min (ext : external) (a : ImageAdjuster) (v : ndarray)
  : option PyFloat.t :=
  match _original_min a with Some m => Some m | None => reduced (least ext) v end.
Definition reference_max (ext : external) (a : ImageAdjuster) (v : ndarray)
  : option PyFloat.t :=
  match _original_max a with Some m => Some m | None => reduced (greatest ext) v end.

(** The reference range of [apply_to_slice]: the cached one when both
    bounds are cached, or else the range of the slice. *)
Definition slice_range (ext : external) (a : ImageAdjuster) (sl : ndarray)
  : option (PyFloat.t * PyFloat.t) :=
  match _original_min a, _original_max a with
  | Some lo, Some hi => Some (lo, hi)
  | _, _ =>
      match reduced (least ext) sl, reduced (greatest ext) sl with
      | Some lo, Some hi => Some (lo, hi)
      | _, _ => None
      end
  end.

(** Lines 205-228 of [apply_adjustments] and 255-271 of [apply_to_slice],
    once the reference range is known. *)
Definition adjust_pipeline (ext : external) (od : option dtype) (v : ndarray)
           (s : AdjustmentSettings) (lo hi : PyFloat.t) : M pystate ndarray :=
  let* normalized := normalized_field ext v lo hi in
  let* result := apply_transforms ext normalized s in
  let* result := denormalized result lo hi in
  restore_dtype ext od result.

Definition preview_pipeline (ext : external) (sl : ndarray)
           (s : AdjustmentSettings) (lo hi : PyFloat.t) : M pystate ndarray :=
  let* normalized := normalized_field ext sl lo hi in
  let* result := apply_transforms ext normalized s in
  denormalized result lo hi.

(** ** Concrete inputs of the adjuster *)

(** A stand-in for the library routines in concrete runs: the power leaves
    the base, the filter leaves the field, a conversion without image
    stores 0, and a reduction that has the choice between the two zeros
    returns [-0.0] as a minimum and [0.0] as a maximum. *)
Definition plain_external : external :=
  External (fun _ x _ => x) (fun _ _ l => l) (fun _ _ => 0)
           (fun _ _ _ => true) (fun _ _ _ => false).

(** An 8-bit volume of two planes of one row and three columns, held by
    the caller as object 0. *)
Definition demo_volume : ndarray :=
  NDArray 0 uint8 [2; 1; 3]%nat (map NInt [0; 255; 100; 50; 25; 200]).

(** The state of a fresh adjuster next to that volume, and the state after
    [set_original_volume(demo_volume)]. *)
Definition fresh_state : pystate := Heap 1 init_adjuster.
Definition demo_state : pystate :=
  Eval vm_compute in snd (set_original_volume plain_external demo_volume fresh_state).

(** [AdjustmentSettings(gamma=0.0)] and [AdjustmentSettings(brightness=10.0)] *)
Definition gamma_zero_settings : AdjustmentSettings :=
  set_gamma PyFloat.lit_0_0 default_settings.
Definition brightness_10_settings : AdjustmentSettings :=
  set_brightness (PyFloat.of_int 10) default_settings.

(** A constant 8-bit volume, and the state after its registration: the
    cached bounds are both 7.0. *)
Definition constant_volume : ndarray :=
  NDArray 0 uint8 [1; 1; 3]%nat (map NInt [7; 7; 7]).
Definition constant_state : pystate :=
  Eval vm_compute in snd (set_original_volume plain_external constant_volume fresh_state).



(** What the preview pipeline does to one element when there is no
    sharpening: it depends on the settings and the reference range only. *)
Definition preview_elem (ext : external) (s : AdjustmentSettings)
           (lo hi : PyFloat.t) (x : num) : num :=
  denormalize_elem lo hi (transform_elem ext s (normalize_elem ext lo hi x)).

(** The order as the specification words it: brightness, contrast, gamma,
    sharpness, invert. *)
Definition stages (ext : external) (s : AdjustmentSettings)
  : list (ndarray -> M pystate ndarray) :=
  [ fun x => apply_brightness x (brightness s);
    fun x => apply_contrast x (contrast s);
    fun x => apply_gamma ext x (gamma s);
    fun x => apply_sharpness ext x (sharpness s);
    fun x => apply_invert x (invert s) ].

(** The stages of a list applied one after the other, first to last. *)
Definition chain (l : list (ndarray -> M pystate ndarray)) (x : ndarray)
  : M pystate ndarray :=
  fold_left (fun acc f => bind acc f) l (ret x).

(** A float32 volume with the range 0.0 to 1.0 (elements 0.0, 0.5 and
    1.0), on which normalization changes nothing; the state after its
    registration; [AdjustmentSettings(brightness=20.0, contrast=2.0)]. *)
Definition unit_volume : ndarray :=
  NDArray 0 float32 [1; 1; 3]%nat
          [NFloat (S754_zero false);
           NFloat (S754_finite false 8388608 (-24));
           NFloat (S754_finite false 8388608 (-23))].
Definition unit_state : pystate :=
  Eval vm_compute in snd (set_original_volume plain_external unit_volume fresh_state).
Definition order_settings : AdjustmentSettings :=
  set_contrast (PyFloat.of_int 2) (set_brightness (PyFloat.of_int 20) default_settings).

(** ** The text of an export and its I/O operations *)

(** The lines of the volume information, one per item. *)
Fixpoint items_text (items : list (string * string)) : string :=
  match items with
  | [] => ""
  | kv :: l => ("  " ++ fst kv ++ ": " ++ snd kv ++ nl) ++ items_text l
  end.

Definition volume_info_text (volume_info : option (list (string * string))) : string :=
  match volume_info with
  | Some ((_ :: _) as items) =>
      (Str.repeat_char "-" 40 ++ nl) ++ ("Volume Information" ++ nl) ++
      (Str.repeat_char "-" 40 ++ nl) ++ items_text items ++ nl
  | _ => ""
  end.

(** What follows the rule that opens the parameter descriptions. *)
Definition descriptions_text : string :=
  ("  Brightness:  Shifts all pixel values (-100 to +100)" ++ nl) ++
  ("  Contrast:    Multiplier around midpoint (0.1 to 3.0, 1.0 = no change)" ++ nl) ++
  ("  Gamma:       Gamma correction (0.1 to 3.0, 1.0 = no change)" ++ nl) ++
  ("               Lower values brighten, higher values darken" ++ nl) ++
  ("  Sharpness:   Unsharp mask amount (0 to 100)" ++ nl) ++
  ("  Invert:      Inverts all pixel intensities" ++ nl) ++
  (nl ++ Str.repeat_char "=" 60 ++ nl).

(** The whole file, chunk after chunk as written. *)
Definition export_text (s : AdjustmentSettings) (d : datetime)
           (volume_info : option (list (string * string))) : string :=
  (Str.repeat_char "=" 60 ++ nl) ++
  ("VMM-FRC Image Adjustment Settings" ++ nl) ++
  (Str.repeat_char "=" 60 ++ nl ++ nl) ++
  ("Exported: " ++ strftime d ++ nl ++ nl) ++
  volume_info_text volume_info ++
  (Str.repeat_char "-" 40 ++ nl) ++
  ("Adjustment Parameters" ++ nl) ++
  (Str.repeat_char "-" 40 ++ nl) ++
  ("  Brightness:  " ++ PyFloat.format_f true 1 (brightness s) ++ nl) ++
  ("  Contrast:    " ++ PyFloat.format_f false 2 (contrast s) ++ nl) ++
  ("  Gamma:       " ++ PyFloat.format_f false 2 (gamma s) ++ nl) ++
  ("  Sharpness:   " ++ PyFloat.format_f false 1 (sharpness s) ++ nl) ++
  ("  Invert:      " ++ (if invert s then "Yes" else "No") ++ nl) ++
  nl ++
  (Str.repeat_char "-" 40 ++ nl) ++
  ("Parameter Descriptions" ++ nl) ++
  (Str.repeat_char "-" 40 ++ nl) ++
  descriptions_text.

(** The number of I/O operations of an export that meets no fault: the
    opening, one per [write], the closing. *)
Definition export_writes (volume_info : option (list (string * string))) : nat :=
  match volume_info with
  | Some ((_ :: _) as items) => 23 + (4 + length items)
  | _ => 23
  end.
Definition export_ops (volume_info : option (list (string * string))) : nat :=
  S (export_writes volume_info + 1).

(** No fault among the [n] I/O operations that come next. *)
Definition no_fault (w : world) (n : nat) : bool :=
  forallb (fun k => negb (io_fault w k)) (seq (io_count w) n).

(** [writes d f c n t]: when the clock reads [d] and the file [f] is open
    with the text [c0], the computation [c] makes [n] I/O operations and,
    when none of them faults, leaves [c0 ++ t] in the file and nothing else
    changed; when one faults it raises. *)
Definition writes (d : datetime) (f : string) (c : M world unit)
           (n : nat) (t : string) : Prop :=
  forall w c0, now w = d -> fs w !! f = Some c0 ->
    if no_fault w n
    then c w = (Ok tt, World (<[f := c0 ++ t]> (fs w)) (now w) (io_fault w)
                             (io_count w + n) (stdout w))
    else exists e w', c w = (Raise e, w') /\ stdout w' = stdout w
                      /\ io_fault w' = io_fault w.

(** What [with] does once the file is open. *)
Definition leave_file {A} (f : string) (r : outcome A * world) : outcome A * world :=
  match r with
  | (Ok a, w') => (let* _ := close f in ret a) w'
  | (Raise e, w') =>
      match close f w' with
      | (Ok _, w'') => (Raise e, w'')
      | (Raise e', w'') => (Raise e', w'')
      end
  end.

(** The prefixes whose field is parsed as a number. *)
Definition numeric_prefixes : list string :=
  ["Brightness:"; "Contrast:"; "Gamma:"; "Sharpness:"].

(** A line that starts, once stripped, with one of these prefixes and
    whose field [float] does not accept. *)
Definition unparsable_line (line : string) : bool :=
  let t := Str.strip line in
  existsb (Str.startswith t) numeric_prefixes &&
  match nth_error (Str.split ":" t) 1 with
  | Some x =>
      match PyFloat.parse (Str.strip x) with Some _ => false | None => true end
  | None => true
  end.

(** The source cannot be read: one of the three I/O operations (opening,
    reading, closing) faults, or the file does not exist. *)
Definition unreadable (w : world) (path : string) : Prop :=
  no_fault w 3 = false \/ fs w !! path = None.

(** A text that ends with a line feed. *)
Inductive complete : string -> Prop :=
| complete_nl : complete nl
| complete_cons (c : ascii) (s : string) : complete s -> complete (String c s).

(** The first line of the parameter descriptions, as the file holds it. *)
Definition brightness_description : string :=
  "  Brightness:  Shifts all pixel values (-100 to +100)" ++ nl.

(** A float written as a Python literal. *)
Definition float_literal (s : string) : PyFloat.t :=
  match PyFloat.parse s with Some x => x | None => S754_nan end.

(** [AdjustmentSettings(brightness=12.3, contrast=1.50, gamma=0.80,
    sharpness=45.6, invert=True)] *)
Definition example_settings : AdjustmentSettings :=
  Eval vm_compute in
    Settings (float_literal "12.3") (float_literal "1.50") (float_literal "0.80")
             (float_literal "45.6") true.

(** A world with no file and no I/O fault, on 15 January 2024 at 10:30:00. *)
Definition quiet_world : world :=
  World ∅ (DateTime 2024 1 15 10 30 0) (fun _ => false) 0 [].

(** The five parameter lines of an export, by themselves. *)
Definition parameters_text (s : AdjustmentSettings) : string :=
  ("  Brightness:  " ++ PyFloat.format_f true 1 (brightness s) ++ nl) ++
  ("  Contrast:    " ++ PyFloat.format_f false 2 (contrast s) ++ nl) ++
  ("  Gamma:       " ++ PyFloat.format_f false 2 (gamma s) ++ nl) ++
  ("  Sharpness:   " ++ PyFloat.format_f false 1 (sharpness s) ++ nl) ++
  ("  Invert:      " ++ (if invert s then "Yes" else "No") ++ nl).


(** ** Settings dictionaries *)

(** The keys [to_dict] writes and [from_dict] reads. *)
Definition settings_keys : list string :=
  ["brightness"; "contrast"; "gamma"; "sharpness"; "invert"].

(** ** Frames *)

(** [keeps_adjuster c]: whatever its outcome, the computation [c] leaves
    every field of the adjuster as it was, and it only allocates. *)
Definition keeps_adjuster {A} (c : M pystate A) : Prop :=
  forall st, self (snd (c st)) = self st /\ (next_oid st <= next_oid (snd (c st)))%nat.

(** [fresh_result c]: an array that [c] returns is an object that did not
    exist before the call. *)
Definition fresh_result (c : M pystate ndarray) : Prop :=
  forall st r st', c st = (Ok r, st') ->
    (next_oid st <= oid r < next_oid st')%nat.

(** [same_object c img]: [c] returns [img] itself and allocates nothing. *)
Definition same_object (c : M pystate ndarray) (img : ndarray) : Prop :=
  forall st, c st = (Ok img, st).

(** A volume without elements, held by the caller as object 0. *)
Definition empty_volume : ndarray := NDArray 0 uint8 [0; 4; 4]%nat [].

(** ** The unit range *)

(** An element of a floating array. *)
Definition floating (n : num) : Prop := exists x, n = NFloat x.

(** A floating element that is a NaN or lies between 0 and 1. *)
Definition unit_or_nan (n : num) : Prop :=
  exists x, n = NFloat x /\
            (Float.is_nan x = true \/
             Float.leb Float.zero x = true /\ Float.leb x PyFloat.lit_1_0 = true).

(** A float32 array of another shape than [demo_volume], held by the
    caller as object 0. *)
Definition other_volume : ndarray :=
  NDArray 0 float32 [1; 2]%nat
          [NFloat (S754_finite false 8388608 (-21)); NFloat (S754_zero false)].

(** ** Lines of a settings file *)

(** The four numeric prefixes with the field each one assigns. *)
Definition numeric_setters
  : list (string * (PyFloat.t -> AdjustmentSettings -> AdjustmentSettings)) :=
  [("Brightness:", set_brightness); ("Contrast:", set_contrast);
   ("Gamma:", set_gamma); ("Sharpness:", set_sharpness)].

(** A line that starts, once stripped, with one of the five prefixes. *)
Definition recognized (line : string) : bool :=
  existsb (Str.startswith (Str.strip line)) (numeric_prefixes ++ ["Invert:"]).

(** [value in ('yes', 'true', '1')] *)
Definition affirmative (value : string) : bool :=
  String.eqb value "yes" || String.eqb value "true" || String.eqb value "1".

(** The file can be read: it exists and none of the three I/O operations
    (opening, reading, closing) faults. *)
Definition readable (w : world) (path : string) (c : string) : Prop :=
  fs w !! path = Some c /\ no_fault w 3 = true.

(** ** Frames of the persistence functions *)

(** [respects R c]: whatever its outcome, the computation [c] takes a
    state to one that [R] relates to it. *)
Definition respects {S A} (R : S -> S -> Prop) (c : M S A) : Prop :=
  forall s, R s (snd (c s)).

(** From [w] to [w'] no file other than [path] has changed; the clock and
    the fault oracle are the same, nothing printed has been erased and the
    count of I/O operations has not gone down. *)
Definition only_touches (path : string) (w w' : world) : Prop :=
  (forall p, p <> path -> fs w' !! p = fs w !! p)
  /\ now w' = now w /\ io_fault w' = io_fault w
  /\ (io_count w <= io_count w')%nat
  /\ exists l, stdout w' = (stdout w ++ l)%list.

(** From [w] to [w'] no file has changed at all. *)
Definition reads_only (w w' : world) : Prop :=
  fs w' = fs w
  /\ now w' = now w /\ io_fault w' = io_fault w
  /\ (io_count w <= io_count w')%nat
  /\ exists l, stdout w' = (stdout w ++ l)%list.

(** A world whose first I/O operation faults, with one file in it. *)
Definition faulty_world : world :=
  World {["settings.txt" := "kept"]} (DateTime 2024 1 15 10 30 0)
        (fun k => Nat.eqb k 0) 0 [].

(** ** Integer element types and the clip before the cast *)





(** ** Numbers written and read back *)

(** The value of a sequence of decimal digits read after the value
    [acc]. *)
Fixpoint uint_value (d : Decimal.uint) (acc : Z) : Z :=
  match d with
  | Decimal.Nil => acc
  | Decimal.D0 l => uint_value l (10 * acc)
  | Decimal.D1 l => uint_value l (10 * acc + 1)
  | Decimal.D2 l => uint_value l (10 * acc + 2)
  | Decimal.D3 l => uint_value l (10 * acc + 3)
  | Decimal.D4 l => uint_value l (10 * acc + 4)
  | Decimal.D5 l => uint_value l (10 * acc + 5)
  | Decimal.D6 l => uint_value l (10 * acc + 6)
  | Decimal.D7 l => uint_value l (10 * acc + 7)
  | Decimal.D8 l => uint_value l (10 * acc + 8)
  | Decimal.D9 l => uint_value l (10 * acc + 9)
  end.

(** A text without white space and without colon. *)
Definition plain_char (c : ascii) : bool :=
  negb (Str.is_space c) && negb (Ascii.eqb c ":").
Fixpoint plain (s : string) : bool :=
  match s with
  | EmptyString => true
  | String c s' => plain_char c && plain s'
  end.

(** What a float is after [format(x, '.Nf')] and [float]: a finite value
    is rounded to [digits] decimals, and the decimal to the nearest float;
    a zero keeps its sign, an infinity and a NaN are themselves. *)
Definition reread (digits : nat) (x : PyFloat.t) : PyFloat.t :=
  match x with
  | S754_finite s m e =>
      PyFloat.of_decimal s (PyFloat.scaled digits m e) (- Z.of_nat digits)
  | _ => x
  end.

(** The settings a parameter block gives back. *)
Definition reread_settings (s : AdjustmentSettings) : AdjustmentSettings :=
  Settings (reread 1 (brightness s)) (reread 2 (contrast s)) (reread 2 (gamma s))
           (reread 1 (sharpness s)) (invert s).

(** ** An adjuster without a registered volume *)

(** The adjuster as [__init__] leaves it, whatever settings were assigned
    since: no volume, no element type and no range are stored. *)
Definition unregistered (a : ImageAdjuster) : Prop :=
  _original_volume a = None /\ _original_dtype a = None
  /\ _original_min a = None /\ _original_max a = None.

(** ** A Gaussian filter *)

(** The kernel of [scipy.ndimage.gaussian_filter] for [sigma = 1.0] and
    the default [truncate = 4.0]: nine taps, [exp(-k^2/2)] divided by the
    sum over the taps, as doubles; the weight of the centre and of the
    taps at distance 1 to 4. *)
Definition gaussian_centre : spec_float := S754_finite false 7186726639736059 (-54).
Definition gaussian_taps : list (Z * spec_float) :=
  [(4, S754_finite false 4937478562985670 (-65));
   (3, S754_finite false 5109588567175785 (-60));
   (2, S754_finite false 7780941482662315 (-57));
   (1, S754_finite false 8717940099946938 (-55))].

(** The index [i] taken back into an axis of length [n] by reflection at
    the borders, the default [mode='reflect']. *)
Definition reflect (n i : Z) : Z :=
  let m := i mod (2 * n) in
  if m <? n then m else 2 * n - 1 - m.

(** One output value of the filter along a line [x], in double
    precision: the centre, then the pairs of taps from the farthest to
    the nearest. *)
Definition gaussian_tap (x : Z -> spec_float) (i : Z) : spec_float :=
  fold_left (fun t kw =>
               Float.add Float.binary64 t
                         (Float.mul Float.binary64
                                    (Float.add Float.binary64 (x (i - fst kw)) (x (i + fst kw)))
                                    (snd kw)))
            gaussian_taps
            (Float.mul Float.binary64 (x i) gaussian_centre).

(** The filter along one axis of length [n], the axes after it holding
    [inner] elements together; each value is stored in the element type of
    the array. *)
Definition gaussian_axis (d : dtype) (n inner : Z) (l : list num) : list num :=
  map (fun k : nat =>
         let idx := Z.of_nat k in
         let r := idx mod inner in
         let i := (idx / inner) mod n in
         let o := idx / (inner * n) in
         convert plain_external d
           (NFloat (gaussian_tap
                      (fun t => to_float Float.binary64
                                  (nth (Z.to_nat ((o * n + reflect n t) * inner + r)) l
                                       (NInt 0)))
                      i)))
      (seq 0 (length l)).

(** The filter along every axis, the first axis first. *)
Fixpoint gaussian_axes (d : dtype) (sh : list nat) (l : list num) : list num :=
  match sh with
  | [] => l
  | n :: rest =>
      gaussian_axes d rest
        (gaussian_axis d (Z.of_nat n) (Z.of_nat (fold_right Nat.mul 1%nat rest)) l)
  end.

(** The library routines with this filter as the Gaussian blur. *)
Definition gaussian_external : external :=
  External (power_elem plain_external) gaussian_axes (invalid_cast plain_external)
           (zero_of_min plain_external) (zero_of_max plain_external).

(** [AdjustmentSettings(sharpness=50.0)] *)
Definition sharpness_50_settings : AdjustmentSettings :=
  set_sharpness (PyFloat.of_int 50) default_settings.

(** ** The round trip of normalization and denormalization *)







(* ===================================================================== *)
(** * Properties                                                          *)
(* ===================================================================== *)


(** ** Running a method: the result, and what becomes of the state *)

Lemma runs_ret {A} (a : A) st (Q : A -> Prop) : Q a -> runs (ret a) st Q.
Proof. intros H. exists a, st. repeat split; auto. Qed.

Lemma runs_bind {A B} (c : M pystate A) (k : A -> M pystate B) st
      (Q1 : A -> Prop) (Q : B -> Prop) :
  runs c st Q1 ->
  (forall a st', Q1 a -> self st' = self st -> (next_oid st <= next_oid st')%nat ->
                 runs (k a) st' Q) ->
  runs (bind c k) st Q.
Proof.
  intros (a & st1 & E & Hs & Hn & Ha) Hk.
  destruct (Hk a st1 Ha Hs Hn) as (b & st2 & E2 & Hs2 & Hn2 & Hb).
  exists b, st2. unfold bind. rewrite E. repeat split; auto.
  - congruence.
  - lia.
Qed.

Lemma runs_bind_ret {A B} (a : A) (k : A -> M pystate B) st (Q : B -> Prop) :
  runs (k a) st Q -> runs (bind (ret a) k) st Q.
Proof. intros H. exact H. Qed.

Lemma runs_weaken {A} (c : M pystate A) st (Q Q' : A -> Prop) :
  runs c st Q -> (forall a, Q a -> Q' a) -> runs c st Q'.
Proof.
  intros (a & st1 & E & Hs & Hn & Ha) H. exists a, st1. repeat split; auto.
Qed.

Lemma runs_alloc d sh l st (Q : ndarray -> Prop) :
  (forall o, Q (NDArray o d sh l)) -> runs (alloc d sh l) st Q.
Proof.
  intros H. eexists _, _. split; [reflexivity|]. simpl. repeat split; auto.
Qed.

Lemma runs_truediv x y st (Q : PyFloat.t -> Prop) :
  Float.eqb y Float.zero = false ->
  Q (Float.div Float.binary64 x y) -> runs (PyFloat.truediv x y) st Q.
Proof.
  intros Hy H. unfold PyFloat.truediv. rewrite Hy. now apply runs_ret.
Qed.

Lemma runs_truediv_eq x y st :
  Float.eqb y Float.zero = false ->
  runs (PyFloat.truediv x y) st (fun v => v = Float.div Float.binary64 x y).
Proof. intros Hy. now apply runs_truediv. Qed.

Lemma image_of_id a : image_of (dtype_of a) (fun x => x) a a.
Proof. repeat split. now rewrite map_id. Qed.

Lemma image_of_trans d1 d2 f g a b c :
  image_of d1 f a b -> image_of d2 g b c -> image_of d2 (fun x => g (f x)) a c.
Proof.
  intros (_ & Hs1 & Hd1) (Ht2 & Hs2 & Hd2). repeat split; auto.
  - congruence.
  - rewrite Hd2, Hd1. apply map_map.
Qed.

Lemma runs_scalar_op op a s st :
  runs (scalar_op (T := ImageAdjuster) op a s) st
       (image_of (promote (dtype_of a))
                 (fun x => NFloat (op (float_format (dtype_of a))
                                      (to_float (float_format (dtype_of a)) x)
                                      (Float.round (float_format (dtype_of a)) s)))
                 a).
Proof. apply runs_alloc. intros o. repeat split. Qed.

Lemma runs_clip a lo hi st :
  runs (clip (T := ImageAdjuster) a lo hi) st
       (image_of (dtype_of a) (clip_elem (dtype_of a) lo hi) a).
Proof. apply runs_alloc. intros o. repeat split. Qed.

Lemma runs_astype ext a d st :
  runs (astype (T := ImageAdjuster) ext a d) st (image_of d (convert ext d) a).
Proof. apply runs_alloc. intros o. repeat split. Qed.

Lemma runs_zeros_like a d st :
  runs (zeros_like (T := ImageAdjuster) a d) st
       (image_of d (fun _ => NFloat Float.zero) a).
Proof. apply runs_alloc. intros o. repeat split. Qed.

Lemma raises_bind_l {A B} (c : M pystate A) (k : A -> M pystate B) st e :
  raises c st e -> raises (bind c k) st e.
Proof. intros (st' & E). exists st'. unfold bind. now rewrite E. Qed.

Lemma raises_bind_r {A B} (c : M pystate A) (k : A -> M pystate B) st e
      (Q : A -> Prop) :
  runs c st Q ->
  (forall a st', Q a -> self st' = self st -> raises (k a) st' e) ->
  raises (bind c k) st e.
Proof.
  intros (a & st1 & E & Hs & _ & Ha) Hk.
  destruct (Hk a st1 Ha Hs) as (st2 & E2).
  exists st2. unfold bind. now rewrite E.
Qed.

(** ** The transforms, element by element *)

Lemma image_of_ext d f g a r :
  (forall x, f x = g x) -> image_of d f a r -> image_of d g a r.
Proof.
  intros H (Ht & Hs & Hd). repeat split; auto.
  rewrite Hd. apply map_ext. auto.
Qed.

Lemma image_of_self f a :
  (forall x, f x = x) -> image_of (dtype_of a) f a a.
Proof.
  intros H. apply image_of_ext with (f := fun x => x); [now intros; rewrite H|].
  apply image_of_id.
Qed.

Lemma runs_scalar_f32 op a s st :
  dtype_of a = float32 ->
  runs (scalar_op (T := ImageAdjuster) op a s) st (image_of float32 (scalar_elem op s) a).
Proof.
  intros Ha. eapply runs_weaken; [apply runs_scalar_op|].
  intros r. rewrite Ha. auto.
Qed.

Lemma runs_clip_f32 a lo hi st :
  dtype_of a = float32 ->
  runs (clip (T := ImageAdjuster) a lo hi) st (image_of float32 (clip_elem float32 lo hi) a).
Proof.
  intros Ha. eapply runs_weaken; [apply runs_clip|].
  intros r. rewrite Ha. auto.
Qed.

Lemma apply_brightness_elementwise img b st :
  dtype_of img = float32 ->
  runs (apply_brightness img b) st (image_of float32 (brightness_elem b) img).
Proof.
  intros Hd. unfold apply_brightness.
  destruct (Float.eqb b (PyFloat.of_int 0)) eqn:Eb.
  - apply runs_ret. rewrite <- Hd. apply image_of_self.
    intros x. unfold brightness_elem. now rewrite Eb.
  - eapply runs_bind; [apply runs_truediv_eq; reflexivity|].
    intros off st1 -> _ _.
    eapply runs_bind; [apply runs_scalar_f32; exact Hd|].
    intros t st2 Ht _ _.
    eapply runs_weaken; [apply runs_clip_f32; apply Ht|].
    intros r Hr. eapply image_of_ext; [|eapply image_of_trans; eauto].
    intros x. unfold brightness_elem. now rewrite Eb.
Qed.

Lemma apply_contrast_elementwise img c st :
  dtype_of img = float32 ->
  runs (apply_contrast img c) st (image_of float32 (contrast_elem c) img).
Proof.
  intros Hd. unfold apply_contrast.
  destruct (Float.eqb c PyFloat.lit_1_0) eqn:Ec.
  - apply runs_ret. rewrite <- Hd. apply image_of_self.
    intros x. unfold contrast_elem. now rewrite Ec.
  - eapply runs_bind; [apply runs_scalar_f32; exact Hd|].
    intros t1 st1 H1 _ _.
    eapply runs_bind; [apply runs_scalar_f32; apply H1|].
    intros t2 st2 H2 _ _.
    eapply runs_bind; [apply runs_scalar_f32; apply H2|].
    intros t3 st3 H3 _ _.
    eapply runs_weaken; [apply runs_clip_f32; apply H3|].
    intros r Hr. eapply image_of_ext;
      [|eapply image_of_trans; [eapply image_of_trans; [eapply image_of_trans|]|]; eauto].
    intros x. unfold contrast_elem. now rewrite Ec.
Qed.

Lemma apply_gamma_elementwise ext img g st :
  dtype_of img = float32 ->
  Float.eqb g Float.zero = false ->
  runs (apply_gamma ext img g) st (image_of float32 (gamma_elem ext g) img).
Proof.
  intros Hd Hg. unfold apply_gamma.
  destruct (Float.eqb g PyFloat.lit_1_0) eqn:Eg.
  - apply runs_ret. rewrite <- Hd. apply image_of_self.
    intros x. unfold gamma_elem. now rewrite Eg.
  - eapply runs_bind; [apply runs_clip_f32; exact Hd|].
    intros t1 st1 H1 _ _.
    eapply runs_bind; [apply runs_truediv_eq; exact Hg|].
    intros ex st2 -> _ _.
    eapply runs_weaken; [apply runs_scalar_f32; apply H1|].
    intros r Hr. eapply image_of_ext; [|eapply image_of_trans; eauto].
    intros x. unfold gamma_elem. now rewrite Eg.
Qed.

Lemma apply_invert_elementwise img i st :
  dtype_of img = float32 ->
  runs (apply_invert img i) st (image_of float32 (invert_elem i) img).
Proof.
  intros Hd. unfold apply_invert, invert_elem.
  destruct (negb i).
  - apply runs_ret. rewrite <- Hd. apply image_of_id.
  - apply runs_scalar_f32; exact Hd.
Qed.

(** The sharpening keeps the element type and the shape; it is no
    elementwise map, the blur mixing neighbours. *)
Lemma apply_sharpness_shape ext img sh st :
  dtype_of img = float32 ->
  runs (apply_sharpness ext img sh) st
       (fun r => dtype_of r = float32 /\ shape r = shape img).
Proof.
  intros Hd. unfold apply_sharpness.
  destruct (Float.eqb sh (PyFloat.of_int 0)).
  - apply runs_ret. auto.
  - eapply runs_bind; [apply runs_truediv_eq; reflexivity|].
    intros am st1 -> _ _.
    eapply runs_bind.
    { apply runs_alloc with (Q := fun r => dtype_of r = float32 /\ shape r = shape img).
      intros o. simpl. auto. }
    intros bl st2 (Hb1 & Hb2) _ _.
    eapply runs_bind.
    { apply runs_alloc with (Q := fun r => dtype_of r = float32 /\ shape r = shape img).
      intros o. simpl. rewrite Hd, Hb1. auto. }
    intros dt st3 (Hc1 & Hc2) _ _.
    eapply runs_bind; [apply runs_scalar_f32; exact Hc1|].
    intros bo st4 (Ho1 & Ho2 & _) _ _.
    eapply runs_bind.
    { apply runs_alloc with (Q := fun r => dtype_of r = float32 /\ shape r = shape img).
      intros o. simpl. rewrite Hd, Ho1. auto. }
    intros su st5 (Hu1 & Hu2) _ _.
    eapply runs_weaken; [apply runs_clip_f32; exact Hu1|].
    intros r (Hr1 & Hr2 & _). split; congruence.
Qed.

Lemma apply_sharpness_skip ext img sh st :
  Float.eqb sh (PyFloat.of_int 0) = true ->
  apply_sharpness ext img sh st = (Ok img, st).
Proof. intros H. unfold apply_sharpness. now rewrite H. Qed.

Lemma image_of_shape d f a r :
  image_of d f a r -> dtype_of r = d /\ shape r = shape a.
Proof. intros (H1 & H2 & _). auto. Qed.

Lemma normalized_field_elementwise ext vol lo hi st :
  runs (normalized_field ext vol lo hi) st
       (image_of float32 (normalize_elem ext lo hi) vol).
Proof.
  unfold normalized_field.
  destruct (Float.eqb hi lo) eqn:E.
  - eapply runs_weaken; [apply runs_zeros_like|].
    intros r. apply image_of_ext. intros x. unfold normalize_elem. now rewrite E.
  - eapply runs_bind; [apply runs_astype|].
    intros t1 st1 H1 _ _.
    eapply runs_bind; [apply runs_scalar_f32; apply H1|].
    intros t2 st2 H2 _ _.
    eapply runs_weaken; [apply runs_scalar_f32; apply H2|].
    intros r Hr. eapply image_of_ext;
      [|eapply image_of_trans; [eapply image_of_trans|]; eauto].
    intros x. unfold normalize_elem. now rewrite E.
Qed.

Lemma denormalized_elementwise r lo hi st :
  dtype_of r = float32 ->
  runs (denormalized r lo hi) st (image_of float32 (denormalize_elem lo hi) r).
Proof.
  intros Hd. unfold denormalized.
  eapply runs_bind; [apply runs_scalar_f32; exact Hd|].
  intros t1 st1 H1 _ _.
  eapply runs_weaken; [apply runs_scalar_f32; apply H1|].
  intros r' Hr. eapply image_of_ext; [|eapply image_of_trans; eauto].
  intros x. reflexivity.
Qed.

Lemma restore_dtype_elementwise ext od r st :
  dtype_of r = float32 ->
  runs (restore_dtype ext od r) st
       (image_of (default float32 od) (restore_elem ext od) r).
Proof.
  intros Hd. unfold restore_dtype, restore_elem.
  destruct od as [d|]; simpl.
  - destruct (is_integer d).
    + eapply runs_bind; [apply runs_clip_f32; exact Hd|].
      intros t1 st1 H1 _ _.
      eapply runs_weaken; [apply runs_astype|].
      intros r' Hr. eapply image_of_trans; eauto.
    + apply runs_bind_ret. apply runs_astype.
  - apply runs_ret. rewrite <- Hd. apply image_of_id.
Qed.

(** The five transforms in a row keep a float32 field float32 and of the
    same shape, whatever the settings, as long as [gamma] is not zero. *)
Lemma apply_transforms_shape ext img s st :
  dtype_of img = float32 ->
  Float.eqb (gamma s) Float.zero = false ->
  runs (apply_transforms ext img s) st
       (fun r => dtype_of r = float32 /\ shape r = shape img).
Proof.
  intros Hd Hg. unfold apply_transforms.
  eapply runs_bind; [apply apply_brightness_elementwise; exact Hd|].
  intros r1 st1 H1 _ _. apply image_of_shape in H1 as [T1 S1].
  eapply runs_bind; [apply apply_contrast_elementwise; exact T1|].
  intros r2 st2 H2 _ _. apply image_of_shape in H2 as [T2 S2].
  eapply runs_bind; [apply apply_gamma_elementwise; [exact T2|exact Hg]|].
  intros r3 st3 H3 _ _. apply image_of_shape in H3 as [T3 S3].
  eapply runs_bind; [apply apply_sharpness_shape; exact T3|].
  intros r4 st4 [T4 S4] _ _.
  eapply runs_weaken; [apply apply_invert_elementwise; exact T4|].
  intros r5 H5. apply image_of_shape in H5 as [T5 S5]. split; congruence.
Qed.

(** Without sharpening the five transforms are an elementwise map. *)
Lemma apply_transforms_elementwise ext img s st :
  dtype_of img = float32 ->
  Float.eqb (gamma s) Float.zero = false ->
  Float.eqb (sharpness s) (PyFloat.of_int 0) = true ->
  runs (apply_transforms ext img s) st (image_of float32 (transform_elem ext s) img).
Proof.
  intros Hd Hg Hs. unfold apply_transforms.
  eapply runs_bind; [apply apply_brightness_elementwise; exact Hd|].
  intros r1 st1 H1 _ _.
  eapply runs_bind; [apply apply_contrast_elementwise; apply H1|].
  intros r2 st2 H2 _ _.
  eapply runs_bind; [apply apply_gamma_elementwise; [apply H2|exact Hg]|].
  intros r3 st3 H3 _ _.
  eapply runs_bind.
  { exists r3, st3. rewrite apply_sharpness_skip by exact Hs.
    repeat split; auto. instantiate (1 := fun r => r = r3). reflexivity. }
  intros r4 st4 -> _ _.
  eapply runs_weaken; [apply apply_invert_elementwise; apply H3|].
  intros r5 H5. unfold transform_elem.
  eapply image_of_trans; [|exact H5].
  eapply image_of_trans; [|exact H3].
  eapply image_of_trans; eauto.
Qed.

Lemma float_eqb_zero (g : spec_float) :
  Float.eqb g Float.zero = true -> exists s, g = S754_zero s.
Proof.
  unfold Float.eqb, Float.zero.
  destruct g as [s | s | | s m e]; simpl;
    try discriminate; try (destruct s; discriminate).
  - eauto.
  - intros H. exfalso.
    assert (0 < 2 ^ (e - Z.min e 0)) by (apply Z.pow_pos_nonneg; lia).
    destruct s.
    + destruct (Z.compare_spec (Z.neg m * 2 ^ (e - Z.min e 0)) (0 * 2 ^ (0 - Z.min e 0)));
        try discriminate. nia.
    + destruct (Z.compare_spec (Z.pos m * 2 ^ (e - Z.min e 0)) (0 * 2 ^ (0 - Z.min e 0)));
        try discriminate. nia.
Qed.

(** With [gamma == 0.0] the exponent [1.0 / gamma] raises. *)
Lemma apply_transforms_gamma_zero ext img s st :
  dtype_of img = float32 ->
  Float.eqb (gamma s) Float.zero = true ->
  raises (apply_transforms ext img s) st ZeroDivisionError.
Proof.
  intros Hd Hg. unfold apply_transforms.
  eapply raises_bind_r; [apply apply_brightness_elementwise; exact Hd|].
  intros r1 st1 H1 _.
  eapply raises_bind_r; [apply apply_contrast_elementwise; apply H1|].
  intros r2 st2 H2 _.
  apply raises_bind_l.
  unfold apply_gamma.
  destruct (float_eqb_zero _ Hg) as [sg Eg]. rewrite Eg.
  replace (Float.eqb (S754_zero sg) PyFloat.lit_1_0) with false
    by (destruct sg; reflexivity).
  eapply raises_bind_r; [apply runs_clip_f32; apply H2|].
  intros t st3 _ _.
  apply raises_bind_l. unfold PyFloat.truediv.
  replace (Float.eqb (S754_zero sg) Float.zero) with true by (destruct sg; reflexivity).
  eexists. reflexivity.
Qed.

(** ** The two entry points, unfolded *)

(** The two reductions fail together, on the array without elements. *)
Lemma extremes_cases ext (v : ndarray) :
  (data v = [] /\ least ext v = None /\ greatest ext v = None)
  \/ (data v <> [] /\ exists a b, least ext v = Some a /\ greatest ext v = Some b).
Proof.
  unfold least, greatest. destruct (data v); [left; auto | right].
  split; [discriminate | eauto].
Qed.

Lemma apply_adjustments_unfold ext varg sarg st v lo hi :
  available (self st) varg = Some v ->
  is_default (effective_settings (self st) sarg) = false ->
  reference_min ext (self st) v = Some lo ->
  reference_max ext (self st) v = Some hi ->
  apply_adjustments ext varg sarg st =
  adjust_pipeline ext (_original_dtype (self st)) v
                  (effective_settings (self st) sarg) lo hi st.
Proof.
  intros Hv Hs Hlo Hhi.
  unfold apply_adjustments, adjust_pipeline, bind at 1 2, get_self.
  unfold effective_settings in *.
  assert (E : (match varg with
               | Some v0 => ret v0
               | None => match _original_volume (self st) with
                         | Some v0 => ret v0
                         | None => raise ValueError
                         end
               end) st = (Ok v, st)).
  { unfold available in Hv. destruct varg; [now inversion Hv|]. now rewrite Hv. }
  rewrite E. rewrite Hs.
  unfold reference_min, reference_max, reduced, amin, amax in *.
  unfold bind.
  destruct (extremes_cases ext v) as [(_ & E1 & E2) | (_ & a & b & E1 & E2)];
    rewrite ?E1, ?E2 in *;
    destruct (_original_min (self st)), (_original_max (self st));
    simpl in *; try discriminate;
    inversion Hlo; inversion Hhi; subst; reflexivity.
Qed.

Lemma apply_to_slice_unfold ext sl sarg st lo hi :
  is_default (effective_settings (self st) sarg) = false ->
  slice_range ext (self st) sl = Some (lo, hi) ->
  apply_to_slice ext sl sarg st =
  preview_pipeline ext sl (effective_settings (self st) sarg) lo hi st.
Proof.
  intros Hs Hr.
  unfold apply_to_slice, preview_pipeline, bind at 1, get_self.
  unfold effective_settings in *. rewrite Hs.
  unfold slice_range, reduced, amin, amax in *.
  unfold bind.
  destruct (extremes_cases ext sl) as [(_ & E1 & E2) | (_ & a & b & E1 & E2)];
    rewrite ?E1, ?E2 in *;
    destruct (_original_min (self st)), (_original_max (self st));
    simpl in *; try discriminate;
    inversion Hr; subst; reflexivity.
Qed.

(** With default settings both entry points are one [copy]. *)
Lemma apply_adjustments_default ext varg sarg st v :
  available (self st) varg = Some v ->
  is_default (effective_settings (self st) sarg) = true ->
  apply_adjustments ext varg sarg st = copy v st.
Proof.
  intros Hv Hs. unfold apply_adjustments, bind, get_self.
  unfold effective_settings, available in *.
  destruct varg as [u|]; simpl.
  - inversion Hv; subst. now rewrite Hs.
  - rewrite Hv. simpl. now rewrite Hs.
Qed.

Lemma apply_to_slice_default ext sl sarg st :
  is_default (effective_settings (self st) sarg) = true ->
  apply_to_slice ext sl sarg st = copy sl st.
Proof.
  intros Hs. unfold apply_to_slice, bind, get_self.
  unfold effective_settings in *. now rewrite Hs.
Qed.

(** ** Outcome of the two pipelines *)

Lemma adjust_pipeline_shape ext od v s lo hi st :
  Float.eqb (gamma s) Float.zero = false ->
  runs (adjust_pipeline ext od v s lo hi) st
       (fun r => dtype_of r = default float32 od /\ shape r = shape v).
Proof.
  intros Hg. unfold adjust_pipeline.
  eapply runs_bind; [apply normalized_field_elementwise|].
  intros n st1 Hn _ _. apply image_of_shape in Hn as [Tn Sn].
  eapply runs_bind; [apply apply_transforms_shape; [exact Tn|exact Hg]|].
  intros t st2 [Tt St] _ _.
  eapply runs_bind; [apply denormalized_elementwise; exact Tt|].
  intros d st3 Hd _ _. apply image_of_shape in Hd as [Td Sd].
  eapply runs_weaken; [apply restore_dtype_elementwise; exact Td|].
  intros r Hr. apply image_of_shape in Hr as [Tr Sr]. split; congruence.
Qed.

Lemma preview_pipeline_shape ext sl s lo hi st :
  Float.eqb (gamma s) Float.zero = false ->
  runs (preview_pipeline ext sl s lo hi) st
       (fun r => dtype_of r = float32 /\ shape r = shape sl).
Proof.
  intros Hg. unfold preview_pipeline.
  eapply runs_bind; [apply normalized_field_elementwise|].
  intros n st1 Hn _ _. apply image_of_shape in Hn as [Tn Sn].
  eapply runs_bind; [apply apply_transforms_shape; [exact Tn|exact Hg]|].
  intros t st2 [Tt St] _ _.
  eapply runs_weaken; [apply denormalized_elementwise; exact Tt|].
  intros r Hr. apply image_of_shape in Hr as [Tr Sr]. split; congruence.
Qed.

Lemma adjust_pipeline_gamma_zero ext od v s lo hi st :
  Float.eqb (gamma s) Float.zero = true ->
  raises (adjust_pipeline ext od v s lo hi) st ZeroDivisionError.
Proof.
  intros Hg. unfold adjust_pipeline.
  eapply raises_bind_r; [apply normalized_field_elementwise|].
  intros n st1 Hn _. apply raises_bind_l.
  apply apply_transforms_gamma_zero; [apply Hn|exact Hg].
Qed.

Lemma preview_pipeline_gamma_zero ext sl s lo hi st :
  Float.eqb (gamma s) Float.zero = true ->
  raises (preview_pipeline ext sl s lo hi) st ZeroDivisionError.
Proof.
  intros Hg. unfold preview_pipeline.
  eapply raises_bind_r; [apply normalized_field_elementwise|].
  intros n st1 Hn _. apply raises_bind_l.
  apply apply_transforms_gamma_zero; [apply Hn|exact Hg].
Qed.

(** Without a reference bound (none cached, and a volume without
    elements) the reduction raises. *)
Lemma apply_adjustments_no_range ext varg sarg st v :
  available (self st) varg = Some v ->
  is_default (effective_settings (self st) sarg) = false ->
  reference_min ext (self st) v = None \/ reference_max ext (self st) v = None ->
  raises (apply_adjustments ext varg sarg) st ValueError.
Proof.
  intros Hv Hs Hr.
  unfold raises, apply_adjustments, bind at 1 2, get_self.
  unfold effective_settings in *.
  assert (E : (match varg with
               | Some v0 => ret v0
               | None => match _original_volume (self st) with
                         | Some v0 => ret v0
                         | None => raise ValueError
                         end
               end) st = (Ok v, st)).
  { unfold available in Hv. destruct varg; [now inversion Hv|]. now rewrite Hv. }
  rewrite E, Hs.
  unfold reference_min, reference_max, reduced, amin, amax, bind in *.
  destruct (extremes_cases ext v) as [(_ & E1 & E2) | (_ & a & b & E1 & E2)];
    rewrite ?E1, ?E2 in *;
    destruct (_original_min (self st)), (_original_max (self st));
    simpl in *; destruct Hr; try discriminate;
    eexists; reflexivity.
Qed.

Lemma apply_to_slice_no_range ext sl sarg st :
  is_default (effective_settings (self st) sarg) = false ->
  slice_range ext (self st) sl = None ->
  raises (apply_to_slice ext sl sarg) st ValueError.
Proof.
  intros Hs Hr.
  unfold raises, apply_to_slice, bind at 1, get_self.
  unfold effective_settings in *. rewrite Hs.
  unfold slice_range, reduced, amin, amax, bind in *.
  destruct (extremes_cases ext sl) as [(_ & E1 & E2) | (_ & a & b & E1 & E2)];
    rewrite ?E1, ?E2 in *;
    destruct (_original_min (self st)), (_original_max (self st));
    simpl in *; try discriminate;
    eexists; reflexivity.
Qed.

Lemma runs_copy (a : ndarray) st :
  runs (copy a) st (fun r => dtype_of r = dtype_of a /\ shape r = shape a /\
                             data r = data a).
Proof. apply runs_alloc. intros o. auto. Qed.

(** * C5: the fast path of default settings *)

(** C5. With all-default settings (given, or stored when none is given)
    [apply_adjustments] on an available volume [v], registered or passed,
    returns a copy of [v]: same element type, shape and elements, under the
    first identity not yet allocated, so a buffer of its own. It is the only
    allocation of the call and [self] is untouched: no normalization or
    transform has taken place, and the library routines play no part.
    [apply_to_slice] does the same with its slice. *)
Theorem default_settings_return_copy
        (ext : external) (st : pystate) (varg : option ndarray)
        (sarg : option AdjustmentSettings) (v sl : ndarray) :
  is_default (effective_settings (self st) sarg) = true ->
  available (self st) varg = Some v ->
  apply_adjustments ext varg sarg st =
    (Ok (NDArray (next_oid st) (dtype_of v) (shape v) (data v)),
     Heap (S (next_oid st)) (self st))
  /\
  apply_to_slice ext sl sarg st =
    (Ok (NDArray (next_oid st) (dtype_of sl) (shape sl) (data sl)),
     Heap (S (next_oid st)) (self st)).
Proof.
  intros Hs Hv. split.
  - rewrite (apply_adjustments_default ext varg sarg st v Hv Hs). reflexivity.
  - rewrite (apply_to_slice_default ext sl sarg st Hs). reflexivity.
Qed.

Lemma default_settings_return_copy_witness :
  apply_adjustments plain_external None None demo_state =
    (Ok (NDArray 2 uint8 [2; 1; 3]%nat (map NInt [0; 255; 100; 50; 25; 200])),
     Heap 3 (self demo_state))
  /\
  apply_to_slice plain_external (plane 1 demo_volume) (Some default_settings) demo_state =
    (Ok (NDArray 2 uint8 [1; 3]%nat (map NInt [50; 25; 200])),
     Heap 3 (self demo_state)).
Proof.
  split.
  - apply (default_settings_return_copy plain_external demo_state None None
             (NDArray 1 uint8 [2; 1; 3]%nat (map NInt [0; 255; 100; 50; 25; 200]))
             demo_volume); reflexivity.
  - apply (default_settings_return_copy plain_external demo_state None
             (Some default_settings) 
             (NDArray 1 uint8 [2; 1; 3]%nat (map NInt [0; 255; 100; 50; 25; 200]))
             (plane 1 demo_volume)); reflexivity.
Defined.

(** * C4: the exceptions of the entry points *)

(** With [gamma=0.0] the call on a registered volume raises: a volume is
    available and yet the call does not return. *)
Lemma apply_adjustments_gamma_zero_raises :
  (forall ext : external,
     set_original_volume ext demo_volume fresh_state = (Ok tt, demo_state))
  /\ (forall ext : external,
        fst (apply_adjustments ext None (Some gamma_zero_settings) demo_state)
        = Raise ZeroDivisionError).
Proof.
  split; intros ext; reflexivity.
Qed.

(** C4, amended. Without a volume argument and without a registered volume
    [apply_adjustments] raises [ValueError] and leaves the state as it was.
    With a volume available it returns, except with non-default settings in
    two cases: a reference bound is neither cached nor computable, the
    volume having no element ([ValueError]); or [gamma == 0.0]
    ([ZeroDivisionError]). [apply_to_slice] returns under the same
    conditions on its slice. *)
Theorem apply_outcomes
        (ext : external) (st : pystate) (varg : option ndarray)
        (sarg : option AdjustmentSettings) (sl : ndarray) :
  let s := effective_settings (self st) sarg in
  match available (self st) varg with
  | None => apply_adjustments ext varg sarg st = (Raise ValueError, st)
  | Some v =>
      if is_default s then runs (apply_adjustments ext varg sarg) st (fun _ => True)
      else
        match reference_min ext (self st) v, reference_max ext (self st) v with
        | Some _, Some _ =>
            if Float.eqb (gamma s) Float.zero
            then raises (apply_adjustments ext varg sarg) st ZeroDivisionError
            else runs (apply_adjustments ext varg sarg) st (fun _ => True)
        | _, _ => raises (apply_adjustments ext varg sarg) st ValueError
        end
  end
  /\
  (if is_default s then runs (apply_to_slice ext sl sarg) st (fun _ => True)
   else
     match slice_range ext (self st) sl with
     | Some _ =>
         if Float.eqb (gamma s) Float.zero
         then raises (apply_to_slice ext sl sarg) st ZeroDivisionError
         else runs (apply_to_slice ext sl sarg) st (fun _ => True)
     | None => raises (apply_to_slice ext sl sarg) st ValueError
     end).
Proof.
  intros s. split.
  - destruct (available (self st) varg) as [v|] eqn:Hv.
    + destruct (is_default s) eqn:Hs.
      * unfold runs. rewrite (apply_adjustments_default ext varg sarg st v Hv Hs).
        eapply runs_weaken; [apply runs_copy|]. auto.
      * destruct (reference_min ext (self st) v) as [lo|] eqn:Hlo.
        2:{ apply apply_adjustments_no_range with (v := v); auto. }
        destruct (reference_max ext (self st) v) as [hi|] eqn:Hhi.
        2:{ apply apply_adjustments_no_range with (v := v); auto. }
        destruct (Float.eqb (gamma s) Float.zero) eqn:Hg.
        -- unfold raises.
           rewrite (apply_adjustments_unfold ext varg sarg st v lo hi Hv Hs Hlo Hhi).
           now apply adjust_pipeline_gamma_zero.
        -- unfold runs.
           rewrite (apply_adjustments_unfold ext varg sarg st v lo hi Hv Hs Hlo Hhi).
           eapply runs_weaken; [now apply adjust_pipeline_shape|]. auto.
    + unfold available in Hv. destruct varg; [discriminate|].
      unfold apply_adjustments, bind, get_self. now rewrite Hv.
  - destruct (is_default s) eqn:Hs.
    + unfold runs. rewrite (apply_to_slice_default ext sl sarg st Hs).
      eapply runs_weaken; [apply runs_copy|]. auto.
    + destruct (slice_range ext (self st) sl) as [[lo hi]|] eqn:Hr.
      2:{ now apply apply_to_slice_no_range. }
      destruct (Float.eqb (gamma s) Float.zero) eqn:Hg.
      * unfold raises. rewrite (apply_to_slice_unfold ext sl sarg st lo hi Hs Hr).
        now apply preview_pipeline_gamma_zero.
      * unfold runs. rewrite (apply_to_slice_unfold ext sl sarg st lo hi Hs Hr).
        eapply runs_weaken; [now apply preview_pipeline_shape|]. auto.
Qed.

(** * C7: the degenerate reference range *)

(** C7. When the reference bounds satisfy [v_max == v_min], the
    normalization block shared by the two entry points allocates one
    float32 array of the shape of its input whose elements are all [+0.0]
    (so no NaN and no infinity), and nothing else: the branch that divides
    is not run. Both entry points then go on from that zero field. *)
Theorem degenerate_range_gives_zero_field
        (ext : external) (st : pystate) (vol : ndarray) (lo hi : PyFloat.t)
        (varg : option ndarray) (sarg : option AdjustmentSettings) :
  Float.eqb hi lo = true ->
  normalized_field ext vol lo hi st =
    (Ok (NDArray (next_oid st) float32 (shape vol)
                 (map (fun _ => NFloat (S754_zero false)) (data vol))),
     Heap (S (next_oid st)) (self st))
  /\
  (available (self st) varg = Some vol ->
   is_default (effective_settings (self st) sarg) = false ->
   reference_min ext (self st) vol = Some lo ->
   reference_max ext (self st) vol = Some hi ->
   apply_adjustments ext varg sarg st =
     (let* zeros := zeros_like vol float32 in
      let* result := apply_transforms ext zeros (effective_settings (self st) sarg) in
      let* result := denormalized result lo hi in
      restore_dtype ext (_original_dtype (self st)) result) st)
  /\
  (is_default (effective_settings (self st) sarg) = false ->
   slice_range ext (self st) vol = Some (lo, hi) ->
   apply_to_slice ext vol sarg st =
     (let* zeros := zeros_like vol float32 in
      let* result := apply_transforms ext zeros (effective_settings (self st) sarg) in
      denormalized result lo hi) st).
Proof.
  intros E. repeat split.
  - unfold normalized_field. rewrite E. reflexivity.
  - intros Hv Hs Hlo Hhi.
    rewrite (apply_adjustments_unfold ext varg sarg st vol lo hi Hv Hs Hlo Hhi).
    unfold adjust_pipeline, normalized_field. now rewrite E.
  - intros Hs Hr.
    rewrite (apply_to_slice_unfold ext vol sarg st lo hi Hs Hr).
    unfold preview_pipeline, normalized_field. now rewrite E.
Qed.

Lemma degenerate_range_gives_zero_field_witness :
  normalized_field plain_external constant_volume (PyFloat.of_int 7) (PyFloat.of_int 7)
                   constant_state =
    (Ok (NDArray 2 float32 [1; 1; 3]%nat
                 [NFloat (S754_zero false); NFloat (S754_zero false);
                  NFloat (S754_zero false)]),
     Heap 3 (self constant_state)).
Proof.
  exact (proj1 (degenerate_range_gives_zero_field
                  plain_external constant_state constant_volume
                  (PyFloat.of_int 7) (PyFloat.of_int 7)
                  None (Some brightness_10_settings) eq_refl)).
Defined.

(** * C10: the element type of the preview *)

(** C10. With non-default settings [apply_to_slice] is the pipeline that
    ends with the denormalization: [restore_dtype] is not part of it. When
    it returns (a reference range exists and [gamma] is not zero) the
    result is a float32 array of the shape of the slice, whatever the
    element type of the slice and whatever element type is cached, an
    integer one included. With default settings the result has the element
    type, shape and elements of the slice. *)
Theorem apply_to_slice_returns_float32
        (ext : external) (st : pystate) (sl : ndarray)
        (sarg : option AdjustmentSettings) :
  let s := effective_settings (self st) sarg in
  if is_default s then
    runs (apply_to_slice ext sl sarg) st
         (fun r => dtype_of r = dtype_of sl /\ shape r = shape sl /\ data r = data sl)
  else
    forall lo hi : PyFloat.t,
      slice_range ext (self st) sl = Some (lo, hi) ->
      Float.eqb (gamma s) Float.zero = false ->
      apply_to_slice ext sl sarg st = preview_pipeline ext sl s lo hi st
      /\ runs (apply_to_slice ext sl sarg) st
              (fun r => dtype_of r = float32 /\ shape r = shape sl).
Proof.
  intros s. destruct (is_default s) eqn:Hs.
  - unfold runs. rewrite (apply_to_slice_default ext sl sarg st Hs).
    apply runs_copy.
  - intros lo hi Hr Hg. split.
    + now apply apply_to_slice_unfold.
    + unfold runs. rewrite (apply_to_slice_unfold ext sl sarg st lo hi Hs Hr).
      now apply preview_pipeline_shape.
Qed.

Lemma apply_to_slice_returns_float32_witness :
  _original_dtype (self demo_state) = Some uint8
  /\ runs (apply_to_slice plain_external (plane 0 demo_volume)
                          (Some brightness_10_settings)) demo_state
          (fun r => dtype_of r = float32 /\ shape r = shape (plane 0 demo_volume)).
Proof.
  split; [reflexivity|].
  exact (proj2 (apply_to_slice_returns_float32
                  plain_external demo_state (plane 0 demo_volume)
                  (Some brightness_10_settings)
                  (PyFloat.of_int 0) (PyFloat.of_int 255) eq_refl eq_refl)).
Defined.

(** ** Registration *)

(** What a successful [set_original_volume(v)] leaves in [self]: a copy
    of [v] under a new identity, its element type and its two bounds; [v]
    has at least one element. *)
Lemma set_original_volume_ok ext v st0 st :
  set_original_volume ext v st0 = (Ok tt, st) ->
  exists lo hi,
    reduced (least ext) v = Some lo /\ reduced (greatest ext) v = Some hi /\
    self st = Adjuster (settings (self st0))
                       (Some (NDArray (next_oid st0) (dtype_of v) (shape v) (data v)))
                       (Some (dtype_of v)) (Some lo) (Some hi).
Proof.
  unfold set_original_volume, bind, copy, alloc, set_self, amin, amax, reduced.
  simpl.
  destruct (extremes_cases ext v) as [(_ & E1 & E2) | (_ & a & b & E1 & E2)];
    rewrite E1, ?E2; simpl; [discriminate|].
  intros H. inversion H; subst; clear H. simpl. eauto.
Qed.

Lemma bind_assoc {A B C} (c : M pystate A) (f : A -> M pystate B)
      (g : B -> M pystate C) st :
  bind (bind c f) g st = bind c (fun a => bind (f a) g) st.
Proof. unfold bind. destruct (c st) as [[a|e] st1]; reflexivity. Qed.

(** The volume pipeline is the preview pipeline followed by the
    conversion to the registered element type. *)
Lemma adjust_pipeline_split ext od v s lo hi st :
  adjust_pipeline ext od v s lo hi st =
  bind (preview_pipeline ext v s lo hi) (restore_dtype ext od) st.
Proof.
  unfold adjust_pipeline, preview_pipeline, bind.
  destruct (normalized_field ext v lo hi st) as [[n|e] st1]; [|reflexivity].
  destruct (apply_transforms ext n s st1) as [[t|e] st2]; [|reflexivity].
  destruct (denormalized t lo hi st2) as [[d|e] st3]; reflexivity.
Qed.

(** ** Conversion to an 8-bit unsigned integer *)





Lemma normalized_field_same ext a b lo hi :
  shape a = shape b -> data a = data b ->
  normalized_field ext a lo hi = normalized_field ext b lo hi.
Proof.
  intros Hs Hd. unfold normalized_field, zeros_like, astype.
  now rewrite Hs, Hd.
Qed.

Lemma preview_pipeline_same ext a b s lo hi :
  shape a = shape b -> data a = data b ->
  preview_pipeline ext a s lo hi = preview_pipeline ext b s lo hi.
Proof.
  intros Hs Hd. unfold preview_pipeline.
  now rewrite (normalized_field_same ext a b lo hi Hs Hd).
Qed.

(** * C3: the element type and the range of the result *)



(** * C2: preview and final result *)

Lemma preview_pipeline_elementwise ext a s lo hi st :
  Float.eqb (gamma s) Float.zero = false ->
  Float.eqb (sharpness s) (PyFloat.of_int 0) = true ->
  runs (preview_pipeline ext a s lo hi) st
       (image_of float32 (preview_elem ext s lo hi) a).
Proof.
  intros Hg Hs. unfold preview_pipeline.
  eapply runs_bind; [apply normalized_field_elementwise|].
  intros n st1 Hn _ _.
  eapply runs_bind; [apply apply_transforms_elementwise; [apply Hn|exact Hg|exact Hs]|].
  intros t st2 Ht _ _.
  eapply runs_weaken; [apply denormalized_elementwise; apply Ht|].
  intros r Hr. eapply image_of_ext;
    [|eapply image_of_trans; [eapply image_of_trans|]; eauto].
  intros x. reflexivity.
Qed.

Lemma select_map (f : num -> num) (pos : list nat) (l : list num) :
  Forall (fun i => (i < length l)%nat) pos ->
  map (fun i => nth i (map f l) (NInt 0)) pos =
  map f (map (fun i => nth i l (NInt 0)) pos).
Proof.
  intros H. rewrite map_map. induction H as [|i pos Hi _ IH]; simpl; [reflexivity|].
  f_equal; [|exact IH].
  rewrite (nth_indep (map f l) (NInt 0) (f (NInt 0))) by (now rewrite length_map).
  apply map_nth.
Qed.

(** The preview of the first plane of the demonstration volume differs
    from that plane of the adjusted volume: 25.5, 255.0 and 125.5 on one
    side, 25, 255 and 125 on the other. With sharpening the difference
    stays after the conversion to the registered element type: the preview
    blurs the plane alone, the adjustment blurs the volume along its three
    axes, and with the Gaussian filter the second plane gives 47, 0 and 255
    on one side, 37, 0 and 255 on the other. *)
Lemma preview_differs_from_final :
  (forall ext : external,
     set_original_volume ext demo_volume fresh_state = (Ok tt, demo_state))
  /\ (forall ext : external,
        let r := NDArray 10 uint8 [2; 1; 3]%nat
                         (map NInt [25; 255; 125; 75; 50; 225]) in
        let p := NDArray 8 float32 [1; 3]%nat
                         [NFloat (S754_finite false 13369344 (-19));
                          NFloat (S754_finite false 16711680 (-16));
                          NFloat (S754_finite false 16449536 (-17))] in
        fst (apply_adjustments ext None (Some brightness_10_settings) demo_state) = Ok r
        /\ fst (apply_to_slice ext (plane 0 demo_volume) (Some brightness_10_settings)
                               demo_state) = Ok p
        /\ data (plane 0 r) = map NInt [25; 255; 125]
        /\ array_equal p (plane 0 r) = false)
  /\ (let r := NDArray 13 uint8 [2; 1; 3]%nat (map NInt [0; 255; 60; 37; 0; 255]) in
      let p := NDArray 11 float32 [1; 3]%nat
                       [NFloat (S754_finite false 12570881 (-18));
                        NFloat (S754_zero false);
                        NFloat (S754_finite false 16711680 (-16))] in
      let q := NDArray 13 uint8 [1; 3]%nat (map NInt [47; 0; 255]) in
      is_default sharpness_50_settings = false
      /\ fst (apply_adjustments gaussian_external None (Some sharpness_50_settings)
                                demo_state) = Ok r
      /\ apply_to_slice gaussian_external (plane 1 demo_volume)
                        (Some sharpness_50_settings) demo_state
         = (Ok p, Heap 12 (self demo_state))
      /\ fst (restore_dtype gaussian_external (Some uint8) p (Heap 12 (self demo_state)))
         = Ok q
      /\ data (plane 1 r) = map NInt [37; 0; 255]
      /\ array_equal q (plane 1 r) = false).
Proof.
  split; [intros ext; reflexivity|]. split.
  - intros ext r p. repeat split; vm_compute; reflexivity.
  - cbv zeta. repeat split; vm_compute; reflexivity.
Qed.

(** C2, amended. After [set_original_volume(v)], for a sub-array of [v]
    given by in-range positions (a plane of [v] is one) and non-default
    settings without sharpening: when [gamma == 0.0] both entry points raise
    [ZeroDivisionError]; otherwise both return, both normalize with the
    cached bounds, [apply_to_slice] returns a float32 array of the shape of
    the sub-array, and the element type conversion of [apply_adjustments]
    ([restore_dtype]) applied to that array gives the elements found at
    those positions in the result of [apply_adjustments] on the registered
    volume. *)
Theorem preview_matches_final_after_cast
        (ext : external) (st0 st : pystate) (v : ndarray)
        (pos sh : list nat) (varg : option ndarray)
        (sarg : option AdjustmentSettings) :
  set_original_volume ext v st0 = (Ok tt, st) ->
  varg = None \/ varg = Some v ->
  Forall (fun i => (i < length (data v))%nat) pos ->
  let s := effective_settings (self st) sarg in
  is_default s = false ->
  Float.eqb (sharpness s) (PyFloat.of_int 0) = true ->
  if Float.eqb (gamma s) Float.zero then
    raises (apply_adjustments ext varg sarg) st ZeroDivisionError
    /\ raises (apply_to_slice ext (select pos sh v) sarg) st ZeroDivisionError
  else
    exists lo hi r st1 p st2 q st3,
      _original_min (self st) = Some lo /\ _original_max (self st) = Some hi
      /\ reference_min ext (self st) v = Some lo /\ reference_max ext (self st) v = Some hi
      /\ slice_range ext (self st) (select pos sh v) = Some (lo, hi)
      /\ apply_adjustments ext varg sarg st = (Ok r, st1)
      /\ apply_to_slice ext (select pos sh v) sarg st = (Ok p, st2)
      /\ dtype_of p = float32 /\ shape p = sh
      /\ dtype_of r = dtype_of v /\ shape r = shape v
      /\ restore_dtype ext (Some (dtype_of v)) p st2 = (Ok q, st3)
      /\ dtype_of q = dtype_of r
      /\ shape q = shape (select pos sh r)
      /\ data q = data (select pos sh r).
Proof.
  intros Hreg Hv Hpos s Hs Hsh.
  destruct (set_original_volume_ok ext v st0 st Hreg) as (lo & hi & Hlo & Hhi & Hself).
  set (c := NDArray (next_oid st0) (dtype_of v) (shape v) (data v)) in *.
  assert (Hw : exists w, available (self st) varg = Some w /\
                         shape w = shape v /\ data w = data v).
  { destruct Hv as [-> | ->].
    - exists c. rewrite Hself. auto.
    - exists v. auto. }
  destruct Hw as (w & Hw & Sw & Dw).
  assert (Omin : _original_min (self st) = Some lo) by (rewrite Hself; reflexivity).
  assert (Omax : _original_max (self st) = Some hi) by (rewrite Hself; reflexivity).
  assert (Od : _original_dtype (self st) = Some (dtype_of v))
    by (rewrite Hself; reflexivity).
  assert (Rlo : forall a, reference_min ext (self st) a = Some lo)
    by (intros a; unfold reference_min; now rewrite Omin).
  assert (Rhi : forall a, reference_max ext (self st) a = Some hi)
    by (intros a; unfold reference_max; now rewrite Omax).
  assert (Rs : forall a, slice_range ext (self st) a = Some (lo, hi))
    by (intros a; unfold slice_range; now rewrite Omin, Omax).
  unfold raises.
  rewrite (apply_adjustments_unfold ext varg sarg st w lo hi Hw Hs (Rlo w) (Rhi w)).
  rewrite (apply_to_slice_unfold ext (select pos sh v) sarg st lo hi Hs (Rs _)).
  fold s. rewrite Od.
  destruct (Float.eqb (gamma s) Float.zero) eqn:Hg.
  - split.
    + now apply adjust_pipeline_gamma_zero.
    + now apply preview_pipeline_gamma_zero.
  - rewrite adjust_pipeline_split.
    rewrite (preview_pipeline_same ext w v s lo hi Sw Dw).
    destruct (preview_pipeline_elementwise ext v s lo hi st Hg Hsh)
      as (fv & sv & Ev & _ & _ & Tv & Sv & Dv).
    destruct (restore_dtype_elementwise ext (Some (dtype_of v)) fv sv Tv)
      as (r & st1 & Er & _ & _ & Tr & Sr & Dr).
    destruct (preview_pipeline_elementwise ext (select pos sh v) s lo hi st Hg Hsh)
      as (p & st2 & Ep & _ & _ & Tp & Sp & Dp).
    destruct (restore_dtype_elementwise ext (Some (dtype_of v)) p st2 Tp)
      as (q & st3 & Eq & _ & _ & Tq & Sq & Dq).
    exists lo, hi, r, st1, p, st2, q, st3.
    unfold bind. rewrite Ev.
    repeat (split; [solve [auto | congruence]|]).
    split; [rewrite Sq, Sp; reflexivity|].
    rewrite Dq, Dp. simpl. rewrite Dr, Dv.
    rewrite (map_map _ _ (data v)), (select_map _ pos (data v) Hpos), !map_map.
    reflexivity.
Qed.

Lemma preview_matches_final_after_cast_witness :
  exists r p q st1 st2 st3,
    apply_adjustments plain_external None (Some brightness_10_settings) demo_state
    = (Ok r, st1)
    /\ apply_to_slice plain_external (plane 0 demo_volume)
                      (Some brightness_10_settings) demo_state = (Ok p, st2)
    /\ restore_dtype plain_external (Some uint8) p st2 = (Ok q, st3)
    /\ data q = data (select [0; 1; 2]%nat [1; 3]%nat r).
Proof.
  destruct (preview_matches_final_after_cast
              plain_external fresh_state demo_state demo_volume
              [0; 1; 2]%nat [1; 3]%nat None (Some brightness_10_settings)
              eq_refl (or_introl eq_refl)
              ltac:(repeat constructor) eq_refl eq_refl)
    as (lo & hi & r & st1 & p & st2 & q & st3 & _ & _ & _ & _ & _ & E1 & E2
        & _ & _ & _ & _ & E3 & _ & _ & D).
  exists r, p, q, st1, st2, st3. repeat split; assumption.
Defined.

(** * C6: the order of the transforms *)

Lemma chain_stages ext s n st :
  chain (stages ext s) n st = apply_transforms ext n s st.
Proof.
  unfold chain, stages, apply_transforms. simpl. unfold bind, ret.
  destruct (apply_brightness n (brightness s) st) as [[r1|e] st1]; [|reflexivity].
  destruct (apply_contrast r1 (contrast s) st1) as [[r2|e] st2]; [|reflexivity].
  destruct (apply_gamma ext r2 (gamma s) st2) as [[r3|e] st3]; [|reflexivity].
  destruct (apply_sharpness ext r3 (sharpness s) st3) as [[r4|e] st4]; reflexivity.
Qed.

(** C6. With non-default settings both entry points run, between the
    normalization and the denormalization, the five transforms in the
    order brightness, contrast, gamma, sharpness, invert. The order shows:
    on the field 0.0, 0.5, 1.0, brightness 20 then contrast 2.0 gives
    0.0, 0.9, 1.0 (in float32), contrast 2.0 then brightness 20 gives
    0.2, 0.7, 1.0, and [apply_adjustments] with these two settings on that
    field as registered volume returns the former. *)
Theorem fixed_transform_order
        (ext : external) (st : pystate) (varg : option ndarray)
        (sarg : option AdjustmentSettings) (v sl : ndarray) (lo hi : PyFloat.t) :
  let s := effective_settings (self st) sarg in
  let b_then_c :=
    [NFloat (S754_zero false); NFloat (S754_finite false 15099494 (-24));
     NFloat (S754_finite false 8388608 (-23))] in
  let c_then_b :=
    [NFloat (S754_finite false 13421773 (-26)); NFloat (S754_finite false 11744051 (-24));
     NFloat (S754_finite false 8388608 (-23))] in
  (is_default s = false ->
   available (self st) varg = Some v ->
   reference_min ext (self st) v = Some lo ->
   reference_max ext (self st) v = Some hi ->
   apply_adjustments ext varg sarg st =
     (let* normalized := normalized_field ext v lo hi in
      let* result := chain (stages ext s) normalized in
      let* result := denormalized result lo hi in
      restore_dtype ext (_original_dtype (self st)) result) st)
  /\
  (is_default s = false ->
   slice_range ext (self st) sl = Some (lo, hi) ->
   apply_to_slice ext sl sarg st =
     (let* normalized := normalized_field ext sl lo hi in
      let* result := chain (stages ext s) normalized in
      denormalized result lo hi) st)
  /\
  (fst ((let* x := apply_brightness unit_volume (PyFloat.of_int 20) in
         apply_contrast x (PyFloat.of_int 2)) unit_state)
   = Ok (NDArray 7 float32 [1; 1; 3]%nat b_then_c)
   /\
   fst ((let* x := apply_contrast unit_volume (PyFloat.of_int 2) in
         apply_brightness x (PyFloat.of_int 20)) unit_state)
   = Ok (NDArray 7 float32 [1; 1; 3]%nat c_then_b)
   /\
   all_eqb b_then_c c_then_b = false
   /\
   fst (apply_adjustments ext None (Some order_settings) unit_state)
   = Ok (NDArray 13 float32 [1; 1; 3]%nat b_then_c)).
Proof.
  intros s b_then_c c_then_b. split; [|split].
  - intros Hs Hv Hlo Hhi.
    rewrite (apply_adjustments_unfold ext varg sarg st v lo hi Hv Hs Hlo Hhi).
    fold s. unfold adjust_pipeline, bind.
    destruct (normalized_field ext v lo hi st) as [[n|e] st1]; [|reflexivity].
    now rewrite chain_stages.
  - intros Hs Hr.
    rewrite (apply_to_slice_unfold ext sl sarg st lo hi Hs Hr).
    fold s. unfold preview_pipeline, bind.
    destruct (normalized_field ext sl lo hi st) as [[n|e] st1]; [|reflexivity].
    now rewrite chain_stages.
  - repeat split; vm_compute; reflexivity.
Qed.

Lemma fixed_transform_order_witness :
  apply_adjustments plain_external None (Some order_settings) unit_state =
    (let* normalized := normalized_field plain_external unit_volume
                                         (PyFloat.of_int 0) (PyFloat.of_int 1) in
     let* result := chain (stages plain_external order_settings) normalized in
     let* result := denormalized result (PyFloat.of_int 0) (PyFloat.of_int 1) in
     restore_dtype plain_external (Some float32) result) unit_state.
Proof.
  exact (proj1 (fixed_transform_order
                  plain_external unit_state None (Some order_settings)
                  (NDArray 1 float32 [1; 1; 3]%nat (data unit_volume)) unit_volume
                  (PyFloat.of_int 0) (PyFloat.of_int 1))
               eq_refl eq_refl eq_refl eq_refl).
Defined.

(** * C9: the round trip of normalization and denormalization *)









(* ===================================================================== *)
(** * Persistence                                                         *)
(* ===================================================================== *)

(** ** The text [export_adjustment_settings] writes *)

Lemma string_app_nil_r (s : string) : s ++ "" = s.
Proof.
  induction s as [|c s IH]; [reflexivity|].
  change (String c (s ++ "") = String c s). now rewrite IH.
Qed.

Lemma string_app_assoc (a b c : string) : (a ++ b) ++ c = a ++ (b ++ c).
Proof.
  induction a as [|x a IH]; [reflexivity|].
  change (String x ((a ++ b) ++ c) = String x (a ++ (b ++ c))). now rewrite IH.
Qed.

Lemma no_fault_split (w : world) (n m : nat) :
  no_fault w (n + m) =
  no_fault w n &&
  forallb (fun k => negb (io_fault w k)) (seq (io_count w + n) m).
Proof. unfold no_fault. now rewrite seq_app, forallb_app. Qed.

Lemma writes_ret d f : writes d f (ret tt) 0 "".
Proof.
  intros w c0 _ Hf. simpl. rewrite string_app_nil_r.
  rewrite (insert_id _ _ _ Hf), Nat.add_0_r. now destruct w.
Qed.

Lemma writes_write d f t : writes d f (write f t) 1 t.
Proof.
  intros w c0 _ Hf. unfold no_fault, write, bind, io_step, get, set_file, modify.
  simpl. destruct (io_fault w (io_count w)); simpl.
  - eauto.
  - rewrite Hf. simpl. now rewrite Nat.add_1_r.
Qed.

Lemma writes_bind d f (c1 : M world unit) (c2 : M world unit) n1 n2 t1 t2 :
  writes d f c1 n1 t1 -> writes d f c2 n2 t2 ->
  writes d f (bind c1 (fun _ => c2)) (n1 + n2) (t1 ++ t2).
Proof.
  intros H1 H2 w c0 Hd Hf. specialize (H1 w c0 Hd Hf).
  rewrite no_fault_split. unfold bind.
  destruct (no_fault w n1).
  - rewrite H1. simpl.
    set (w1 := World (<[f:=c0 ++ t1]> (fs w)) (now w) (io_fault w)
                     (io_count w + n1) (stdout w)).
    specialize (H2 w1 (c0 ++ t1) Hd (lookup_insert_eq _ _ _)).
    unfold no_fault in H2. simpl in H2.
    destruct (forallb (fun k => negb (io_fault w k)) (seq (io_count w + n1) n2)).
    + rewrite H2. simpl.
      now rewrite insert_insert_eq, string_app_assoc, Nat.add_assoc.
    + destruct H2 as (e & w' & E & Hs & Ho). exists e, w'. auto.
  - destruct H1 as (e & w' & E & Hs & Ho). simpl. rewrite E. eauto.
Qed.

Lemma writes_get d f (k : world -> M world unit) n t :
  (forall w0, now w0 = d -> writes d f (k w0) n t) ->
  writes d f (bind get k) n t.
Proof. intros H w c0 Hd Hf. exact (H w Hd w c0 Hd Hf). Qed.

Lemma writes_items d f (items : list (string * string)) :
  writes d f (for_each (fun kv => write f ("  " ++ fst kv ++ ": " ++ snd kv ++ nl)) items)
         (length items) (items_text items).
Proof.
  induction items as [|kv l IH]; simpl.
  - apply writes_ret.
  - apply (writes_bind d f _ _ 1 (length l)); [apply writes_write|exact IH].
Qed.

Lemma writes_same d f c n n' t t' :
  writes d f c n t -> n = n' -> t = t' -> writes d f c n' t'.
Proof. now intros H -> ->. Qed.

Ltac writes_step :=
  first
    [ apply writes_write
    | apply writes_ret
    | apply writes_items
    | apply writes_get; intros ? ?
    | eapply writes_bind ].

(** The writes between the opening and the closing of the file. *)
Lemma export_writes_spec s d f volume_info :
  writes d f
    (let* _ := write f (Str.repeat_char "=" 60 ++ nl) in
     let* _ := write f ("VMM-FRC Image Adjustment Settings" ++ nl) in
     let* _ := write f (Str.repeat_char "=" 60 ++ nl ++ nl) in
     let* w := get in
     let* _ := write f ("Exported: " ++ strftime (now w) ++ nl ++ nl) in
     let* _ :=
       match volume_info with
       | Some ((_ :: _) as items) =>
           let* _ := write f (Str.repeat_char "-" 40 ++ nl) in
           let* _ := write f ("Volume Information" ++ nl) in
           let* _ := write f (Str.repeat_char "-" 40 ++ nl) in
           let* _ := for_each (fun kv => write f ("  " ++ fst kv ++ ": " ++ snd kv ++ nl))
                              items in
           write f nl
       | _ => ret tt
       end in
     let* _ := write f (Str.repeat_char "-" 40 ++ nl) in
     let* _ := write f ("Adjustment Parameters" ++ nl) in
     let* _ := write f (Str.repeat_char "-" 40 ++ nl) in
     let* _ := write f ("  Brightness:  " ++ PyFloat.format_f true 1 (brightness s) ++ nl) in
     let* _ := write f ("  Contrast:    " ++ PyFloat.format_f false 2 (contrast s) ++ nl) in
     let* _ := write f ("  Gamma:       " ++ PyFloat.format_f false 2 (gamma s) ++ nl) in
     let* _ := write f ("  Sharpness:   " ++ PyFloat.format_f false 1 (sharpness s) ++ nl) in
     let* _ := write f ("  Invert:      " ++ (if invert s then "Yes" else "No") ++ nl) in
     let* _ := write f nl in
     let* _ := write f (Str.repeat_char "-" 40 ++ nl) in
     let* _ := write f ("Parameter Descriptions" ++ nl) in
     let* _ := write f (Str.repeat_char "-" 40 ++ nl) in
     let* _ := write f ("  Brightness:  Shifts all pixel values (-100 to +100)" ++ nl) in
     let* _ := write f ("  Contrast:    Multiplier around midpoint (0.1 to 3.0, 1.0 = no change)" ++ nl) in
     let* _ := write f ("  Gamma:       Gamma correction (0.1 to 3.0, 1.0 = no change)" ++ nl) in
     let* _ := write f ("               Lower values brighten, higher values darken" ++ nl) in
     let* _ := write f ("  Sharpness:   Unsharp mask amount (0 to 100)" ++ nl) in
     let* _ := write f ("  Invert:      Inverts all pixel intensities" ++ nl) in
     write f (nl ++ Str.repeat_char "=" 60 ++ nl))
    (export_writes volume_info) (export_text s d volume_info).
Proof.
  assert (V : writes d f
                (match volume_info with
                 | Some ((_ :: _) as items) =>
                     let* _ := write f (Str.repeat_char "-" 40 ++ nl) in
                     let* _ := write f ("Volume Information" ++ nl) in
                     let* _ := write f (Str.repeat_char "-" 40 ++ nl) in
                     let* _ := for_each (fun kv => write f ("  " ++ fst kv ++ ": " ++ snd kv ++ nl))
                                        items in
                     write f nl
                 | _ => ret tt
                 end)
                (match volume_info with
                 | Some ((_ :: _) as items) => 4 + length items
                 | _ => 0
                 end)
                (volume_info_text volume_info)).
  { destruct volume_info as [[|kv l]|]; try apply writes_ret.
    eapply writes_same; [repeat writes_step| |reflexivity].
    simpl. lia. }
  eapply writes_same.
  - eapply writes_bind; [apply writes_write|].
    eapply writes_bind; [apply writes_write|].
    eapply writes_bind; [apply writes_write|].
    apply writes_get. intros w0 Hw0. rewrite Hw0.
    eapply writes_bind; [apply writes_write|].
    eapply writes_bind; [exact V|].
    repeat (eapply writes_bind; [apply writes_write|]).
    apply writes_write.
  - unfold export_writes. destruct volume_info as [[|kv l]|]; simpl; lia.
  - reflexivity.
Qed.

Lemma with_file_open_w {A} path (body : string -> M world A) w :
  with_file (open_w path) body w =
  if io_fault w (io_count w)
  then (Raise OSError, World (fs w) (now w) (io_fault w) (S (io_count w)) (stdout w))
  else leave_file path
         (body path (World (<[path:=""]> (fs w)) (now w) (io_fault w)
                           (S (io_count w)) (stdout w))).
Proof.
  unfold with_file, open_w, bind, io_step, set_file, modify, ret, leave_file.
  destruct (io_fault w (io_count w)); reflexivity.
Qed.

Lemma with_file_open_r {A} path (body : string -> M world A) w :
  with_file (open_r path) body w =
  if io_fault w (io_count w)
  then (Raise OSError, World (fs w) (now w) (io_fault w) (S (io_count w)) (stdout w))
  else match fs w !! path with
       | Some _ =>
           leave_file path
             (body path (World (fs w) (now w) (io_fault w) (S (io_count w)) (stdout w)))
       | None =>
           (Raise OSError, World (fs w) (now w) (io_fault w) (S (io_count w)) (stdout w))
       end.
Proof.
  unfold with_file, open_r, bind, io_step, get, ret, raise, leave_file.
  destruct (io_fault w (io_count w)); [reflexivity|]. simpl.
  destruct (fs w !! path); reflexivity.
Qed.

(** The export as a whole: the file holds [export_text] when no I/O
    operation faults, and the body raises when one does. *)
Lemma export_body_spec s path volume_info w :
  if no_fault w (export_ops volume_info)
  then export_body s path volume_info w =
       (Ok tt, World (<[path := export_text s (now w) volume_info]> (fs w)) (now w)
                     (io_fault w) (io_count w + export_ops volume_info) (stdout w))
  else exists e w', export_body s path volume_info w = (Raise e, w')
                    /\ stdout w' = stdout w.
Proof.
  unfold export_ops, no_fault. simpl seq. simpl forallb.
  unfold export_body. rewrite with_file_open_w.
  destruct (io_fault w (io_count w)) eqn:F0; simpl negb; cbv iota.
  { simpl. eauto. }
  simpl andb.
  set (w1 := World (<[path:=""]> (fs w)) (now w) (io_fault w) (S (io_count w)) (stdout w)).
  pose proof (export_writes_spec s (now w) path volume_info w1 ""
                                 eq_refl (lookup_insert_eq _ _ _)) as H.
  unfold no_fault in H. simpl io_count in H. simpl io_fault in H.
  rewrite seq_app, forallb_app.
  destruct (forallb (fun k => negb (io_fault w k))
                    (seq (S (io_count w)) (export_writes volume_info))).
  - rewrite H. simpl andb. unfold leave_file, close, io_step, bind, ret. simpl.
    rewrite andb_true_r.
    destruct (io_fault w (S (io_count w + export_writes volume_info))); simpl.
    + eauto.
    + rewrite insert_insert_eq. do 3 f_equal. lia.
  - destruct H as (e & w' & E & Hs & Ho). rewrite E. simpl andb. cbv iota.
    unfold leave_file, close, io_step.
    destruct (io_fault w' (io_count w')); simpl; eauto.
Qed.

Lemma export_spec s path volume_info w :
  if no_fault w (export_ops volume_info)
  then export_adjustment_settings s path volume_info w =
       (Ok true, World (<[path := export_text s (now w) volume_info]> (fs w)) (now w)
                       (io_fault w) (io_count w + export_ops volume_info) (stdout w))
  else exists e w', export_adjustment_settings s path volume_info w = (Ok false, w')
                    /\ stdout w' = (stdout w ++ [Printed "Error exporting adjustment settings: " e])%list.
Proof.
  pose proof (export_body_spec s path volume_info w) as H.
  unfold export_adjustment_settings, try_except, bind.
  destruct (no_fault w (export_ops volume_info)).
  - rewrite H. reflexivity.
  - destruct H as (e & w' & E & Hs). rewrite E.
    unfold bind, print, modify, ret. simpl. rewrite Hs. eauto.
Qed.

(** ** Reading settings back *)

Lemma load_line_pure s line w :
  (exists s', load_line s line w = (Ok s', w)) \/
  (exists e, load_line s line w = (Raise e, w)).
Proof.
  unfold load_line, field, index, PyFloat.float_of_str, bind, ret, raise.
  repeat match goal with
         | |- context [if ?b then _ else _] => destruct b
         | |- context [match nth_error ?l ?n with _ => _ end] => destruct (nth_error l n)
         | |- context [match PyFloat.parse ?x with _ => _ end] => destruct (PyFloat.parse x)
         end; eauto.
Qed.

Lemma unparsable_line_raises s line w :
  unparsable_line line = true ->
  exists e, load_line s line w = (Raise e, w).
Proof.
  unfold unparsable_line, numeric_prefixes, existsb.
  unfold load_line, field, index, PyFloat.float_of_str, bind, ret, raise.
  intros H. apply andb_prop in H as [H1 H2].
  destruct (nth_error (Str.split ":" (Str.strip line)) 1) as [x|].
  - destruct (PyFloat.parse (Str.strip x)); [discriminate|].
    destruct (Str.startswith (Str.strip line) "Brightness:"); [eauto|].
    destruct (Str.startswith (Str.strip line) "Contrast:"); [eauto|].
    destruct (Str.startswith (Str.strip line) "Gamma:"); [eauto|].
    destruct (Str.startswith (Str.strip line) "Sharpness:"); [eauto|].
    discriminate.
  - destruct (Str.startswith (Str.strip line) "Brightness:"); [eauto|].
    destruct (Str.startswith (Str.strip line) "Contrast:"); [eauto|].
    destruct (Str.startswith (Str.strip line) "Gamma:"); [eauto|].
    destruct (Str.startswith (Str.strip line) "Sharpness:"); [eauto|].
    discriminate.
Qed.

Lemma load_lines_pure s l w :
  (exists s', load_lines s l w = (Ok s', w)) \/
  (exists e, load_lines s l w = (Raise e, w)).
Proof.
  revert s. induction l as [|line l IH]; intros s; simpl.
  - left. eauto.
  - unfold bind. destruct (load_line_pure s line w) as [(s' & E)|(e & E)]; rewrite E.
    + apply IH.
    + right. eauto.
Qed.

(** One unparsable line makes the whole loop raise, wherever it stands. *)
Lemma load_lines_unparsable s l w line :
  In line l -> unparsable_line line = true ->
  exists e, load_lines s l w = (Raise e, w).
Proof.
  revert s. induction l as [|x l IH]; intros s Hin Hbad; [destruct Hin|].
  simpl. unfold bind.
  destruct Hin as [->|Hin].
  - destruct (unparsable_line_raises s line w Hbad) as (e & E). rewrite E. eauto.
  - destruct (load_line_pure s x w) as [(s' & E)|(e & E)]; rewrite E.
    + now apply IH.
    + eauto.
Qed.

(** The result of the loop does not depend on the world. *)
Lemma load_lines_world s l w w0 :
  fst (load_lines s l w) = fst (load_lines s l w0).
Proof.
  revert s. induction l as [|x l IH]; intros s; [reflexivity|].
  simpl. unfold bind.
  assert (E : fst (load_line s x w) = fst (load_line s x w0)).
  { unfold load_line, field, index, PyFloat.float_of_str, bind, ret, raise.
    repeat match goal with
           | |- context [if ?b then _ else _] => destruct b
           | |- context [match nth_error ?l ?n with _ => _ end] => destruct (nth_error l n)
           | |- context [match PyFloat.parse ?x with _ => _ end] => destruct (PyFloat.parse x)
           end; reflexivity. }
  destruct (load_line_pure s x w) as [(s1 & E1)|(e1 & E1)];
    destruct (load_line_pure s x w0) as [(s2 & E2)|(e2 & E2)];
    rewrite E1, E2 in *; simpl in E; try discriminate.
  - inversion E; subst. apply IH.
  - exact E.
Qed.

Lemma read_lines_eq f w :
  read_lines f w =
  if io_fault w (io_count w)
  then (Raise OSError, World (fs w) (now w) (io_fault w) (S (io_count w)) (stdout w))
  else (Ok (Str.lines (default "" (fs w !! f))),
        World (fs w) (now w) (io_fault w) (S (io_count w)) (stdout w)).
Proof.
  unfold read_lines, bind, io_step, get, ret.
  destruct (io_fault w (io_count w)); reflexivity.
Qed.

Lemma close_eq f w :
  close f w =
  if io_fault w (io_count w)
  then (Raise OSError, World (fs w) (now w) (io_fault w) (S (io_count w)) (stdout w))
  else (Ok tt, World (fs w) (now w) (io_fault w) (S (io_count w)) (stdout w)).
Proof. reflexivity. Qed.

(** The body of the import: the result of the loop when the file exists
    and the three I/O operations pass, an exception otherwise. *)
Lemma load_body_spec path w :
  match fs w !! path with
  | Some c =>
      if no_fault w 3 then
        exists w', load_body path w =
                   (fst (load_lines default_settings (Str.lines c) w), w')
      else exists e w', load_body path w = (Raise e, w')
  | None => exists e w', load_body path w = (Raise e, w')
  end.
Proof.
  unfold load_body. rewrite with_file_open_r.
  unfold no_fault. simpl seq. simpl forallb.
  destruct (fs w !! path) as [c|] eqn:Hf;
    destruct (io_fault w (io_count w)) eqn:F0;
    simpl negb; simpl andb; cbv iota; eauto.
  unfold bind. rewrite !read_lines_eq. cbn [io_fault io_count fs now stdout].
  rewrite Hf. simpl default.
  destruct (io_fault w (S (io_count w))) eqn:F1; simpl negb; simpl andb; cbv iota.
  - unfold leave_file. cbv beta iota. rewrite close_eq.
    cbn [io_fault io_count fs now stdout].
    destruct (io_fault w (S (S (io_count w)))); eauto.
  - set (w2 := World (fs w) (now w) (io_fault w) (S (S (io_count w))) (stdout w)).
    pose proof (load_lines_world default_settings (Str.lines c) w w2) as Hw.
    destruct (load_lines_pure default_settings (Str.lines c) w2) as [(s & E)|(e & E)];
      cbv beta iota; rewrite E in *; simpl in Hw; rewrite Hw;
      unfold leave_file, bind, ret; cbv beta iota; rewrite close_eq;
      cbn [io_fault io_count fs now stdout w2];
      destruct (io_fault w (S (S (io_count w)))); simpl; eauto.
Qed.

(** The import, case by case: the file, the three I/O operations, the
    loop over the lines. *)
Lemma load_spec path w :
  match fs w !! path with
  | Some c =>
      if no_fault w 3 then
        match fst (load_lines default_settings (Str.lines c) w) with
        | Ok s => fst (load_adjustment_settings path w) = Ok (Some s)
        | Raise _ => fst (load_adjustment_settings path w) = Ok None
        end
      else fst (load_adjustment_settings path w) = Ok None
  | None => fst (load_adjustment_settings path w) = Ok None
  end.
Proof.
  pose proof (load_body_spec path w) as B.
  unfold load_adjustment_settings, try_except, bind.
  destruct (fs w !! path) as [c|].
  - destruct (no_fault w 3).
    + destruct B as (w' & E). rewrite E.
      destruct (fst (load_lines default_settings (Str.lines c) w)); reflexivity.
    + destruct B as (e & w' & E). rewrite E. reflexivity.
  - destruct B as (e & w' & E). rewrite E. reflexivity.
Qed.

Lemma load_never_raises path w :
  exists o w', load_adjustment_settings path w = (Ok o, w').
Proof.
  unfold load_adjustment_settings, try_except.
  destruct ((let* s := load_body path in ret (Some s)) w) as [[o|e] w'] eqn:E.
  - eauto.
  - unfold bind, print, modify, ret. simpl. eauto.
Qed.

Lemma export_never_raises s path volume_info w :
  exists b w', export_adjustment_settings s path volume_info w = (Ok b, w').
Proof.
  pose proof (export_spec s path volume_info w) as H.
  destruct (no_fault w (export_ops volume_info)).
  - eauto.
  - destruct H as (e & w' & E & _). eauto.
Qed.

(** * C8: failures of the persistence functions *)

(** C8. [export_adjustment_settings] never raises: it returns [True] when
    none of its I/O operations (the opening, the writes, the closing)
    faults and [False] as soon as one does. [load_adjustment_settings]
    never raises either; it returns [None] when the source cannot be read
    and when a line carrying one of the four numeric prefixes has a field
    that [float] rejects; a settings value is returned only when the file
    was read in full, and it is then the value the loop reaches after the
    last line. *)
Theorem persistence_error_signalling
        (s : AdjustmentSettings) (path : string)
        (volume_info : option (list (string * string))) (w : world) :
  (exists b w', export_adjustment_settings s path volume_info w = (Ok b, w'))
  /\ (no_fault w (export_ops volume_info) = false ->
      fst (export_adjustment_settings s path volume_info w) = Ok false)
  /\ (no_fault w (export_ops volume_info) = true ->
      fst (export_adjustment_settings s path volume_info w) = Ok true)
  /\ (exists o w', load_adjustment_settings path w = (Ok o, w'))
  /\ (unreadable w path -> fst (load_adjustment_settings path w) = Ok None)
  /\ (forall c line,
        fs w !! path = Some c -> In line (Str.lines c) ->
        unparsable_line line = true ->
        fst (load_adjustment_settings path w) = Ok None)
  /\ (forall s',
        fst (load_adjustment_settings path w) = Ok (Some s') ->
        exists c, fs w !! path = Some c /\ no_fault w 3 = true /\
                  forall w0, fst (load_lines default_settings (Str.lines c) w0) = Ok s').
Proof.
  pose proof (export_spec s path volume_info w) as He.
  pose proof (load_spec path w) as Hl.
  split; [apply export_never_raises|].
  split.
  { intros F. rewrite F in He. destruct He as (e & w' & E & _). now rewrite E. }
  split.
  { intros F. rewrite F in He. now rewrite He. }
  split; [apply load_never_raises|].
  split.
  { intros [F|F].
    - destruct (fs w !! path); [now rewrite F in Hl|exact Hl].
    - now rewrite F in Hl. }
  split.
  { intros c line Hf Hin Hbad. rewrite Hf in Hl.
    destruct (no_fault w 3); [|exact Hl].
    destruct (load_lines_unparsable default_settings (Str.lines c) w line Hin Hbad)
      as (e & E).
    now rewrite E in Hl. }
  intros s' Hs'.
  destruct (fs w !! path) as [c|]; [|congruence].
  exists c. split; [reflexivity|].
  destruct (no_fault w 3); [|congruence].
  split; [reflexivity|]. intros w0.
  rewrite (load_lines_world default_settings (Str.lines c) w0 w).
  destruct (fst (load_lines default_settings (Str.lines c) w)); congruence.
Qed.

Lemma persistence_error_signalling_witness :
  fst (load_adjustment_settings "notes.txt"
         (World {["notes.txt" := "Gamma: high" ++ nl ++ "Invert: yes" ++ nl]}
                (now quiet_world) (io_fault quiet_world) 0 []))
  = Ok None.
Proof.
  destruct (persistence_error_signalling default_settings "notes.txt" None
              (World {["notes.txt" := "Gamma: high" ++ nl ++ "Invert: yes" ++ nl]}
                     (now quiet_world) (io_fault quiet_world) 0 []))
    as (_ & _ & _ & _ & _ & H & _).
  apply (H ("Gamma: high" ++ nl ++ "Invert: yes" ++ nl) ("Gamma: high" ++ nl)).
  - vm_compute. reflexivity.
  - vm_compute. left. reflexivity.
  - vm_compute. reflexivity.
Defined.

(** ** The lines of an exported file *)

Lemma complete_app (x y : string) : complete y -> complete (x ++ y).
Proof.
  intros H. induction x as [|c x IH]; [exact H|].
  change (complete (String c (x ++ y))). now constructor.
Qed.

Lemma lines_from_cons (cur : string) (c : ascii) (s : string) :
  Str.lines_from cur (String c s) =
  if Ascii.eqb c "010" then
    (cur ++ String "010" EmptyString) :: Str.lines_from EmptyString s
  else if Ascii.eqb c "013" then
    match s with
    | String c' s'' =>
        if Ascii.eqb c' "010" then
          (cur ++ String "010" EmptyString) :: Str.lines_from EmptyString s''
        else
          (cur ++ String "010" EmptyString) :: Str.lines_from EmptyString s
    | EmptyString => [cur ++ String "010" EmptyString]
    end
  else Str.lines_from (cur ++ String c EmptyString) s.
Proof. reflexivity. Qed.

Lemma lines_from_complete (a : string) :
  complete a ->
  forall cur b,
    Str.lines_from cur (a ++ b) = (Str.lines_from cur a ++ Str.lines_from "" b)%list.
Proof.
  induction 1 as [|c s Hs IH]; intros cur b.
  - reflexivity.
  - change (String c s ++ b) with (String c (s ++ b)).
    rewrite !lines_from_cons.
    destruct (Ascii.eqb c "010").
    + rewrite IH. reflexivity.
    + destruct (Ascii.eqb c "013").
      * destruct Hs as [|c' s' Hs'].
        -- reflexivity.
        -- change (String c' s' ++ b) with (String c' (s' ++ b)).
           cbv beta iota.
           destruct (Ascii.eqb c' "010") eqn:E.
           ++ pose proof (IH "" b) as H1.
              change (String c' s' ++ b) with (String c' (s' ++ b)) in H1.
              rewrite !lines_from_cons, E in H1.
              inversion H1 as [H2]. rewrite H2. reflexivity.
           ++ change (String c' (s' ++ b)) with (String c' s' ++ b).
              rewrite (IH "" b). reflexivity.
      * apply IH.
Qed.

Lemma in_lines_skip (a b line : string) :
  complete a -> In line (Str.lines b) -> In line (Str.lines (a ++ b)).
Proof.
  intros Ha Hin. unfold Str.lines. rewrite (lines_from_complete a Ha).
  apply in_or_app. now right.
Qed.

Lemma in_lines_items (items : list (string * string)) (b line : string) :
  In line (Str.lines b) -> In line (Str.lines (items_text items ++ b)).
Proof.
  intros Hin. induction items as [|kv l IH]; [exact Hin|].
  simpl items_text. rewrite string_app_assoc.
  apply in_lines_skip; [|exact IH].
  repeat first [apply complete_nl | apply complete_app].
Qed.

Lemma in_lines_volume_info volume_info (b line : string) :
  In line (Str.lines b) -> In line (Str.lines (volume_info_text volume_info ++ b)).
Proof.
  intros Hin. destruct volume_info as [[|kv l]|]; try exact Hin.
  unfold volume_info_text.
  set (c1 := Str.repeat_char "-" 40 ++ nl). set (c2 := "Volume Information" ++ nl).
  assert (H1 : complete c1) by (apply complete_app, complete_nl).
  assert (H2 : complete c2) by (apply complete_app, complete_nl).
  rewrite (string_app_assoc c1), (string_app_assoc c2), (string_app_assoc c1),
    (string_app_assoc (items_text _)).
  do 3 (apply in_lines_skip; [assumption|]).
  apply in_lines_items.
  apply in_lines_skip; [apply complete_nl|exact Hin].
Qed.

(** Every exported file holds that line, and the import cannot parse it. *)
Lemma export_text_has_description s d volume_info :
  In brightness_description (Str.lines (export_text s d volume_info)).
Proof.
  unfold export_text.
  do 4 (apply in_lines_skip; [repeat first [apply complete_nl | apply complete_app]|]).
  apply in_lines_volume_info.
  do 12 (apply in_lines_skip; [repeat first [apply complete_nl | apply complete_app]|]).
  unfold descriptions_text, Str.lines.
  rewrite lines_from_complete
    by (repeat first [apply complete_nl | apply complete_app]).
  apply in_or_app. left. left. reflexivity.
Qed.

Lemma brightness_description_unparsable :
  unparsable_line brightness_description = true.
Proof. vm_compute. reflexivity. Qed.

(** X1. Whatever the settings, the volume information, the path and the
    world: when the export returns [True], the import of the file it
    wrote returns [None]. *)
Theorem export_then_load_never_round_trips
        (s : AdjustmentSettings) (path : string)
        (volume_info : option (list (string * string))) (w : world) :
  fst (export_adjustment_settings s path volume_info w) = Ok true ->
  fst (load_adjustment_settings path
         (snd (export_adjustment_settings s path volume_info w))) = Ok None.
Proof.
  intros He. pose proof (export_spec s path volume_info w) as H.
  destruct (no_fault w (export_ops volume_info)).
  2:{ destruct H as (e & w' & E & _). rewrite E in He. discriminate. }
  rewrite H. simpl snd.
  set (w' := World _ _ _ _ _).
  pose proof (load_spec path w') as Hl.
  assert (Hf : fs w' !! path = Some (export_text s (now w) volume_info))
    by apply lookup_insert_eq.
  rewrite Hf in Hl.
  destruct (no_fault w' 3); [|exact Hl].
  destruct (load_lines_unparsable default_settings
              (Str.lines (export_text s (now w) volume_info)) w'
              brightness_description
              (export_text_has_description s (now w) volume_info)
              brightness_description_unparsable) as (e & E).
  now rewrite E in Hl.
Qed.

(** * C1: export then import *)

(** C1, on the code. The example settings of the specification are
    exported with success, and the import of the exported file returns
    [None]: the loop meets the description line
    ["  Brightness:  Shifts all pixel values (-100 to +100)"], whose field
    [float] rejects. The five parameter lines alone are read back to the
    example settings, field by field. *)
Theorem export_then_load_example :
  fst (export_adjustment_settings example_settings "settings.txt" None quiet_world)
  = Ok true
  /\ fst (load_adjustment_settings "settings.txt"
            (snd (export_adjustment_settings example_settings "settings.txt" None
                                             quiet_world)))
     = Ok None
  /\ parameters_text example_settings =
     "  Brightness:  +12.3" ++ nl ++ "  Contrast:    1.50" ++ nl ++
     "  Gamma:       0.80" ++ nl ++ "  Sharpness:   45.6" ++ nl ++
     "  Invert:      Yes" ++ nl
  /\ fst (load_adjustment_settings "parameters.txt"
            (World {["parameters.txt" := parameters_text example_settings]}
                   (now quiet_world) (io_fault quiet_world) 0 []))
     = Ok (Some example_settings).
Proof. repeat split; vm_compute; reflexivity. Qed.

Lemma export_then_load_never_round_trips_witness :
  fst (load_adjustment_settings "settings.txt"
         (snd (export_adjustment_settings default_settings "settings.txt"
                 (Some [("shape", "(2, 1, 3)")]) quiet_world))) = Ok None.
Proof.
  apply (export_then_load_never_round_trips default_settings "settings.txt"
           (Some [("shape", "(2, 1, 3)")]) quiet_world).
  vm_compute. reflexivity.
Defined.

(* ===================================================================== *)
(** * More of the module                                                  *)
(* ===================================================================== *)

(** * Settings dictionaries *)

(** The values [from_dict] reads, when it is defined. *)
Lemma from_dict_fields (d : gmap string pyval) (s : AdjustmentSettings) :
  from_dict d = Some s ->
  float_value (dict_get d "brightness" (VFloat PyFloat.lit_0_0)) = Some (brightness s)
  /\ float_value (dict_get d "contrast" (VFloat PyFloat.lit_1_0)) = Some (contrast s)
  /\ float_value (dict_get d "gamma" (VFloat PyFloat.lit_1_0)) = Some (gamma s)
  /\ float_value (dict_get d "sharpness" (VFloat PyFloat.lit_0_0)) = Some (sharpness s)
  /\ bool_value (dict_get d "invert" (VBool false)) = Some (invert s).
Proof.
  unfold from_dict.
  destruct (float_value (dict_get d "brightness" _)) as [b|]; [|discriminate].
  destruct (float_value (dict_get d "contrast" _)) as [c|]; [|discriminate].
  destruct (float_value (dict_get d "gamma" _)) as [g|]; [|discriminate].
  destruct (float_value (dict_get d "sharpness" _)) as [sh|]; [|discriminate].
  destruct (bool_value (dict_get d "invert" _)) as [i|]; [|discriminate].
  intros E. injection E as <-. repeat split.
Qed.

(** X2: [from_dict] undoes [to_dict], and the dictionary of [to_dict] has
    the five keys and no other. *)
Theorem settings_dict_round_trip (s : AdjustmentSettings) :
  from_dict (to_dict s) = Some s
  /\ forall k, is_Some (to_dict s !! k) <-> In k settings_keys.
Proof.
  split.
  - destruct s as [b c g sh i]. reflexivity.
  - intros k. unfold to_dict, settings_keys. cbn [In].
    rewrite !lookup_insert_is_Some, lookup_empty, is_Some_alt.
    split.
    + intros H. repeat destruct H as [H | [_ H]]; auto 10.
    + intros H.
      destruct (decide ("brightness" = k)) as [|n1]; [auto|right; split; [exact n1|]].
      destruct (decide ("contrast" = k)) as [|n2]; [auto|right; split; [exact n2|]].
      destruct (decide ("gamma" = k)) as [|n3]; [auto|right; split; [exact n3|]].
      destruct (decide ("sharpness" = k)) as [|n4]; [auto|right; split; [exact n4|]].
      destruct (decide ("invert" = k)) as [|n5]; [auto|].
      exfalso. repeat (destruct H as [H | H]; [congruence|]). exact H.
Qed.

(** X3: [from_dict] reads each key by itself. In a dictionary it reads as
    the settings [s], a float put under one of the four numeric keys, or a
    bool put under [invert], is stored as it is in the field of that key
    and changes no other field; a key that is none of the five is
    ignored, whatever its value; and a dictionary with none of the five
    keys gives the settings of the constructor, the ones [reset] leaves
    and [is_default] accepts. *)
Theorem from_dict_reads_key_by_key
        (d : gmap string pyval) (s : AdjustmentSettings)
        (k : string) (v : pyval) (x : PyFloat.t) (b : bool) :
  (from_dict d = Some s ->
   from_dict (<["brightness" := VFloat x]> d) = Some (set_brightness x s)
   /\ from_dict (<["contrast" := VFloat x]> d) = Some (set_contrast x s)
   /\ from_dict (<["gamma" := VFloat x]> d) = Some (set_gamma x s)
   /\ from_dict (<["sharpness" := VFloat x]> d) = Some (set_sharpness x s)
   /\ from_dict (<["invert" := VBool b]> d) = Some (set_invert b s))
  /\ (~ In k settings_keys -> from_dict (<[k := v]> d) = from_dict d)
  /\ ((forall k', In k' settings_keys -> d !! k' = None) ->
      from_dict d = Some default_settings
      /\ forall s', reset s' = default_settings /\ is_default (reset s') = true).
Proof.
  split; [|split].
  - intros Hd. destruct (from_dict_fields d s Hd) as (Hb & Hc & Hg & Hs & Hi).
    unfold dict_get in Hb, Hc, Hg, Hs, Hi. unfold from_dict, dict_get.
    repeat apply conj;
      rewrite ?lookup_insert_eq; repeat (rewrite lookup_insert_ne by discriminate);
      rewrite ?lookup_insert_eq; cbn [default float_value bool_value];
      rewrite ?Hb, ?Hc, ?Hg, ?Hs, ?Hi; reflexivity.
  - intros Hk. cbn [In settings_keys] in Hk. unfold from_dict, dict_get.
    repeat (rewrite lookup_insert_ne by (intros E; apply Hk; rewrite <- E; auto 10)).
    reflexivity.
  - intros H. unfold from_dict, dict_get. rewrite !H by (cbn; auto 10).
    split; [reflexivity|]. intros s'. destruct s'; split; reflexivity.
Qed.

Lemma from_dict_reads_key_by_key_witness :
  from_dict (<["gamma" := VFloat PyFloat.lit_0_5]> (to_dict example_settings))
  = Some (set_gamma PyFloat.lit_0_5 example_settings)
  /\ from_dict (<["invert" := VBool false]> (to_dict example_settings))
     = Some (set_invert false example_settings)
  /\ from_dict (<["voxel" := VBool true]> ∅) = from_dict ∅
  /\ from_dict ∅ = Some default_settings.
Proof.
  destruct (from_dict_reads_key_by_key (to_dict example_settings) example_settings
              "voxel" (VBool true) PyFloat.lit_0_5 false) as (Hf & _ & _).
  destruct (Hf eq_refl) as (_ & _ & Hg & _ & Hi).
  destruct (from_dict_reads_key_by_key ∅ default_settings
              "voxel" (VBool true) PyFloat.lit_0_5 false) as (_ & Hk & He).
  split; [exact Hg|]. split; [exact Hi|]. split.
  - apply Hk. cbn. intros H.
    repeat (destruct H as [H | H]; [discriminate H|]). exact H.
  - apply He. intros k' _. apply lookup_empty.
Defined.

(** * The adjuster is read, never written, by the adjustment methods *)

Lemma keeps_ret {A} (a : A) : keeps_adjuster (ret a).
Proof. intros st. split; [reflexivity | apply Nat.le_refl]. Qed.

Lemma keeps_raise {A} (e : exn) : keeps_adjuster (raise (A := A) e).
Proof. intros st. split; [reflexivity | apply Nat.le_refl]. Qed.

Lemma keeps_bind {A B} (c : M pystate A) (k : A -> M pystate B) :
  keeps_adjuster c -> (forall a, keeps_adjuster (k a)) -> keeps_adjuster (bind c k).
Proof.
  intros Hc Hk st. unfold bind. specialize (Hc st).
  destruct (c st) as [[a | e] st1]; cbn [snd] in *.
  - destruct (Hk a st1) as [E L]. destruct Hc as [E1 L1].
    split; [congruence | eapply Nat.le_trans; eauto].
  - exact Hc.
Qed.

Lemma keeps_alloc d sh l : keeps_adjuster (alloc (T := ImageAdjuster) d sh l).
Proof. intros st. split; [reflexivity | cbn; apply Nat.le_succ_diag_r]. Qed.

Lemma keeps_get_self : keeps_adjuster get_self.
Proof. intros st. split; [reflexivity | apply Nat.le_refl]. Qed.

Lemma keeps_truediv x y : keeps_adjuster (PyFloat.truediv x y).
Proof.
  unfold PyFloat.truediv. destruct (Float.eqb y Float.zero);
    [apply keeps_raise | apply keeps_ret].
Qed.

Lemma keeps_amin ext a : keeps_adjuster (amin (T := ImageAdjuster) ext a).
Proof. unfold amin. destruct (least ext a); [apply keeps_ret | apply keeps_raise]. Qed.

Lemma keeps_amax ext a : keeps_adjuster (amax (T := ImageAdjuster) ext a).
Proof. unfold amax. destruct (greatest ext a); [apply keeps_ret | apply keeps_raise]. Qed.

Ltac keeps_step :=
  first
    [ apply keeps_ret
    | apply keeps_raise
    | apply keeps_alloc
    | apply keeps_get_self
    | apply keeps_truediv
    | apply keeps_amin
    | apply keeps_amax
    | apply keeps_bind; [|intros ?]
    | match goal with
      | |- keeps_adjuster (if ?b then _ else _) => destruct b
      | |- keeps_adjuster (match ?x with _ => _ end) => destruct x
      | |- keeps_adjuster (let '(_, _) := ?p in _) => destruct p
      end ].

Lemma keeps_scalar_op op a s : keeps_adjuster (scalar_op (T := ImageAdjuster) op a s).
Proof. apply keeps_alloc. Qed.

Lemma keeps_clip a lo hi : keeps_adjuster (clip (T := ImageAdjuster) a lo hi).
Proof. apply keeps_alloc. Qed.

Lemma keeps_transforms ext img s : keeps_adjuster (apply_transforms ext img s).
Proof.
  unfold apply_transforms, apply_brightness, apply_contrast, apply_gamma,
    apply_sharpness, apply_invert, add_scalar, sub_scalar, mul_scalar, rsub_scalar,
    power, add, sub, array_op, gaussian_filter, clip, scalar_op.
  repeat keeps_step.
Qed.

Lemma keeps_normalized_field ext v lo hi : keeps_adjuster (normalized_field ext v lo hi).
Proof.
  unfold normalized_field, zeros_like, astype, sub_scalar, div_scalar, scalar_op.
  repeat keeps_step.
Qed.

Lemma keeps_denormalized r lo hi : keeps_adjuster (denormalized r lo hi).
Proof. unfold denormalized, mul_scalar, add_scalar, scalar_op. repeat keeps_step. Qed.

Lemma keeps_restore_dtype ext od r : keeps_adjuster (restore_dtype ext od r).
Proof. unfold restore_dtype, clip, astype. repeat keeps_step. Qed.

Lemma keeps_apply_brightness img x : keeps_adjuster (apply_brightness img x).
Proof. unfold apply_brightness, add_scalar, clip, scalar_op. repeat keeps_step. Qed.

Lemma keeps_apply_contrast img x : keeps_adjuster (apply_contrast img x).
Proof.
  unfold apply_contrast, add_scalar, sub_scalar, mul_scalar, clip, scalar_op.
  repeat keeps_step.
Qed.

Lemma keeps_apply_gamma ext img x : keeps_adjuster (apply_gamma ext img x).
Proof. unfold apply_gamma, power, clip, scalar_op. repeat keeps_step. Qed.

Lemma keeps_apply_sharpness ext img x : keeps_adjuster (apply_sharpness ext img x).
Proof.
  unfold apply_sharpness, gaussian_filter, sub, add, mul_scalar, array_op, clip,
    scalar_op.
  repeat keeps_step.
Qed.

Lemma keeps_apply_invert img i : keeps_adjuster (apply_invert img i).
Proof. unfold apply_invert, rsub_scalar, scalar_op. repeat keeps_step. Qed.

(** X4: the adjustment methods read the adjuster and never write it:
    whether a call returns or raises, the stored settings, the stored
    volume, its element type and the cached range are what they were, and
    the only effect is the allocation of new arrays. *)
Theorem adjustments_keep_the_adjuster
        (ext : external) (varg : option ndarray) (sarg : option AdjustmentSettings)
        (img : ndarray) (x : PyFloat.t) (i : bool) :
  keeps_adjuster (apply_adjustments ext varg sarg)
  /\ keeps_adjuster (apply_to_slice ext img sarg)
  /\ keeps_adjuster (apply_brightness img x)
  /\ keeps_adjuster (apply_contrast img x)
  /\ keeps_adjuster (apply_gamma ext img x)
  /\ keeps_adjuster (apply_sharpness ext img x)
  /\ keeps_adjuster (apply_invert img i)
  /\ keeps_adjuster has_original_volume
  /\ keeps_adjuster get_original_volume.
Proof.
  repeat apply conj.
  - unfold apply_adjustments, copy.
    repeat first [ apply keeps_transforms | apply keeps_normalized_field
                 | apply keeps_denormalized | apply keeps_restore_dtype | keeps_step ].
  - unfold apply_to_slice, copy.
    repeat first [ apply keeps_transforms | apply keeps_normalized_field
                 | apply keeps_denormalized | apply keeps_restore_dtype | keeps_step ].
  - apply keeps_apply_brightness.
  - apply keeps_apply_contrast.
  - apply keeps_apply_gamma.
  - apply keeps_apply_sharpness.
  - apply keeps_apply_invert.
  - unfold has_original_volume. repeat keeps_step.
  - unfold get_original_volume. repeat keeps_step.
Qed.

(** * New arrays and returned arguments *)

Lemma fresh_alloc d sh l : fresh_result (alloc (T := ImageAdjuster) d sh l).
Proof.
  intros st r st' E. unfold alloc in E. injection E as <- <-. cbn. lia.
Qed.

Lemma fresh_raise e : fresh_result (raise e).
Proof. intros st r st' E. discriminate E. Qed.

Lemma fresh_bind {A} (c : M pystate A) (k : A -> M pystate ndarray) :
  keeps_adjuster c -> (forall a, fresh_result (k a)) -> fresh_result (bind c k).
Proof.
  intros Hc Hk st r st' E. unfold bind in E. specialize (Hc st).
  destruct (c st) as [[a | e] st1]; [|discriminate E].
  cbn [snd] in Hc. destruct Hc as [_ L]. specialize (Hk a st1 r st' E). lia.
Qed.

Lemma fresh_bind_ret (c : M pystate ndarray) :
  fresh_result c -> fresh_result (bind c (fun r => ret r)).
Proof.
  intros Hc st r st' E. unfold bind in E.
  destruct (c st) as [[a | e] st1] eqn:Ec; [|discriminate E].
  injection E as <- <-. exact (Hc st a st1 Ec).
Qed.

Ltac keeps_solve :=
  repeat first [ apply keeps_transforms | apply keeps_normalized_field
               | apply keeps_denormalized | apply keeps_restore_dtype
               | apply keeps_scalar_op | apply keeps_clip | keeps_step ].

Ltac fresh_step :=
  first
    [ apply fresh_alloc
    | apply fresh_raise
    | apply fresh_bind; [keeps_solve | intros ?]
    | match goal with
      | |- fresh_result (if ?b then _ else _) => destruct b
      | |- fresh_result (match ?x with _ => _ end) => destruct x
      | |- fresh_result (let '(_, _) := ?p in _) => destruct p
      end ].

Lemma fresh_denormalized r lo hi : fresh_result (denormalized r lo hi).
Proof. unfold denormalized, mul_scalar, add_scalar, scalar_op. repeat fresh_step. Qed.

Lemma fresh_restore_dtype ext od (c : M pystate ndarray) :
  keeps_adjuster c -> fresh_result c ->
  fresh_result (bind c (restore_dtype ext od)).
Proof.
  intros K F. destruct od as [d|].
  - apply fresh_bind; [exact K|]. intros r. unfold restore_dtype, astype, clip.
    repeat fresh_step.
  - apply fresh_bind_ret. exact F.
Qed.

Lemma fresh_adjust_pipeline ext od v s lo hi :
  fresh_result (adjust_pipeline ext od v s lo hi).
Proof.
  intros st r st' E. rewrite adjust_pipeline_split in E. revert st r st' E.
  apply fresh_restore_dtype.
  - unfold preview_pipeline. keeps_solve.
  - unfold preview_pipeline.
    repeat first [ apply fresh_denormalized
                 | apply fresh_bind; [keeps_solve | intros ?] ].
Qed.

Lemma fresh_apply_brightness img x :
  Float.eqb x (PyFloat.of_int 0) = false -> fresh_result (apply_brightness img x).
Proof.
  intros H. unfold apply_brightness. rewrite H.
  unfold add_scalar, clip, scalar_op. repeat fresh_step.
Qed.

Lemma fresh_apply_contrast img x :
  Float.eqb x PyFloat.lit_1_0 = false -> fresh_result (apply_contrast img x).
Proof.
  intros H. unfold apply_contrast. rewrite H.
  unfold add_scalar, sub_scalar, mul_scalar, clip, scalar_op. repeat fresh_step.
Qed.

Lemma fresh_apply_gamma ext img x :
  Float.eqb x PyFloat.lit_1_0 = false -> fresh_result (apply_gamma ext img x).
Proof.
  intros H. unfold apply_gamma. rewrite H.
  unfold power, clip, scalar_op. repeat fresh_step.
Qed.

Lemma fresh_apply_sharpness ext img x :
  Float.eqb x (PyFloat.of_int 0) = false -> fresh_result (apply_sharpness ext img x).
Proof.
  intros H. unfold apply_sharpness. rewrite H.
  unfold mul_scalar, add, sub, gaussian_filter, array_op, clip, scalar_op.
  repeat fresh_step.
Qed.

Lemma fresh_apply_invert img : fresh_result (apply_invert img true).
Proof. unfold apply_invert, rsub_scalar, scalar_op. cbn [negb]. apply fresh_alloc. Qed.

(** X5: an array returned by [apply_adjustments] or [apply_to_slice] is
    always a new object, never the argument nor the stored volume; a
    transform called by itself returns its argument, the same object, when
    its parameter is the neutral one, and a new array otherwise. *)
Theorem results_are_new_arrays
        (ext : external) (varg : option ndarray) (sarg : option AdjustmentSettings)
        (img : ndarray) (x : PyFloat.t) :
  fresh_result (apply_adjustments ext varg sarg)
  /\ fresh_result (apply_to_slice ext img sarg)
  /\ (if Float.eqb x (PyFloat.of_int 0)
      then same_object (apply_brightness img x) img
           /\ same_object (apply_sharpness ext img x) img
      else fresh_result (apply_brightness img x)
           /\ fresh_result (apply_sharpness ext img x))
  /\ (if Float.eqb x PyFloat.lit_1_0
      then same_object (apply_contrast img x) img
           /\ same_object (apply_gamma ext img x) img
      else fresh_result (apply_contrast img x)
           /\ fresh_result (apply_gamma ext img x))
  /\ same_object (apply_invert img false) img
  /\ fresh_result (apply_invert img true).
Proof.
  repeat apply conj.
  - unfold apply_adjustments.
    apply fresh_bind; [keeps_solve | intros this].
    apply fresh_bind; [keeps_solve | intros v].
    destruct (is_default _); [apply fresh_alloc|].
    apply fresh_bind; [keeps_solve | intros lo].
    apply fresh_bind; [keeps_solve | intros hi].
    apply fresh_adjust_pipeline.
  - unfold apply_to_slice.
    apply fresh_bind; [keeps_solve | intros this].
    destruct (is_default _); [apply fresh_alloc|].
    apply fresh_bind; [keeps_solve | intros [lo hi]].
    repeat first [ apply fresh_denormalized
                 | apply fresh_bind; [keeps_solve | intros ?] ].
  - destruct (Float.eqb x (PyFloat.of_int 0)) eqn:H; split.
    + intros st. unfold apply_brightness. rewrite H. reflexivity.
    + intros st. unfold apply_sharpness. rewrite H. reflexivity.
    + apply fresh_apply_brightness. exact H.
    + apply fresh_apply_sharpness. exact H.
  - destruct (Float.eqb x PyFloat.lit_1_0) eqn:H; split.
    + intros st. unfold apply_contrast. rewrite H. reflexivity.
    + intros st. unfold apply_gamma. rewrite H. reflexivity.
    + apply fresh_apply_contrast. exact H.
    + apply fresh_apply_gamma. exact H.
  - intros st. reflexivity.
  - apply fresh_apply_invert.
Qed.

(** * Default settings and neutral transforms *)

Lemma transforms_allocate ext img s st r st' :
  is_default s = false ->
  apply_transforms ext img s st = (Ok r, st') ->
  (next_oid st < next_oid st')%nat.
Proof.
  intros Hd E. unfold apply_transforms, bind in E.
  pose proof (keeps_apply_brightness img (brightness s) st) as [_ L1].
  destruct (apply_brightness img (brightness s) st) as [[r1 | e] st1] eqn:E1;
    [|discriminate E].
  pose proof (keeps_apply_contrast r1 (contrast s) st1) as [_ L2].
  destruct (apply_contrast r1 (contrast s) st1) as [[r2 | e] st2] eqn:E2;
    [|discriminate E].
  pose proof (keeps_apply_gamma ext r2 (gamma s) st2) as [_ L3].
  destruct (apply_gamma ext r2 (gamma s) st2) as [[r3 | e] st3] eqn:E3;
    [|discriminate E].
  pose proof (keeps_apply_sharpness ext r3 (sharpness s) st3) as [_ L4].
  destruct (apply_sharpness ext r3 (sharpness s) st3) as [[r4 | e] st4] eqn:E4;
    [|discriminate E].
  pose proof (keeps_apply_invert r4 (invert s) st4) as [_ L5].
  rewrite E in L5. cbn [snd] in *.
  unfold is_default in Hd.
  change PyFloat.lit_0_0 with (PyFloat.of_int 0) in Hd.
  destruct (Float.eqb (brightness s) (PyFloat.of_int 0)) eqn:H1.
  2:{ pose proof (fresh_apply_brightness _ _ H1 _ _ _ E1). lia. }
  destruct (Float.eqb (contrast s) PyFloat.lit_1_0) eqn:H2.
  2:{ pose proof (fresh_apply_contrast _ _ H2 _ _ _ E2). lia. }
  destruct (Float.eqb (gamma s) PyFloat.lit_1_0) eqn:H3.
  2:{ pose proof (fresh_apply_gamma ext _ _ H3 _ _ _ E3). lia. }
  destruct (Float.eqb (sharpness s) (PyFloat.of_int 0)) eqn:H4.
  2:{ pose proof (fresh_apply_sharpness ext _ _ H4 _ _ _ E4). lia. }
  destruct (invert s); [|discriminate Hd].
  pose proof (fresh_apply_invert _ _ _ _ E). lia.
Qed.

(** X6: [is_default] holds exactly when the five transforms, run one
    after the other, all return their argument untouched: the quick return
    of the entry points is taken when, and only when, the transforms would
    have nothing to do. A negative zero counts as zero. *)
Theorem default_exactly_when_transforms_are_neutral
        (ext : external) (s : AdjustmentSettings) :
  (is_default s = true <->
   forall img st, apply_transforms ext img s st = (Ok img, st))
  /\ is_default (set_brightness (S754_zero true) default_settings) = true.
Proof.
  split; [split|reflexivity].
  - intros Hd img st. unfold is_default in Hd.
    repeat (apply andb_prop in Hd as [Hd ?]).
    unfold apply_transforms, apply_brightness, apply_contrast, apply_gamma,
      apply_sharpness, apply_invert, bind, ret.
    change (PyFloat.of_int 0) with PyFloat.lit_0_0.
    repeat match goal with H : _ = true |- _ => rewrite H; clear H end.
    reflexivity.
  - intros H. destruct (is_default s) eqn:Hd; [reflexivity|].
    pose proof (transforms_allocate ext demo_volume s fresh_state _ _ Hd
                  (H demo_volume fresh_state)) as L.
    lia.
Qed.

(** * Registration of the original volume *)

Lemma value_int_dyadic (z : Z) : Float.dyadic (value (NInt z)) = Some (z, 0).
Proof. destruct z; reflexivity. Qed.

Lemma compare_ints (a b : Z) :
  Float.compare (value (NInt a)) (value (NInt b)) = Some (a ?= b).
Proof.
  assert (E : forall x y : Z,
             (x * 2 ^ (0 - Z.min 0 0) ?= y * 2 ^ (0 - Z.min 0 0)) = (x ?= y)).
  { intros x y. change (2 ^ (0 - Z.min 0 0)) with 1. now rewrite !Z.mul_1_r. }
  destruct a, b; cbn [value Float.compare Float.dyadic]; rewrite E; reflexivity.
Qed.

Lemma is_nan_int (z : Z) : Float.is_nan (value (NInt z)) = false.
Proof. destruct z; reflexivity. Qed.

Lemma min1_ints (a b : Z) : min1 (NInt a) (NInt b) = NInt (Z.min a b).
Proof.
  unfold min1, Float.ltb. rewrite !is_nan_int, compare_ints.
  destruct (Z.compare_spec b a) as [E | L | G]; f_equal; lia.
Qed.

Lemma max1_ints (a b : Z) : max1 (NInt a) (NInt b) = NInt (Z.max a b).
Proof.
  unfold max1, Float.ltb. rewrite !is_nan_int, compare_ints.
  destruct (Z.compare_spec a b) as [E | L | G]; f_equal; lia.
Qed.

Lemma fold_min_ints (zs : list Z) (z : Z) :
  fold_left min1 (map NInt zs) (NInt z) = NInt (fold_left Z.min zs z).
Proof.
  revert z. induction zs as [|y zs IH]; intros z; [reflexivity|].
  cbn [map fold_left]. rewrite min1_ints. apply IH.
Qed.

Lemma fold_max_ints (zs : list Z) (z : Z) :
  fold_left max1 (map NInt zs) (NInt z) = NInt (fold_left Z.max zs z).
Proof.
  revert z. induction zs as [|y zs IH]; intros z; [reflexivity|].
  cbn [map fold_left]. rewrite max1_ints. apply IH.
Qed.

Lemma fold_min_least (zs : list Z) (z : Z) :
  In (fold_left Z.min zs z) (z :: zs)
  /\ forall y, In y (z :: zs) -> fold_left Z.min zs z <= y.
Proof.
  revert z. induction zs as [|x zs IH]; intros z.
  - cbn. split; [auto|]. intros y [<- | []]. lia.
  - cbn [fold_left]. destruct (IH (Z.min z x)) as [I L]. split.
    + destruct I as [E | I].
      * rewrite <- E. destruct (Z.min_spec z x) as [[_ ->] | [_ ->]]; cbn; auto.
      * right. right. exact I.
    + intros y [E | [E | I']].
      * specialize (L (Z.min z x) (or_introl eq_refl)). lia.
      * specialize (L (Z.min z x) (or_introl eq_refl)). lia.
      * apply L. right. exact I'.
Qed.

Lemma fold_max_greatest (zs : list Z) (z : Z) :
  In (fold_left Z.max zs z) (z :: zs)
  /\ forall y, In y (z :: zs) -> y <= fold_left Z.max zs z.
Proof.
  revert z. induction zs as [|x zs IH]; intros z.
  - cbn. split; [auto|]. intros y [<- | []]. lia.
  - cbn [fold_left]. destruct (IH (Z.max z x)) as [I L]. split.
    + destruct I as [E | I].
      * rewrite <- E. destruct (Z.max_spec z x) as [[_ ->] | [_ ->]]; cbn; auto.
      * right. right. exact I.
    + intros y [E | [E | I']].
      * specialize (L (Z.max z x) (or_introl eq_refl)). lia.
      * specialize (L (Z.max z x) (or_introl eq_refl)). lia.
      * apply L. right. exact I'.
Qed.

Lemma settle_int s l (z : Z) : settle s l (NInt z) = NInt z.
Proof. reflexivity. Qed.

Lemma fold_min1_in (l : list num) (x : num) : In (fold_left min1 l x) (x :: l).
Proof.
  revert x. induction l as [|y l IH]; intros x; [left; reflexivity|].
  cbn [fold_left]. destruct (IH (min1 x y)) as [E | I].
  - rewrite <- E. unfold min1.
    destruct (Float.is_nan (value x)); [left; reflexivity|].
    destruct (Float.is_nan (value y)); [right; left; reflexivity|].
    destruct (Float.ltb (value y) (value x)); [right | ]; left; reflexivity.
  - right. right. exact I.
Qed.

Lemma fold_max1_in (l : list num) (x : num) : In (fold_left max1 l x) (x :: l).
Proof.
  revert x. induction l as [|y l IH]; intros x; [left; reflexivity|].
  cbn [fold_left]. destruct (IH (max1 x y)) as [E | I].
  - rewrite <- E. unfold max1.
    destruct (Float.is_nan (value x)); [left; reflexivity|].
    destruct (Float.is_nan (value y)); [right; left; reflexivity|].
    destruct (Float.ltb (value x) (value y)); [right | ]; left; reflexivity.
  - right. right. exact I.
Qed.

(** Whatever the sign chosen for a zero, the result of a reduction is one
    of the elements. *)
Lemma settle_in (s : bool) (l : list num) (m : num) : In m l -> In (settle s l m) l.
Proof.
  intros I. destruct m as [z | [s' | s' | | s' p e]]; try exact I.
  cbn [settle]. destruct (existsb (is_zero_of (negb s')) l) eqn:E; [|exact I].
  apply existsb_exists in E as (y & Iy & Hy).
  destruct y as [z | [t | t | | t p e]]; try discriminate Hy.
  cbn [is_zero_of] in Hy. apply Bool.eqb_prop in Hy. subst t.
  destruct s, s'; first [exact I | exact Iy].
Qed.

Lemma least_in ext (v : ndarray) (m : num) : least ext v = Some m -> In m (data v).
Proof.
  unfold least. destruct (data v) as [|x l]; [discriminate|].
  intros E. injection E as <-. apply settle_in, fold_min1_in.
Qed.

Lemma greatest_in ext (v : ndarray) (m : num) : greatest ext v = Some m -> In m (data v).
Proof.
  unfold greatest. destruct (data v) as [|x l]; [discriminate|].
  intros E. injection E as <-. apply settle_in, fold_max1_in.
Qed.

(** X7: the registration of a volume that has an element always succeeds.
    The adjuster then holds a new array with the element type, the shape
    and the elements of the volume, its element type and its range, each
    bound being the [float] of an element of the volume;
    [has_original_volume] answers [True] and [get_original_volume] gives
    the stored array itself; the settings are untouched. For an integer
    volume the cached bounds are the least and the greatest element. *)
Theorem registration_stores_copy_and_range
        (ext : external) (v : ndarray) (st0 : pystate) :
  data v <> [] ->
  exists lo hi,
    let c := NDArray (next_oid st0) (dtype_of v) (shape v) (data v) in
    let st := Heap (S (next_oid st0))
                   (Adjuster (settings (self st0)) (Some c) (Some (dtype_of v))
                             (Some lo) (Some hi)) in
    reduced (least ext) v = Some lo /\ reduced (greatest ext) v = Some hi
    /\ set_original_volume ext v st0 = (Ok tt, st)
    /\ has_original_volume st = (Ok true, st)
    /\ get_original_volume st = (Ok (Some c), st)
    /\ (exists x y, In x (data v) /\ In y (data v)
                    /\ lo = py_float x /\ hi = py_float y)
    /\ forall zs, data v = map NInt zs ->
         exists zlo zhi,
           In zlo zs /\ In zhi zs /\ (forall z, In z zs -> zlo <= z <= zhi)
           /\ lo = PyFloat.of_int zlo /\ hi = PyFloat.of_int zhi.
Proof.
  intros Hne.
  destruct (extremes_cases ext v) as [(E & _) | (_ & a & b & Ea & Eb)]; [congruence|].
  exists (py_float a), (py_float b). cbn zeta.
  assert (Hreg : set_original_volume ext v st0 =
                 (Ok tt, Heap (S (next_oid st0))
                           (Adjuster (settings (self st0))
                              (Some (NDArray (next_oid st0) (dtype_of v) (shape v) (data v)))
                              (Some (dtype_of v)) (Some (py_float a)) (Some (py_float b))))).
  { unfold set_original_volume, bind, copy, alloc, set_self, amin, amax.
    cbn. rewrite Ea, Eb. reflexivity. }
  repeat apply conj.
  - unfold reduced. rewrite Ea. reflexivity.
  - unfold reduced. rewrite Eb. reflexivity.
  - exact Hreg.
  - reflexivity.
  - reflexivity.
  - exists a, b. repeat apply conj; try reflexivity.
    + exact (least_in ext v a Ea).
    + exact (greatest_in ext v b Eb).
  - intros zs E. unfold least in Ea. unfold greatest in Eb. rewrite E in Ea, Eb.
    destruct zs as [|z zs]; [discriminate Ea|].
    cbn [map] in Ea, Eb. rewrite fold_min_ints, settle_int in Ea.
    rewrite fold_max_ints, settle_int in Eb.
    injection Ea as <-. injection Eb as <-.
    destruct (fold_min_least zs z) as [I1 L1]. destruct (fold_max_greatest zs z) as [I2 L2].
    exists (fold_left Z.min zs z), (fold_left Z.max zs z).
    repeat apply conj; auto.
Qed.

Lemma registration_stores_copy_and_range_witness :
  exists lo hi,
    set_original_volume plain_external demo_volume fresh_state =
      (Ok tt, Heap 2 (Adjuster default_settings
                               (Some (NDArray 1 uint8 [2; 1; 3]%nat
                                              (map NInt [0; 255; 100; 50; 25; 200])))
                               (Some uint8) (Some lo) (Some hi)))
    /\ lo = PyFloat.of_int 0 /\ hi = PyFloat.of_int 255.
Proof.
  destruct (registration_stores_copy_and_range plain_external demo_volume fresh_state)
    as (lo & hi & _ & _ & E & _ & _ & _ & Hz); [discriminate|].
  exists lo, hi. split; [exact E|].
  destruct (Hz [0; 255; 100; 50; 25; 200] eq_refl)
    as (zlo & zhi & I1 & I2 & B & -> & ->).
  assert (zlo = 0) as ->.
  { pose proof (B 0 (or_introl eq_refl)). cbn in I1.
    repeat (destruct I1 as [<- | I1]; [lia|]). contradiction. }
  assert (zhi = 255) as ->.
  { pose proof (B 255 (or_intror (or_introl eq_refl))). cbn in I2.
    repeat (destruct I2 as [<- | I2]; [lia|]). contradiction. }
  split; reflexivity.
Defined.

(** X8: the registration of a volume without elements raises
    [ValueError] half way: the stored volume and its element type are
    replaced, the cached range stays the one of the volume registered
    before (or stays unset). [has_original_volume] then answers [True];
    with settings that are not the default ones, [apply_adjustments] on
    the stored volume raises [ValueError] when no range was cached, and
    works with the range of the earlier volume when one was. *)
Theorem empty_registration_is_partial
        (ext : external) (v : ndarray) (st0 : pystate)
        (sarg : option AdjustmentSettings) :
  data v = [] ->
  let c := NDArray (next_oid st0) (dtype_of v) (shape v) [] in
  let st := Heap (S (next_oid st0))
                 (Adjuster (settings (self st0)) (Some c) (Some (dtype_of v))
                           (_original_min (self st0)) (_original_max (self st0))) in
  set_original_volume ext v st0 = (Raise ValueError, st)
  /\ has_original_volume st = (Ok true, st)
  /\ (is_default (effective_settings (self st0) sarg) = false ->
      match _original_min (self st0), _original_max (self st0) with
      | Some lo, Some hi =>
          apply_adjustments ext None sarg st =
          adjust_pipeline ext (Some (dtype_of v)) c
                          (effective_settings (self st0) sarg) lo hi st
      | _, _ => raises (apply_adjustments ext None sarg) st ValueError
      end).
Proof.
  intros He. cbn zeta. repeat apply conj.
  - unfold set_original_volume, bind, copy, alloc, set_self, amin, least. cbn.
    rewrite He. reflexivity.
  - reflexivity.
  - intros Hd.
    set (c := NDArray (next_oid st0) (dtype_of v) (shape v) []).
    set (st := Heap _ _).
    assert (Hs : effective_settings (self st) sarg = effective_settings (self st0) sarg)
      by (destruct sarg; reflexivity).
    destruct (_original_min (self st0)) as [lo|] eqn:Elo;
      [destruct (_original_max (self st0)) as [hi|] eqn:Ehi|].
    + rewrite <- Hs. apply apply_adjustments_unfold; try reflexivity.
      rewrite Hs. exact Hd.
    + apply apply_adjustments_no_range with (v := c);
        [reflexivity | rewrite Hs; exact Hd | right; reflexivity].
    + apply apply_adjustments_no_range with (v := c);
        [reflexivity | rewrite Hs; exact Hd | left; reflexivity].
Qed.

Lemma empty_registration_is_partial_witness :
  fst (set_original_volume plain_external empty_volume fresh_state) = Raise ValueError
  /\ fst (has_original_volume (snd (set_original_volume plain_external empty_volume fresh_state)))
     = Ok true
  /\ raises (apply_adjustments plain_external None (Some brightness_10_settings))
            (snd (set_original_volume plain_external empty_volume fresh_state)) ValueError.
Proof.
  destruct (empty_registration_is_partial plain_external empty_volume fresh_state
              (Some brightness_10_settings) eq_refl) as (E & H & A).
  rewrite E. cbn [fst snd]. rewrite H. repeat split.
  apply A. vm_compute. reflexivity.
Defined.

(** * A volume passed explicitly *)

(** X9: once a volume is registered, a call that passes another volume
    still works with the registered range and element type: the range of
    the volume passed is never computed (a volume without elements does
    not raise), and the result has the registered element type with the
    shape of the volume passed. With default settings the copy keeps the
    element type of the volume passed. *)
Theorem explicit_volume_uses_registered_range
        (ext : external) (v u : ndarray) (st0 st : pystate)
        (sarg : option AdjustmentSettings) :
  set_original_volume ext v st0 = (Ok tt, st) ->
  let s := effective_settings (self st) sarg in
  exists lo hi,
    reduced (least ext) v = Some lo /\ reduced (greatest ext) v = Some hi
    /\ if is_default s then
         apply_adjustments ext (Some u) sarg st =
           (Ok (NDArray (next_oid st) (dtype_of u) (shape u) (data u)),
            Heap (S (next_oid st)) (self st))
       else
         apply_adjustments ext (Some u) sarg st =
           adjust_pipeline ext (Some (dtype_of v)) u s lo hi st
         /\ apply_to_slice ext u sarg st = preview_pipeline ext u s lo hi st
         /\ (Float.eqb (gamma s) Float.zero = false ->
             runs (apply_adjustments ext (Some u) sarg) st
                  (fun r => dtype_of r = dtype_of v /\ shape r = shape u)).
Proof.
  intros Hreg s.
  destruct (set_original_volume_ok _ _ _ _ Hreg) as (lo & hi & Hlo & Hhi & Hself).
  exists lo, hi. split; [exact Hlo|]. split; [exact Hhi|].
  assert (Hod : _original_dtype (self st) = Some (dtype_of v))
    by (rewrite Hself; reflexivity).
  assert (Hmin : _original_min (self st) = Some lo) by (rewrite Hself; reflexivity).
  assert (Hmax : _original_max (self st) = Some hi) by (rewrite Hself; reflexivity).
  clear Hself.
  destruct (is_default s) eqn:Hd.
  - rewrite (apply_adjustments_default ext (Some u) sarg st u eq_refl Hd). reflexivity.
  - assert (Ea : apply_adjustments ext (Some u) sarg st =
                 adjust_pipeline ext (Some (dtype_of v)) u s lo hi st).
    { rewrite <- Hod. apply apply_adjustments_unfold; [reflexivity | exact Hd | |].
      - unfold reference_min. rewrite Hmin. reflexivity.
      - unfold reference_max. rewrite Hmax. reflexivity. }
    split; [exact Ea|]. split.
    + apply apply_to_slice_unfold; [exact Hd|].
      unfold slice_range. rewrite Hmin, Hmax. reflexivity.
    + intros Hg. unfold runs. rewrite Ea.
      exact (adjust_pipeline_shape ext (Some (dtype_of v)) u s lo hi st Hg).
Qed.

Lemma explicit_volume_uses_registered_range_witness :
  runs (apply_adjustments plain_external (Some other_volume)
                          (Some brightness_10_settings)) demo_state
       (fun r => dtype_of r = uint8 /\ shape r = [1; 2]%nat)
  /\ runs (apply_adjustments plain_external (Some empty_volume)
                             (Some brightness_10_settings)) demo_state
          (fun r => dtype_of r = uint8 /\ shape r = [0; 4; 4]%nat).
Proof.
  split.
  - destruct (explicit_volume_uses_registered_range plain_external demo_volume
                other_volume fresh_state demo_state (Some brightness_10_settings)
                eq_refl) as (lo & hi & _ & _ & H).
    change (is_default (effective_settings (self demo_state)
                                           (Some brightness_10_settings)))
      with false in H.
    destruct H as (_ & _ & H). apply H. reflexivity.
  - destruct (explicit_volume_uses_registered_range plain_external demo_volume
                empty_volume fresh_state demo_state (Some brightness_10_settings)
                eq_refl) as (lo & hi & _ & _ & H).
    change (is_default (effective_settings (self demo_state)
                                           (Some brightness_10_settings)))
      with false in H.
    destruct H as (_ & _ & H). apply H. reflexivity.
Defined.

(** * The unit range *)

Lemma compare_swap (x y : spec_float) :
  Float.compare y x = option_map CompOpp (Float.compare x y).
Proof.
  assert (E : forall m1 e1 m2 e2 : Z,
             (m2 * 2 ^ (e2 - Z.min e2 e1) ?= m1 * 2 ^ (e1 - Z.min e2 e1)) =
             CompOpp (m1 * 2 ^ (e1 - Z.min e1 e2) ?= m2 * 2 ^ (e2 - Z.min e1 e2))).
  { intros. rewrite (Z.min_comm e2 e1). apply Z.compare_antisym. }
  destruct x as [sx | sx | | sx mx ex], y as [sy | sy | | sy my ey];
    cbn [Float.compare Float.dyadic option_map];
    try reflexivity;
    try (destruct sx; reflexivity);
    try (destruct sy; reflexivity);
    try (destruct sx, sy; reflexivity);
    rewrite E; reflexivity.
Qed.

Lemma compare_defined (x y : spec_float) :
  Float.is_nan x = false -> Float.is_nan y = false ->
  exists c, Float.compare x y = Some c.
Proof.
  destruct x as [sx | sx | | sx mx ex], y as [sy | sy | | sy my ey];
    cbn [Float.is_nan Float.compare Float.dyadic]; intros Hx Hy;
    try discriminate; eauto.
Qed.

Lemma not_ltb_leb (x y : spec_float) :
  Float.is_nan x = false -> Float.is_nan y = false ->
  Float.ltb x y = false -> Float.leb y x = true.
Proof.
  intros Hx Hy. unfold Float.ltb, Float.leb. rewrite (compare_swap x y).
  destruct (compare_defined x y Hx Hy) as [c ->]. destruct c; cbn; congruence.
Qed.

Lemma compare_scale (a b c : Z) : 0 < c -> (a * c ?= b * c) = (a ?= b).
Proof.
  intros Hc. destruct (Z.compare_spec a b) as [E | L | G].
  - subst. apply Z.compare_refl.
  - apply Z.compare_lt_iff. nia.
  - apply Z.compare_gt_iff. nia.
Qed.

Lemma compare_one (y : spec_float) :
  Float.compare y (Float.of_Z Float.binary32 1) = Float.compare y PyFloat.lit_1_0.
Proof.
  destruct y as [s | s | | s m e]; try reflexivity.
  change (Float.of_Z Float.binary32 1) with (S754_finite false 8388608 (-23)).
  unfold PyFloat.lit_1_0. cbn [Float.compare Float.dyadic].
  set (M := if s then Z.neg m else Z.pos m). f_equal.
  transitivity (M * 2 ^ (e - Z.min e (-52)) ?= 2 ^ (- Z.min e (-52))).
  - rewrite <- (compare_scale _ _ (2 ^ (Z.min e (-23) - Z.min e (-52))))
      by (apply Z.pow_pos_nonneg; lia).
    f_equal.
    + rewrite <- Z.mul_assoc, <- Z.pow_add_r by lia. f_equal. f_equal. lia.
    + change 8388608 with (2 ^ 23). rewrite <- !Z.pow_add_r by lia. f_equal. lia.
  - f_equal. change 4503599627370496 with (2 ^ 52).
    rewrite <- Z.pow_add_r by lia. f_equal. lia.
Qed.

Lemma clip_unit (d : dtype) (x : spec_float) :
  unit_or_nan (clip_elem d 0 1 (NFloat x)).
Proof.
  unfold clip_elem.
  set (zero := Float.of_Z (float_format d) 0).
  set (one := Float.of_Z (float_format d) 1).
  assert (Hz : zero = Float.zero) by (destruct d; reflexivity).
  assert (H1 : Float.is_nan one = false /\ Float.leb Float.zero one = true /\
               Float.leb one PyFloat.lit_1_0 = true /\
               forall y, Float.leb y one = Float.leb y PyFloat.lit_1_0).
  { subst one. destruct d; (split; [reflexivity|]); (split; [reflexivity|]);
      (split; [reflexivity|]); intros y; try reflexivity.
    unfold Float.leb. cbn [float_format]. rewrite compare_one. reflexivity. }
  destruct H1 as (Hn1 & H01 & H11 & Hle).
  eexists. split; [reflexivity|]. rewrite Hz. clearbody one. clear Hz zero.
  unfold fmaximum. destruct (Float.is_nan x) eqn:Hx.
  { unfold fminimum. rewrite Hx. left. exact Hx. }
  change (Float.is_nan Float.zero) with false. cbv iota.
  set (m := if Float.ltb x Float.zero then Float.zero else x).
  assert (Hm : Float.is_nan m = false /\ Float.leb Float.zero m = true).
  { subst m. destruct (Float.ltb x Float.zero) eqn:L; split; try reflexivity; try exact Hx.
    apply not_ltb_leb; [exact Hx | reflexivity | exact L]. }
  destruct Hm as [Hmn Hm0]. clearbody m.
  unfold fminimum. rewrite Hmn, Hn1. right.
  destruct (Float.ltb one m) eqn:L.
  - split; [exact H01 | exact H11].
  - split; [exact Hm0|]. rewrite <- Hle. apply not_ltb_leb; assumption.
Qed.

Lemma clip_unit_all (d : dtype) (l : list num) :
  Forall floating l -> Forall unit_or_nan (map (clip_elem d 0 1) l).
Proof.
  induction 1 as [|n l [x ->] _ IH]; cbn [map]; constructor;
    [apply clip_unit | exact IH].
Qed.

Lemma floating_map {A} (f : A -> spec_float) (l : list A) :
  Forall floating (map (fun a => NFloat (f a)) l).
Proof. induction l; cbn [map]; constructor; [eexists; reflexivity | assumption]. Qed.

Lemma promote_floating (d : dtype) : is_integer (promote d) = false.
Proof. destruct d; reflexivity. Qed.

Lemma result_type_floating (d1 d2 : dtype) :
  is_integer d1 = false \/ is_integer d2 = false ->
  is_integer (result_type d1 d2) = false.
Proof. destruct d1, d2; intros [H | H]; try discriminate H; reflexivity. Qed.

Lemma runs_scalar_floating op a s st :
  runs (scalar_op (T := ImageAdjuster) op a s) st
       (fun r => Forall floating (data r) /\ is_integer (dtype_of r) = false).
Proof.
  apply runs_alloc. intros o. split; [apply floating_map | apply promote_floating].
Qed.

Lemma runs_array_floating ext iop op a b st :
  is_integer (dtype_of a) = false \/ is_integer (dtype_of b) = false ->
  runs (array_op (T := ImageAdjuster) ext iop op a b) st
       (fun r => Forall floating (data r)).
Proof.
  intros H. apply runs_alloc. intros o. cbn [data].
  rewrite (result_type_floating _ _ H). apply floating_map.
Qed.

Lemma runs_clip_unit a st :
  Forall floating (data a) ->
  runs (clip (T := ImageAdjuster) a 0 1) st (fun r => Forall unit_or_nan (data r)).
Proof. intros H. apply runs_alloc. intros o. apply clip_unit_all. exact H. Qed.

(** X10: with a parameter that is not the neutral one, [apply_brightness]
    and [apply_contrast] return, for an image of any element type, a
    floating array whose every element is a NaN or lies between 0 and 1;
    so does [apply_sharpness] for a floating image, whatever the blur
    computes. *)
Theorem clipped_transforms_stay_in_unit_range
        (ext : external) (img : ndarray) (x : PyFloat.t) (st : pystate) :
  (Float.eqb x (PyFloat.of_int 0) = false ->
   runs (apply_brightness img x) st (fun r => Forall unit_or_nan (data r))
   /\ (is_integer (dtype_of img) = false ->
       runs (apply_sharpness ext img x) st (fun r => Forall unit_or_nan (data r))))
  /\ (Float.eqb x PyFloat.lit_1_0 = false ->
      runs (apply_contrast img x) st (fun r => Forall unit_or_nan (data r))).
Proof.
  split.
  - intros Hx. split.
    + unfold apply_brightness. rewrite Hx.
      eapply runs_bind; [apply runs_truediv_eq; reflexivity|].
      intros off st1 _ _ _.
      eapply runs_bind; [apply runs_scalar_floating|].
      intros sh st2 [Hf _] _ _. apply runs_clip_unit. exact Hf.
    + intros Hi. unfold apply_sharpness. rewrite Hx.
      eapply runs_bind; [apply runs_truediv_eq; reflexivity|].
      intros am st1 _ _ _.
      eapply runs_bind; [apply runs_alloc with (Q := fun _ => True); auto|].
      intros bl st2 _ _ _.
      eapply runs_bind; [apply runs_array_floating; left; exact Hi|].
      intros dt st3 _ _ _.
      eapply runs_bind; [apply runs_scalar_floating|].
      intros bo st4 [_ Hb] _ _.
      eapply runs_bind; [apply runs_array_floating; right; exact Hb|].
      intros su st5 Hf _ _. apply runs_clip_unit. exact Hf.
  - intros Hx. unfold apply_contrast. rewrite Hx.
    eapply runs_bind; [apply runs_scalar_floating|].
    intros ce st1 _ _ _.
    eapply runs_bind; [apply runs_scalar_floating|].
    intros sc st2 _ _ _.
    eapply runs_bind; [apply runs_scalar_floating|].
    intros mo st3 [Hf _] _ _. apply runs_clip_unit. exact Hf.
Qed.

Lemma clipped_transforms_stay_in_unit_range_witness :
  runs (apply_brightness demo_volume (PyFloat.of_int 10)) demo_state
       (fun r => Forall unit_or_nan (data r))
  /\ runs (apply_sharpness plain_external unit_volume (PyFloat.of_int 50)) unit_state
          (fun r => Forall unit_or_nan (data r))
  /\ runs (apply_contrast demo_volume (PyFloat.of_int 2)) demo_state
          (fun r => Forall unit_or_nan (data r)).
Proof.
  split; [|split].
  - apply (clipped_transforms_stay_in_unit_range plain_external demo_volume
             (PyFloat.of_int 10) demo_state). reflexivity.
  - apply (clipped_transforms_stay_in_unit_range plain_external unit_volume
             (PyFloat.of_int 50) unit_state); reflexivity.
  - apply (clipped_transforms_stay_in_unit_range plain_external demo_volume
             (PyFloat.of_int 2) demo_state). reflexivity.
Defined.

(** * The lines of a settings file *)

Lemma prefix_app (p t : string) :
  String.prefix p t = true -> exists rest, t = p ++ rest.
Proof.
  revert t. induction p as [|a p IH]; intros t H.
  - exists t. reflexivity.
  - destruct t as [|b t]; [discriminate H|]. cbn [String.prefix] in H.
    destruct (ascii_dec a b) as [<- | _]; [|discriminate H].
    destruct (IH t H) as [rest ->]. exists rest. reflexivity.
Qed.

Lemma split_from_nonempty (sep : ascii) (s cur : string) :
  exists x l, Str.split_from sep cur s = x :: l.
Proof.
  revert cur. induction s as [|c s IH]; intros cur; cbn [Str.split_from]; [eauto|].
  destruct (Ascii.eqb c sep); eauto.
Qed.

(** A line recognized by one of the five prefixes has a field after its
    first colon, and is recognized by that prefix only. *)
Lemma recognized_field (t p : string) :
  In p (numeric_prefixes ++ ["Invert:"]) ->
  Str.startswith t p = true ->
  (exists x, nth_error (Str.split ":" t) 1 = Some x)
  /\ forall q, In q (numeric_prefixes ++ ["Invert:"]) -> q <> p ->
               Str.startswith t q = false.
Proof.
  intros Hp Ht. apply prefix_app in Ht as [rest ->].
  cbn [numeric_prefixes app In] in Hp.
  destruct Hp as [<- | [<- | [<- | [<- | [<- | []]]]]];
    (split;
     [ destruct (split_from_nonempty ":" rest "") as (x & l & E);
       exists x; unfold Str.split;
       match goal with
       | |- nth_error (Str.split_from _ _ (?pre ++ rest)) 1 = _ =>
           change (nth_error (Str.split_from ":" "" (pre ++ rest)) 1)
             with (nth_error (Str.split_from ":" "" rest) 0)
       end;
       rewrite E; reflexivity
     | intros q Hq Hne; cbn [numeric_prefixes app In] in Hq;
       destruct Hq as [<- | [<- | [<- | [<- | [<- | []]]]]];
       first [ reflexivity | contradiction Hne; reflexivity ] ]).
Qed.

Lemma numeric_setter_prefix p setter :
  In (p, setter) numeric_setters ->
  In p numeric_prefixes /\ In p (numeric_prefixes ++ ["Invert:"]).
Proof.
  cbn [numeric_setters numeric_prefixes In app].
  intros [E | [E | [E | [E | []]]]]; injection E as <- _; auto 10.
Qed.

Lemma load_line_numeric s line w p setter x :
  In (p, setter) numeric_setters ->
  Str.startswith (Str.strip line) p = true ->
  nth_error (Str.split ":" (Str.strip line)) 1 = Some x ->
  load_line s line w =
  match PyFloat.parse (Str.strip x) with
  | Some v => (Ok (setter v s), w)
  | None => (Raise ValueError, w)
  end.
Proof.
  intros Hin Hp Hx.
  destruct (recognized_field _ _ (proj2 (numeric_setter_prefix _ _ Hin)) Hp) as [_ Hq].
  assert (Q : forall q, In q (numeric_prefixes ++ ["Invert:"]) -> q <> p ->
                        Str.startswith (Str.strip line) q = false) by exact Hq.
  clear Hq. cbn [numeric_prefixes app] in Q.
  unfold load_line, field, index, PyFloat.float_of_str, bind, ret, raise.
  cbn [numeric_setters In] in Hin.
  destruct Hin as [E | [E | [E | [E | []]]]]; injection E as <- <-;
    repeat (rewrite (Q _) by (cbn [In]; first [ now auto 10 | discriminate ]));
    rewrite Hp, Hx; destruct (PyFloat.parse (Str.strip x)); reflexivity.
Qed.

Lemma load_line_invert s line w x :
  Str.startswith (Str.strip line) "Invert:" = true ->
  nth_error (Str.split ":" (Str.strip line)) 1 = Some x ->
  load_line s line w =
  (Ok (set_invert (affirmative (Str.lower (Str.strip x))) s), w).
Proof.
  intros Hp Hx.
  assert (Hin : In "Invert:" (numeric_prefixes ++ ["Invert:"])) by (cbn; auto 10).
  destruct (recognized_field _ _ Hin Hp) as [_ Q].
  cbn [numeric_prefixes app] in Q.
  unfold load_line, field, index, bind, ret, raise.
  repeat (rewrite (Q _) by (cbn [In]; first [ now auto 10 | discriminate ])).
  rewrite Hp, Hx. reflexivity.
Qed.

Lemma load_line_unrecognized s line w :
  recognized line = false -> load_line s line w = (Ok s, w).
Proof.
  unfold recognized. cbn [numeric_prefixes app existsb]. intros H.
  repeat (apply orb_false_elim in H as [? H]).
  unfold load_line.
  repeat match goal with
         | E : Str.startswith _ _ = false |- _ => rewrite E; clear E
         end.
  reflexivity.
Qed.

Lemma recognized_cases line :
  recognized line = true ->
  (exists p setter, In (p, setter) numeric_setters /\
                    Str.startswith (Str.strip line) p = true)
  \/ Str.startswith (Str.strip line) "Invert:" = true.
Proof.
  unfold recognized. intros H. apply existsb_exists in H as (p & Hin & Hp).
  cbn [numeric_prefixes app In] in Hin. cbn [numeric_setters].
  destruct Hin as [<- | [<- | [<- | [<- | [<- | []]]]]].
  - left. exists "Brightness:", set_brightness. split; [unfold numeric_setters; cbn [In]; auto 10 | exact Hp].
  - left. exists "Contrast:", set_contrast. split; [unfold numeric_setters; cbn [In]; auto 10 | exact Hp].
  - left. exists "Gamma:", set_gamma. split; [unfold numeric_setters; cbn [In]; auto 10 | exact Hp].
  - left. exists "Sharpness:", set_sharpness. split; [unfold numeric_setters; cbn [In]; auto 10 | exact Hp].
  - right. exact Hp.
Qed.

(** X11: what one line of a settings file does. A line that starts, once
    stripped, with none of the five prefixes leaves the settings as they
    are. A line with a numeric prefix always has a field after its first
    colon: it assigns the float of that field to its own parameter, or
    raises [ValueError] when the field is no float. An [Invert:] line
    never fails: it assigns [True] when the field, in lower case, is
    [yes], [true] or [1], and [False] for any other text. No line raises
    anything but [ValueError]. *)
Theorem load_line_meaning (s : AdjustmentSettings) (line : string) (w : world) :
  let t := Str.strip line in
  (recognized line = false -> load_line s line w = (Ok s, w))
  /\ (forall p setter,
        In (p, setter) numeric_setters -> Str.startswith t p = true ->
        exists x, nth_error (Str.split ":" t) 1 = Some x
                  /\ load_line s line w =
                     match PyFloat.parse (Str.strip x) with
                     | Some v => (Ok (setter v s), w)
                     | None => (Raise ValueError, w)
                     end)
  /\ (Str.startswith t "Invert:" = true ->
      exists x, nth_error (Str.split ":" t) 1 = Some x
                /\ load_line s line w =
                   (Ok (set_invert (affirmative (Str.lower (Str.strip x))) s), w))
  /\ (forall e, fst (load_line s line w) = Raise e -> e = ValueError).
Proof.
  cbn zeta.
  assert (Hnum : forall p setter,
             In (p, setter) numeric_setters ->
             Str.startswith (Str.strip line) p = true ->
             exists x, nth_error (Str.split ":" (Str.strip line)) 1 = Some x
                       /\ load_line s line w =
                          match PyFloat.parse (Str.strip x) with
                          | Some v => (Ok (setter v s), w)
                          | None => (Raise ValueError, w)
                          end).
  { intros p setter Hin Hp.
    destruct (recognized_field _ _ (proj2 (numeric_setter_prefix _ _ Hin)) Hp)
      as [[x Hx] _].
    exists x. split; [exact Hx|]. eapply load_line_numeric; eauto. }
  assert (Hinv : Str.startswith (Str.strip line) "Invert:" = true ->
                 exists x, nth_error (Str.split ":" (Str.strip line)) 1 = Some x
                           /\ load_line s line w =
                              (Ok (set_invert (affirmative (Str.lower (Str.strip x))) s),
                               w)).
  { intros Hp.
    assert (Hin : In "Invert:" (numeric_prefixes ++ ["Invert:"])) by (cbn; auto 10).
    destruct (recognized_field _ _ Hin Hp) as [[x Hx] _].
    exists x. split; [exact Hx|]. apply load_line_invert; assumption. }
  split; [apply load_line_unrecognized|]. split; [exact Hnum|]. split; [exact Hinv|].
  intros e He. destruct (recognized line) eqn:R.
  - destruct (recognized_cases line R) as [(p & setter & Hin & Hp) | Hp].
    + destruct (Hnum p setter Hin Hp) as (x & _ & E). rewrite E in He.
      destruct (PyFloat.parse (Str.strip x)); cbn [fst] in He; congruence.
    + destruct (Hinv Hp) as (x & _ & E). rewrite E in He. discriminate He.
  - rewrite (load_line_unrecognized s line w R) in He. discriminate He.
Qed.

Lemma load_line_meaning_witness :
  load_line default_settings ("  Gamma:   0.5" ++ nl) quiet_world =
    (Ok (set_gamma PyFloat.lit_0_5 default_settings), quiet_world)
  /\ load_line default_settings "Invert: maybe" quiet_world =
       (Ok default_settings, quiet_world)
  /\ load_line example_settings "# Gamma: 2" quiet_world =
       (Ok example_settings, quiet_world).
Proof.
  split; [|split].
  - destruct (load_line_meaning default_settings ("  Gamma:   0.5" ++ nl) quiet_world)
      as (_ & H & _).
    destruct (H "Gamma:" set_gamma) as (x & Hx & E).
    + cbn. auto.
    + reflexivity.
    + rewrite E. vm_compute in Hx. injection Hx as <-. reflexivity.
  - destruct (load_line_meaning default_settings "Invert: maybe" quiet_world)
      as (_ & _ & H & _).
    destruct (H eq_refl) as (x & Hx & E). rewrite E.
    vm_compute in Hx. injection Hx as <-. reflexivity.
  - apply (load_line_meaning example_settings "# Gamma: 2" quiet_world). reflexivity.
Defined.

(** * When a settings file loads *)

Lemma load_line_parsable s line w :
  unparsable_line line = false -> exists s', load_line s line w = (Ok s', w).
Proof.
  intros Hu. destruct (recognized line) eqn:R.
  - destruct (recognized_cases line R) as [(p & setter & Hin & Hp) | Hp].
    + destruct (recognized_field _ _ (proj2 (numeric_setter_prefix _ _ Hin)) Hp)
        as [[x Hx] _].
      rewrite (load_line_numeric s line w p setter x Hin Hp Hx).
      unfold unparsable_line in Hu. rewrite Hx in Hu.
      assert (He : existsb (Str.startswith (Str.strip line)) numeric_prefixes = true).
      { apply existsb_exists. exists p. split; [|exact Hp].
        exact (proj1 (numeric_setter_prefix _ _ Hin)). }
      rewrite He in Hu. cbn [andb] in Hu.
      destruct (PyFloat.parse (Str.strip x)); [eauto | discriminate Hu].
    + assert (Hin : In "Invert:" (numeric_prefixes ++ ["Invert:"])) by (cbn; auto 10).
      destruct (recognized_field _ _ Hin Hp) as [[x Hx] _].
      rewrite (load_line_invert s line w x Hp Hx). eauto.
  - rewrite (load_line_unrecognized s line w R). eauto.
Qed.

Lemma load_lines_parsable s l w :
  forallb (fun line => negb (unparsable_line line)) l = true ->
  exists s', load_lines s l w = (Ok s', w).
Proof.
  revert s. induction l as [|line l IH]; intros s H; cbn [load_lines]; [eauto|].
  cbn [forallb] in H. apply andb_prop in H as [H1 H2].
  apply negb_true_iff in H1.
  destruct (load_line_parsable s line w H1) as [s1 E].
  unfold bind. rewrite E. apply IH. exact H2.
Qed.

(** X12: [load_adjustment_settings] returns settings exactly when the
    file can be read (it exists and the opening, the reading and the
    closing do not fault) and no line with a numeric prefix has a field
    that [float] rejects; in every other case it returns [None]. *)
Theorem load_succeeds_exactly_when (path : string) (w : world) :
  ((exists s, fst (load_adjustment_settings path w) = Ok (Some s)) <->
   (exists c, readable w path c /\
              forallb (fun line => negb (unparsable_line line)) (Str.lines c) = true))
  /\ ((forall s, fst (load_adjustment_settings path w) <> Ok (Some s)) ->
      fst (load_adjustment_settings path w) = Ok None).
Proof.
  pose proof (load_spec path w) as L. unfold readable. split; [split|].
  - intros [s Hs]. destruct (fs w !! path) as [c|]; [|congruence].
    destruct (no_fault w 3); [|congruence].
    exists c. split; [auto|].
    apply forallb_forall. intros line Hin. apply negb_true_iff.
    destruct (unparsable_line line) eqn:U; [|reflexivity].
    destruct (load_lines_unparsable default_settings _ w line Hin U) as [e E].
    rewrite E in L. cbn [fst] in L. congruence.
  - intros (c & [Hc Hf] & Hl). rewrite Hc, Hf in L.
    destruct (load_lines_parsable default_settings _ w Hl) as [s E].
    rewrite E in L. cbn [fst] in L. eauto.
  - intros Hn. destruct (load_never_raises path w) as (o & w' & E).
    rewrite E in *. cbn [fst] in *. destruct o as [s|]; [|reflexivity].
    destruct (Hn s eq_refl).
Qed.

Lemma load_succeeds_exactly_when_witness :
  exists s,
    fst (load_adjustment_settings "notes.txt"
           (World {["notes.txt" := "Gamma: 0.5" ++ nl ++ "Loaded by hand" ++ nl]}
                  (now quiet_world) (io_fault quiet_world) 0 []))
    = Ok (Some s).
Proof.
  apply (load_succeeds_exactly_when "notes.txt"
           (World {["notes.txt" := "Gamma: 0.5" ++ nl ++ "Loaded by hand" ++ nl]}
                  (now quiet_world) (io_fault quiet_world) 0 [])).
  exists ("Gamma: 0.5" ++ nl ++ "Loaded by hand" ++ nl).
  split; [split|]; reflexivity.
Defined.

(** * The lines of a file, taken together *)

Lemma load_lines_app s l1 l2 w :
  load_lines s (l1 ++ l2) w = (let* s1 := load_lines s l1 in load_lines s1 l2) w.
Proof.
  revert s. induction l1 as [|line l1 IH]; intros s; [reflexivity|].
  cbn [app load_lines].
  destruct (load_line_pure s line w) as [(s' & E) | (e & E)]; unfold bind; rewrite E.
  - rewrite IH. reflexivity.
  - reflexivity.
Qed.

(** X13: the lines of a file are applied in order, each to the settings
    the lines before it have reached, so that the last line of a kind
    wins; and the lines that start with none of the five prefixes can be
    removed from a file without any change of the result. *)
Theorem lines_apply_in_order
        (s : AdjustmentSettings) (l1 l2 : list string) (w : world) :
  load_lines s (l1 ++ l2) w = (let* s1 := load_lines s l1 in load_lines s1 l2) w
  /\ load_lines s l1 w = load_lines s (List.filter recognized l1) w
  /\ (forall p setter line x v s1,
        In (p, setter) numeric_setters ->
        Str.startswith (Str.strip line) p = true ->
        nth_error (Str.split ":" (Str.strip line)) 1 = Some x ->
        PyFloat.parse (Str.strip x) = Some v ->
        load_lines s l1 w = (Ok s1, w) ->
        load_lines s (l1 ++ [line]) w = (Ok (setter v s1), w)).
Proof.
  split; [apply load_lines_app|]. split.
  - revert s. induction l1 as [|line l IH]; intros s; [reflexivity|].
    cbn [List.filter]. destruct (recognized line) eqn:R; cbn [load_lines]; unfold bind.
    + destruct (load_line_pure s line w) as [(s' & E) | (e & E)]; rewrite E;
        [apply IH | reflexivity].
    + rewrite (load_line_unrecognized s line w R). apply IH.
  - intros p setter line x v s1 Hin Hp Hx Hv E.
    rewrite load_lines_app. unfold bind at 1. rewrite E.
    cbn [load_lines]. unfold bind.
    rewrite (load_line_numeric s1 line w p setter x Hin Hp Hx), Hv. reflexivity.
Qed.

Lemma lines_apply_in_order_witness :
  load_lines default_settings (["Gamma: 2" ++ nl; "# comment" ++ nl] ++ ["Gamma: 0.5" ++ nl])
             quiet_world
  = (Ok (set_gamma PyFloat.lit_0_5 default_settings), quiet_world).
Proof.
  destruct (lines_apply_in_order default_settings
              ["Gamma: 2" ++ nl; "# comment" ++ nl] [] quiet_world) as (_ & _ & H).
  apply (H "Gamma:" set_gamma ("Gamma: 0.5" ++ nl) " 0.5" PyFloat.lit_0_5
           (set_gamma (PyFloat.of_int 2) default_settings)).
  - cbn. auto.
  - reflexivity.
  - reflexivity.
  - reflexivity.
  - reflexivity.
Defined.

(** * What the persistence functions leave alone *)

Section Respects.

Context {S : Type} (R : S -> S -> Prop).
Hypothesis R_refl : forall s, R s s.
Hypothesis R_trans : forall s1 s2 s3, R s1 s2 -> R s2 s3 -> R s1 s3.

Lemma respects_ret {A} (a : A) : respects R (ret a).
Proof. intros s. apply R_refl. Qed.

Lemma respects_raise {A} (e : exn) : respects R (raise (A := A) e).
Proof. intros s. apply R_refl. Qed.

Lemma respects_get : respects R get.
Proof. intros s. apply R_refl. Qed.

Lemma respects_bind {A B} (c : M S A) (k : A -> M S B) :
  respects R c -> (forall a, respects R (k a)) -> respects R (bind c k).
Proof.
  intros Hc Hk s. unfold bind. specialize (Hc s).
  destruct (c s) as [[a | e] s1]; cbn [snd] in *; [|exact Hc].
  eapply R_trans; [exact Hc | apply Hk].
Qed.

Lemma respects_try_except {A} (body : M S A) (handler : exn -> M S A) :
  respects R body -> (forall e, respects R (handler e)) ->
  respects R (try_except body handler).
Proof.
  intros Hb Hh s. unfold try_except. specialize (Hb s).
  destruct (body s) as [[a | e] s1]; cbn [snd] in *; [exact Hb|].
  eapply R_trans; [exact Hb | apply Hh].
Qed.

Lemma respects_for_each {A} (body : A -> M S unit) (l : list A) :
  (forall a, respects R (body a)) -> respects R (for_each body l).
Proof.
  intros Hb. induction l as [|x l IH]; cbn [for_each].
  - apply respects_ret.
  - apply respects_bind; [apply Hb | intros _; exact IH].
Qed.

End Respects.

Lemma only_touches_refl path w : only_touches path w w.
Proof.
  repeat split; try reflexivity. exists []. symmetry. apply app_nil_r.
Qed.

Lemma only_touches_trans path w1 w2 w3 :
  only_touches path w1 w2 -> only_touches path w2 w3 -> only_touches path w1 w3.
Proof.
  intros (F1 & N1 & O1 & C1 & l1 & P1) (F2 & N2 & O2 & C2 & l2 & P2).
  repeat split; try congruence.
  - intros p Hp. rewrite F2, F1 by exact Hp. reflexivity.
  - lia.
  - exists (l1 ++ l2)%list. rewrite P2, P1. symmetry. apply app_assoc.
Qed.

Lemma reads_only_refl w : reads_only w w.
Proof.
  repeat split; try reflexivity. exists []. symmetry. apply app_nil_r.
Qed.

Lemma reads_only_trans w1 w2 w3 :
  reads_only w1 w2 -> reads_only w2 w3 -> reads_only w1 w3.
Proof.
  intros (F1 & N1 & O1 & C1 & l1 & P1) (F2 & N2 & O2 & C2 & l2 & P2).
  repeat split; try congruence.
  - lia.
  - exists (l1 ++ l2)%list. rewrite P2, P1. symmetry. apply app_assoc.
Qed.

Lemma reads_only_touches path w w' : reads_only w w' -> only_touches path w w'.
Proof.
  intros (F & N & O & C & P). repeat split; try assumption.
  intros p _. rewrite F. reflexivity.
Qed.

Ltac frame_solve :=
  repeat split; cbn;
  first [ lia | reflexivity | exists []; symmetry; apply app_nil_r | eauto ].

Lemma reads_io_step : respects reads_only io_step.
Proof.
  intros w. unfold io_step. destruct (io_fault w (io_count w)); frame_solve.
Qed.

Lemma reads_print ev : respects reads_only (print ev).
Proof. intros w. frame_solve. Qed.

Lemma touches_set_file path text : respects (only_touches path) (set_file path text).
Proof.
  intros w. split; [|frame_solve].
  intros p Hp. apply lookup_insert_ne. congruence.
Qed.

Lemma touches_io_step path : respects (only_touches path) io_step.
Proof. intros w. apply reads_only_touches, reads_io_step. Qed.

Lemma touches_write path text : respects (only_touches path) (write path text).
Proof.
  unfold write.
  apply respects_bind; [apply only_touches_trans | apply touches_io_step |].
  intros _.
  apply respects_bind;
    [apply only_touches_trans | apply respects_get, only_touches_refl |].
  intros w0. apply touches_set_file.
Qed.

Lemma respects_leave_file {A} (R : world -> world -> Prop) f
      (r : outcome A * world) w :
  (forall s1 s2 s3, R s1 s2 -> R s2 s3 -> R s1 s3) ->
  respects R (close f) -> R w (snd r) -> R w (snd (leave_file f r)).
Proof.
  intros Rt Hc Hr. specialize (Hc (snd r)). destruct r as [[a | e] w1];
    cbn [snd leave_file] in *.
  - unfold bind, ret. destruct (close f w1) as [[[] | e] w2]; cbn [snd] in *;
      eapply Rt; eauto.
  - destruct (close f w1) as [[[] | e'] w2]; cbn [snd] in *; eapply Rt; eauto.
Qed.

Ltac touches_step path :=
  first
    [ apply touches_write
    | apply (respects_ret (only_touches path)), only_touches_refl
    | apply (respects_get (only_touches path)), only_touches_refl
    | apply (respects_for_each (only_touches path));
      [apply only_touches_refl | apply only_touches_trans | intros ?]
    | apply (respects_bind (only_touches path));
      [apply only_touches_trans | | intros ?]
    | match goal with
      | |- respects _ (match ?x with _ => _ end) => destruct x
      end ].

Lemma touches_export_body s path volume_info :
  respects (only_touches path) (export_body s path volume_info).
Proof.
  intros w. unfold export_body. rewrite with_file_open_w.
  destruct (io_fault w (io_count w)) eqn:F.
  - frame_solve.
  - set (w1 := World _ _ _ _ _).
    assert (H1 : only_touches path w w1).
    { subst w1. split; [|frame_solve].
      intros p Hp. apply lookup_insert_ne. congruence. }
    apply respects_leave_file;
      [apply only_touches_trans | apply touches_io_step |].
    eapply only_touches_trans; [exact H1|].
    match goal with
    | |- only_touches path w1 (snd (?c w1)) =>
        generalize w1; change (respects (only_touches path) c)
    end.
    repeat touches_step path.
Qed.

Lemma reads_load_lines s l : respects reads_only (load_lines s l).
Proof.
  intros w. destruct (load_lines_pure s l w) as [(s' & E) | (e & E)];
    rewrite E; apply reads_only_refl.
Qed.

Lemma reads_read_lines f : respects reads_only (read_lines f).
Proof.
  intros w. rewrite read_lines_eq. destruct (io_fault w (io_count w)); frame_solve.
Qed.

Lemma reads_load_body path : respects reads_only (load_body path).
Proof.
  intros w. unfold load_body. rewrite with_file_open_r.
  destruct (io_fault w (io_count w)); [frame_solve|].
  destruct (fs w !! path); [|frame_solve].
  set (w1 := World _ _ _ _ _).
  assert (H1 : reads_only w w1) by (subst w1; frame_solve).
  apply respects_leave_file; [apply reads_only_trans | apply reads_io_step |].
  eapply reads_only_trans; [exact H1|].
  match goal with
  | |- reads_only w1 (snd (?c w1)) => generalize w1; change (respects reads_only c)
  end.
  apply respects_bind; [apply reads_only_trans | apply reads_read_lines |].
  intros l. apply reads_load_lines.
Qed.

(** X14: an export changes no file but the one it writes, and a load
    changes no file at all; neither touches the clock, and what was
    printed before stays. When the opening of the file faults, an export
    leaves the file system as it was. *)
Theorem persistence_touches_one_file
        (s : AdjustmentSettings) (path : string)
        (volume_info : option (list (string * string))) (w : world) :
  only_touches path w (snd (export_adjustment_settings s path volume_info w))
  /\ reads_only w (snd (load_adjustment_settings path w))
  /\ (io_fault w (io_count w) = true ->
      fs (snd (export_adjustment_settings s path volume_info w)) = fs w).
Proof.
  split; [|split].
  - revert w. change (respects (only_touches path)
                        (export_adjustment_settings s path volume_info)).
    unfold export_adjustment_settings.
    apply respects_try_except; [apply only_touches_trans | |].
    + apply respects_bind; [apply only_touches_trans | apply touches_export_body |].
      intros _. apply respects_ret, only_touches_refl.
    + intros e. apply respects_bind; [apply only_touches_trans | |].
      * intros w. apply reads_only_touches, reads_print.
      * intros _. apply respects_ret, only_touches_refl.
  - revert w. change (respects reads_only (load_adjustment_settings path)).
    unfold load_adjustment_settings.
    apply respects_try_except; [apply reads_only_trans | |].
    + apply respects_bind; [apply reads_only_trans | apply reads_load_body |].
      intros s'. apply respects_ret, reads_only_refl.
    + intros e. apply respects_bind; [apply reads_only_trans | apply reads_print |].
      intros _. apply respects_ret, reads_only_refl.
  - intros F. unfold export_adjustment_settings, try_except, bind, export_body.
    rewrite with_file_open_w, F. reflexivity.
Qed.

Lemma persistence_touches_one_file_witness :
  fs (snd (export_adjustment_settings default_settings "settings.txt" None faulty_world))
  = {["settings.txt" := "kept"]}.
Proof.
  apply (persistence_touches_one_file default_settings "settings.txt" None faulty_world).
  reflexivity.
Defined.

(** * The text of an export *)

(** X15: when none of its I/O operations faults, an export returns [True]
    and leaves in the file exactly the text of the header, the time stamp,
    the volume information, the five parameters and their descriptions,
    in place of whatever the file held; nothing is printed and the clock
    is not changed. An empty volume information writes what none writes,
    and the text always ends with a line feed. *)
Theorem export_writes_exactly_the_text
        (s : AdjustmentSettings) (path : string)
        (volume_info : option (list (string * string))) (w : world) :
  (no_fault w (export_ops volume_info) = true ->
   export_adjustment_settings s path volume_info w =
     (Ok true, World (<[path := export_text s (now w) volume_info]> (fs w)) (now w)
                     (io_fault w) (io_count w + export_ops volume_info) (stdout w))
   /\ fs (snd (export_adjustment_settings s path volume_info w)) !! path =
      Some (export_text s (now w) volume_info))
  /\ export_adjustment_settings s path (Some []) w =
     export_adjustment_settings s path None w
  /\ complete (export_text s (now w) volume_info).
Proof.
  split; [|split].
  - intros Hf. pose proof (export_spec s path volume_info w) as H.
    rewrite Hf in H. rewrite H. split; [reflexivity|]. apply lookup_insert_eq.
  - reflexivity.
  - unfold export_text, descriptions_text.
    repeat (apply complete_app). constructor.
Qed.

Lemma export_writes_exactly_the_text_witness :
  fs (snd (export_adjustment_settings example_settings "settings.txt" None quiet_world))
    !! "settings.txt"
  = Some (export_text example_settings (now quiet_world) None).
Proof.
  apply (export_writes_exactly_the_text example_settings "settings.txt" None quiet_world).
  reflexivity.
Defined.

(** * The clip before the cast to an integer type *)












(** * Numbers written and read back *)

(** ** Plain text under [strip], [split] and the line reader *)

Lemma plain_char_inv c :
  plain_char c = true ->
  Str.is_space c = false /\ Ascii.eqb c ":" = false
  /\ Ascii.eqb c "010" = false /\ Ascii.eqb c "013" = false.
Proof.
  destruct c as [[] [] [] [] [] [] [] []]; intros H; try discriminate H;
    repeat split; reflexivity.
Qed.

Lemma plain_app a b : plain (a ++ b) = plain a && plain b.
Proof.
  induction a as [|c a IH]; [reflexivity|].
  change (plain (String c a ++ b)) with (plain_char c && plain (a ++ b)).
  rewrite IH. cbn [plain]. apply andb_assoc.
Qed.

Lemma lstrip_plain s : plain s = true -> Str.lstrip s = s.
Proof.
  destruct s as [|c s]; [reflexivity|]. cbn [plain Str.lstrip]. intros H.
  apply andb_prop in H as [H _]. destruct (plain_char_inv c H) as [-> _]. reflexivity.
Qed.

Lemma rstrip_plain s : plain s = true -> Str.rstrip s = s.
Proof.
  induction s as [|c s IH]; [reflexivity|]. cbn [plain Str.rstrip]. intros H.
  apply andb_prop in H as [Hc Hs]. rewrite (IH Hs).
  destruct (plain_char_inv c Hc) as [-> _]. destruct s; reflexivity.
Qed.

Lemma rstrip_plain_nl s :
  plain s = true -> s <> "" -> Str.rstrip (s ++ nl) = s.
Proof.
  induction s as [|c s IH]; [congruence|]. intros H _.
  cbn [plain] in H. apply andb_prop in H as [Hc Hs].
  change (String c s ++ nl) with (String c (s ++ nl)). cbn [Str.rstrip].
  destruct (plain_char_inv c Hc) as [Sc _].
  destruct s as [|c' s].
  - change (Str.rstrip ("" ++ nl)) with "". rewrite Sc. reflexivity.
  - rewrite (IH Hs) by discriminate. reflexivity.
Qed.

Lemma rstrip_app a b :
  Str.rstrip b <> "" -> Str.rstrip (a ++ b) = a ++ Str.rstrip b.
Proof.
  intros Hb. induction a as [|c a IH]; [reflexivity|].
  change (String c a ++ b) with (String c (a ++ b)). cbn [Str.rstrip].
  rewrite IH. change (String c a ++ Str.rstrip b) with (String c (a ++ Str.rstrip b)).
  destruct (a ++ Str.rstrip b) eqn:E; [|reflexivity].
  exfalso. destruct a; [apply Hb; exact E | discriminate E].
Qed.

Lemma split_plain s cur :
  plain s = true -> Str.split_from ":" cur s = [cur ++ s].
Proof.
  revert cur. induction s as [|c s IH]; intros cur H.
  - cbn [Str.split_from]. now rewrite string_app_nil_r.
  - cbn [plain] in H. apply andb_prop in H as [Hc Hs].
    destruct (plain_char_inv c Hc) as (_ & Cc & _).
    cbn [Str.split_from]. rewrite Cc, (IH _ Hs), string_app_assoc. reflexivity.
Qed.

Lemma lines_plain s cur :
  plain s = true -> Str.lines_from cur (s ++ nl) = [cur ++ s ++ nl].
Proof.
  revert cur. induction s as [|c s IH]; intros cur H.
  - reflexivity.
  - cbn [plain] in H. apply andb_prop in H as [Hc Hs].
    destruct (plain_char_inv c Hc) as (_ & _ & C10 & C13).
    change (String c s ++ nl) with (String c (s ++ nl)).
    rewrite lines_from_cons, C10, C13, (IH _ Hs), string_app_assoc. reflexivity.
Qed.

(** ** Decimal digits *)

Lemma uint_value_acc d acc :
  Z.pos (Pos.of_uint_acc d acc) = uint_value d (Z.pos acc).
Proof.
  revert acc. induction d as [|d IH|d IH|d IH|d IH|d IH|d IH|d IH|d IH|d IH|d IH];
    intros acc; cbn [Pos.of_uint_acc uint_value]; [reflexivity|..];
    rewrite IH; f_equal; lia.
Qed.

Lemma uint_value_of_uint d : Z.of_N (Pos.of_uint d) = uint_value d 0.
Proof.
  induction d as [|d IH|d IH|d IH|d IH|d IH|d IH|d IH|d IH|d IH|d IH];
    cbn [Pos.of_uint uint_value]; [reflexivity | exact IH|..];
    cbn [Z.of_N]; rewrite uint_value_acc; reflexivity.
Qed.

Lemma uint_value_to_uint (z : Z) :
  0 <= z -> uint_value (N.to_uint (Z.to_N z)) 0 = z.
Proof.
  intros Hz. rewrite <- uint_value_of_uint.
  change (Pos.of_uint (N.to_uint (Z.to_N z))) with (N.of_uint (N.to_uint (Z.to_N z))).
  rewrite DecimalN.Unsigned.of_to. apply Z2N.id. exact Hz.
Qed.

Lemma to_uint_nonnil (n : N) : N.to_uint n <> Decimal.Nil.
Proof.
  destruct n as [|p]; [discriminate|]. apply DecimalPos.Unsigned.to_uint_nonnil.
Qed.

Lemma plain_digits d : plain (NilEmpty.string_of_uint d) = true.
Proof.
  induction d as [|d IH|d IH|d IH|d IH|d IH|d IH|d IH|d IH|d IH|d IH];
    cbn [NilEmpty.string_of_uint plain]; [reflexivity|..]; rewrite IH; reflexivity.
Qed.

Lemma digits_tail_uint d t acc cnt :
  PyFloat.digits_tail (NilEmpty.string_of_uint d ++ String "." t) acc cnt =
  (uint_value d acc, cnt + Z.of_nat (Decimal.nb_digits d), String "." t).
Proof.
  revert acc cnt.
  induction d as [|d IH|d IH|d IH|d IH|d IH|d IH|d IH|d IH|d IH|d IH];
    intros acc cnt; cbn [NilEmpty.string_of_uint uint_value Decimal.nb_digits].
  1:{ change (PyFloat.digits_tail ("" ++ String "." t) acc cnt)
        with (acc, cnt, String "." t).
      now rewrite Z.add_0_r. }
  all: match goal with
       | |- PyFloat.digits_tail (String ?c ?s ++ ?r) ?a ?n = _ =>
           let v := eval vm_compute in (Str.digit_val c) in
           change (PyFloat.digits_tail (String c s ++ r) a n)
             with (PyFloat.digits_tail (s ++ r) (10 * a + v) (n + 1))
       end;
       rewrite IH;
       apply f_equal2; [apply f_equal2; [f_equal; lia | lia] | reflexivity].
Qed.

Lemma digitpart_uint d t :
  d <> Decimal.Nil ->
  PyFloat.digitpart (NilEmpty.string_of_uint d ++ String "." t) =
  Some (uint_value d 0, Z.of_nat (Decimal.nb_digits d), String "." t)
  /\ exists c rest, NilEmpty.string_of_uint d = String c rest /\ Str.is_digit c = true.
Proof.
  intros Hd.
  destruct d as [|d|d|d|d|d|d|d|d|d|d]; [congruence|..];
    cbn [NilEmpty.string_of_uint uint_value Decimal.nb_digits];
    (split; [|eexists _, _; split; reflexivity]);
    match goal with
    | |- PyFloat.digitpart (String ?c ?s ++ ?r) = _ =>
        let v := eval vm_compute in (Str.digit_val c) in
        change (PyFloat.digitpart (String c s ++ r))
          with (Some (PyFloat.digits_tail (s ++ r) v 1))
    end;
    rewrite digits_tail_uint; f_equal;
    (apply f_equal2; [apply f_equal2; [reflexivity | lia] | reflexivity]).
Qed.

(** The digits after the point, for the two precisions the export uses. *)
Lemma fraction_digits (digits : nat) (r : Z) :
  (digits = 1 \/ digits = 2)%nat -> 0 <= r < 10 ^ Z.of_nat digits ->
  PyFloat.digitpart (Str.zero_pad digits r) = Some (r, Z.of_nat digits, "")
  /\ plain (Str.zero_pad digits r) = true.
Proof.
  intros Hd Hr.
  assert (A : forall n,
             forallb (fun k =>
                        match PyFloat.digitpart (Str.zero_pad n (Z.of_nat k)) with
                        | Some (fp, cnt, EmptyString) =>
                            (fp =? Z.of_nat k) && (cnt =? Z.of_nat n)
                            && plain (Str.zero_pad n (Z.of_nat k))
                        | _ => false
                        end)
                     (seq 0 (Z.to_nat (10 ^ Z.of_nat n))) = true ->
             0 <= r < 10 ^ Z.of_nat n ->
             PyFloat.digitpart (Str.zero_pad n r) = Some (r, Z.of_nat n, "")
             /\ plain (Str.zero_pad n r) = true).
  { intros n F Hn. rewrite forallb_forall in F.
    specialize (F (Z.to_nat r)). rewrite Z2Nat.id in F by lia.
    assert (I : In (Z.to_nat r) (seq 0 (Z.to_nat (10 ^ Z.of_nat n))))
      by (apply in_seq; lia).
    specialize (F I).
    destruct (PyFloat.digitpart (Str.zero_pad n r)) as [[[fp cnt] rest]|];
      [|discriminate F].
    destruct rest; [|discriminate F].
    apply andb_prop in F as [F P]. apply andb_prop in F as [F1 F2].
    apply Z.eqb_eq in F1, F2. subst. split; [reflexivity | exact P]. }
  destruct Hd as [-> | ->]; apply A; try exact Hr; vm_compute; reflexivity.
Qed.

(** ** A number formatted and parsed *)

Lemma scaled_nonneg digits m e : 0 <= PyFloat.scaled digits m e.
Proof.
  unfold PyFloat.scaled.
  assert (P : 0 < 10 ^ Z.of_nat digits) by (apply Z.pow_pos_nonneg; lia).
  destruct (0 <=? e) eqn:He.
  - apply Z.leb_le in He.
    assert (0 < 2 ^ e) by (apply Z.pow_pos_nonneg; lia). nia.
  - apply Z.leb_gt in He.
    assert (D : 0 < 2 ^ (- e)) by (apply Z.pow_pos_nonneg; lia).
    unfold PyFloat.round_half_even.
    assert (Q : 0 <= Z.pos m * 10 ^ Z.of_nat digits / 2 ^ (- e))
      by (apply Z.div_pos; lia).
    destruct (2 * (Z.pos m * 10 ^ Z.of_nat digits mod 2 ^ (- e)) ?= 2 ^ (- e));
      [destruct (Z.even _)| |]; lia.
Qed.

Lemma fixed_parts digits q :
  (digits = 1 \/ digits = 2)%nat -> 0 <= q ->
  (exists c rest, PyFloat.fixed digits q = String c rest /\ Str.is_digit c = true)
  /\ plain (PyFloat.fixed digits q) = true
  /\ PyFloat.number (PyFloat.fixed digits q) = Some (q, Z.of_nat digits, "").
Proof.
  intros Hd Hq. unfold PyFloat.fixed.
  set (p := 10 ^ Z.of_nat digits).
  assert (Pp : 0 < p) by (apply Z.pow_pos_nonneg; lia).
  assert (Hip : 0 <= q / p) by (apply Z.div_pos; lia).
  assert (Hr : 0 <= q mod p < p) by (apply Z.mod_pos_bound; lia).
  destruct (fraction_digits digits (q mod p) Hd Hr) as [Fd Fp].
  unfold Str.of_Z.
  pose proof (uint_value_to_uint (q / p) Hip) as Hv.
  pose proof (to_uint_nonnil (Z.to_N (q / p))) as Hn.
  set (d := N.to_uint (Z.to_N (q / p))) in *.
  change (NilEmpty.string_of_uint d ++ "." ++ Str.zero_pad digits (q mod p))
    with (NilEmpty.string_of_uint d ++ String "." (Str.zero_pad digits (q mod p))).
  destruct (digitpart_uint d (Str.zero_pad digits (q mod p)) Hn)
    as [Dp (c & rest & Ec & Hc)].
  split; [|split].
  - exists c, (rest ++ String "." (Str.zero_pad digits (q mod p))).
    rewrite Ec. split; [reflexivity | exact Hc].
  - rewrite plain_app, plain_digits. cbn [plain andb]. exact Fp.
  - unfold PyFloat.number. rewrite Dp. cbv beta iota. rewrite Fd. cbv beta iota.
    rewrite Hv. f_equal. f_equal. f_equal.
    fold p. rewrite (Z.div_mod q p) at 3 by lia. lia.
Qed.

Lemma parse_signed plus s body m n :
  (exists c rest, body = String c rest /\ Str.is_digit c = true) ->
  plain body = true ->
  PyFloat.number body = Some (m, n, "") ->
  PyFloat.parse (PyFloat.sign_str plus s ++ body) = Some (PyFloat.of_decimal s m (0 - n))
  /\ plain (PyFloat.sign_str plus s ++ body) = true
  /\ PyFloat.sign_str plus s ++ body <> "".
Proof.
  intros (c & rest & -> & Hc) Hp Hn.
  assert (Pl : plain (PyFloat.sign_str plus s ++ String c rest) = true).
  { rewrite plain_app, Hp. destruct plus, s; reflexivity. }
  split; [|split; [exact Pl|]].
  2:{ destruct plus, s; discriminate. }
  unfold PyFloat.parse, Str.strip.
  rewrite (lstrip_plain _ Pl), (rstrip_plain _ Pl). clear Pl Hp.
  destruct c as [[] [] [] [] [] [] [] []]; try discriminate Hc; clear Hc;
    destruct plus, s;
    cbv beta iota zeta delta [PyFloat.sign_str PyFloat.take_sign String.append];
    match goal with
    | |- context [Str.lower ?b] =>
        replace (String.eqb (Str.lower b) "inf") with false by reflexivity;
        replace (String.eqb (Str.lower b) "infinity") with false by reflexivity;
        replace (String.eqb (Str.lower b) "nan") with false by reflexivity
    end;
    cbn [orb]; cbv iota; rewrite Hn; reflexivity.
Qed.

Lemma parse_format plus digits x :
  (digits = 1 \/ digits = 2)%nat ->
  PyFloat.parse (PyFloat.format_f plus digits x) = Some (reread digits x)
  /\ plain (PyFloat.format_f plus digits x) = true
  /\ PyFloat.format_f plus digits x <> "".
Proof.
  intros Hd. destruct x as [s | s | | s m e].
  - destruct Hd as [-> | ->], plus, s; vm_compute; repeat split; discriminate.
  - destruct Hd as [-> | ->], plus, s; vm_compute; repeat split; discriminate.
  - destruct Hd as [-> | ->], plus; vm_compute; repeat split; discriminate.
  - cbn [PyFloat.format_f reread].
    destruct (fixed_parts digits (PyFloat.scaled digits m e) Hd (scaled_nonneg _ _ _))
      as (St & Pl & Nu).
    rewrite <- Z.sub_0_l.
    exact (parse_signed plus s _ _ _ St Pl Nu).
Qed.

(** ** A parameter line written and read back *)

Ltac written_line key word pad setter :=
  match goal with
  | Pl : plain ?F = true, Ne : ?F <> "", Pa : PyFloat.parse ?F = Some ?v
    |- load_line ?s ?line ?w = _ =>
      assert (Es : Str.strip line = (key ++ pad) ++ F)
        by (unfold Str.strip;
            change (Str.lstrip line) with ((key ++ pad) ++ (F ++ nl));
            rewrite rstrip_app;
            rewrite (rstrip_plain_nl F Pl Ne); [reflexivity | exact Ne]);
      rewrite (load_line_numeric s line w key setter (pad ++ F));
      [ unfold Str.strip at 1;
        change (Str.lstrip (pad ++ F)) with (Str.lstrip F);
        rewrite (lstrip_plain F Pl), (rstrip_plain F Pl), Pa; reflexivity
      | unfold numeric_setters; cbn [In]; auto 10
      | rewrite Es; reflexivity
      | rewrite Es; unfold Str.split;
        change (Str.split_from ":" "" ((key ++ pad) ++ F))
          with (word :: Str.split_from ":" pad F);
        rewrite (split_plain F pad Pl); reflexivity ]
  end.

Lemma load_line_written s w F v :
  plain F = true -> F <> "" -> PyFloat.parse F = Some v ->
  load_line s ("  Brightness:  " ++ F ++ nl) w = (Ok (set_brightness v s), w)
  /\ load_line s ("  Contrast:    " ++ F ++ nl) w = (Ok (set_contrast v s), w)
  /\ load_line s ("  Gamma:       " ++ F ++ nl) w = (Ok (set_gamma v s), w)
  /\ load_line s ("  Sharpness:   " ++ F ++ nl) w = (Ok (set_sharpness v s), w).
Proof.
  intros Pl Ne Pa. repeat apply conj.
  - written_line "Brightness:" "Brightness" "  " set_brightness.
  - written_line "Contrast:" "Contrast" "    " set_contrast.
  - written_line "Gamma:" "Gamma" "       " set_gamma.
  - written_line "Sharpness:" "Sharpness" "   " set_sharpness.
Qed.

Lemma line_written (P F : string) :
  plain F = true ->
  complete (P ++ F ++ nl)
  /\ forall cur, Str.lines_from (cur ++ P) (F ++ nl) = [(cur ++ P) ++ F ++ nl].
Proof.
  intros Pl. split.
  - repeat apply complete_app. constructor.
  - intros cur. apply lines_plain. exact Pl.
Qed.

(** X17: what the five parameter lines of an export give back. Each
    numeric line, as [export_adjustment_settings] writes it, is read by
    the loop of [load_adjustment_settings] as the value rounded to the
    decimals printed (one for brightness and sharpness, two for contrast
    and gamma) and then to the nearest float, with the sign of a zero, an
    infinity and a NaN kept; the [Invert:] line gives the flag back. So a
    file made of the five parameter lines loads as the settings rounded in
    that way. *)
Theorem parameter_lines_read_back
        (s0 s : AdjustmentSettings) (w : world) :
  load_line s0 ("  Brightness:  " ++ PyFloat.format_f true 1 (brightness s) ++ nl) w
    = (Ok (set_brightness (reread 1 (brightness s)) s0), w)
  /\ load_line s0 ("  Contrast:    " ++ PyFloat.format_f false 2 (contrast s) ++ nl) w
     = (Ok (set_contrast (reread 2 (contrast s)) s0), w)
  /\ load_line s0 ("  Gamma:       " ++ PyFloat.format_f false 2 (gamma s) ++ nl) w
     = (Ok (set_gamma (reread 2 (gamma s)) s0), w)
  /\ load_line s0 ("  Sharpness:   " ++ PyFloat.format_f false 1 (sharpness s) ++ nl) w
     = (Ok (set_sharpness (reread 1 (sharpness s)) s0), w)
  /\ load_line s0 ("  Invert:      " ++ (if invert s then "Yes" else "No") ++ nl) w
     = (Ok (set_invert (invert s) s0), w)
  /\ load_lines s0 (Str.lines (parameters_text s)) w = (Ok (reread_settings s), w)
  /\ (forall path,
        fs w !! path = Some (parameters_text s) -> no_fault w 3 = true ->
        fst (load_adjustment_settings path w) = Ok (Some (reread_settings s)))
  /\ reread_settings default_settings = default_settings
  /\ reread_settings example_settings = example_settings.
Proof.
  destruct (parse_format true 1 (brightness s) (or_introl eq_refl)) as (B1 & B2 & B3).
  destruct (parse_format false 2 (contrast s) (or_intror eq_refl)) as (C1 & C2 & C3).
  destruct (parse_format false 2 (gamma s) (or_intror eq_refl)) as (G1 & G2 & G3).
  destruct (parse_format false 1 (sharpness s) (or_introl eq_refl)) as (S1 & S2 & S3).
  assert (LB : forall s1, load_line s1 ("  Brightness:  " ++
                 PyFloat.format_f true 1 (brightness s) ++ nl) w
               = (Ok (set_brightness (reread 1 (brightness s)) s1), w))
    by (intros s1; apply (load_line_written s1 w _ _ B2 B3 B1)).
  assert (LC : forall s1, load_line s1 ("  Contrast:    " ++
                 PyFloat.format_f false 2 (contrast s) ++ nl) w
               = (Ok (set_contrast (reread 2 (contrast s)) s1), w))
    by (intros s1; apply (load_line_written s1 w _ _ C2 C3 C1)).
  assert (LG : forall s1, load_line s1 ("  Gamma:       " ++
                 PyFloat.format_f false 2 (gamma s) ++ nl) w
               = (Ok (set_gamma (reread 2 (gamma s)) s1), w))
    by (intros s1; apply (load_line_written s1 w _ _ G2 G3 G1)).
  assert (LS : forall s1, load_line s1 ("  Sharpness:   " ++
                 PyFloat.format_f false 1 (sharpness s) ++ nl) w
               = (Ok (set_sharpness (reread 1 (sharpness s)) s1), w))
    by (intros s1; apply (load_line_written s1 w _ _ S2 S3 S1)).
  assert (LI : forall s1, load_line s1 ("  Invert:      " ++
                 (if invert s then "Yes" else "No") ++ nl) w
               = (Ok (set_invert (invert s) s1), w))
    by (intros s1; destruct (invert s); reflexivity).
  split; [apply LB|]. split; [apply LC|]. split; [apply LG|].
  split; [apply LS|]. split; [apply LI|].
  assert (LL : forall s1, load_lines s1 (Str.lines (parameters_text s)) w
                          = (Ok (reread_settings s), w)).
  2:{ split; [apply LL|]. split; [|split; reflexivity].
      intros path Hf Hn. pose proof (load_spec path w) as L.
      rewrite Hf, Hn, LL in L. exact L. }
  clear s0. intros s0.
  unfold parameters_text, Str.lines.
  destruct (line_written "  Brightness:  " _ B2) as [K1 M1].
  destruct (line_written "  Contrast:    " _ C2) as [K2 M2].
  destruct (line_written "  Gamma:       " _ G2) as [K3 M3].
  destruct (line_written "  Sharpness:   " _ S2) as [K4 M4].
  rewrite (lines_from_complete _ K1), (lines_from_complete _ K2),
    (lines_from_complete _ K3), (lines_from_complete _ K4).
  change (Str.lines_from "" ("  Brightness:  " ++
            PyFloat.format_f true 1 (brightness s) ++ nl))
    with (Str.lines_from ("" ++ "  Brightness:  ")
            (PyFloat.format_f true 1 (brightness s) ++ nl)).
  change (Str.lines_from "" ("  Contrast:    " ++
            PyFloat.format_f false 2 (contrast s) ++ nl))
    with (Str.lines_from ("" ++ "  Contrast:    ")
            (PyFloat.format_f false 2 (contrast s) ++ nl)).
  change (Str.lines_from "" ("  Gamma:       " ++
            PyFloat.format_f false 2 (gamma s) ++ nl))
    with (Str.lines_from ("" ++ "  Gamma:       ")
            (PyFloat.format_f false 2 (gamma s) ++ nl)).
  change (Str.lines_from "" ("  Sharpness:   " ++
            PyFloat.format_f false 1 (sharpness s) ++ nl))
    with (Str.lines_from ("" ++ "  Sharpness:   ")
            (PyFloat.format_f false 1 (sharpness s) ++ nl)).
  rewrite M1, M2, M3, M4.
  replace (Str.lines_from "" ("  Invert:      " ++
             (if invert s then "Yes" else "No") ++ nl))
    with ["  Invert:      " ++ (if invert s then "Yes" else "No") ++ nl]
    by (destruct (invert s); reflexivity).
  cbn [app load_lines]. unfold bind.
  change (("" ++ "  Brightness:  ") ++ PyFloat.format_f true 1 (brightness s) ++ nl)
    with ("  Brightness:  " ++ PyFloat.format_f true 1 (brightness s) ++ nl).
  change (("" ++ "  Contrast:    ") ++ PyFloat.format_f false 2 (contrast s) ++ nl)
    with ("  Contrast:    " ++ PyFloat.format_f false 2 (contrast s) ++ nl).
  change (("" ++ "  Gamma:       ") ++ PyFloat.format_f false 2 (gamma s) ++ nl)
    with ("  Gamma:       " ++ PyFloat.format_f false 2 (gamma s) ++ nl).
  change (("" ++ "  Sharpness:   ") ++ PyFloat.format_f false 1 (sharpness s) ++ nl)
    with ("  Sharpness:   " ++ PyFloat.format_f false 1 (sharpness s) ++ nl).
  rewrite LB, LC, LG, LS, LI. unfold ret. destruct s0; reflexivity.
Qed.

Lemma parameter_lines_read_back_witness :
  fst (load_adjustment_settings "parameters.txt"
         (World {["parameters.txt" := parameters_text brightness_10_settings]}
                (now quiet_world) (io_fault quiet_world) 0 []))
  = Ok (Some (reread_settings brightness_10_settings)).
Proof.
  destruct (parameter_lines_read_back default_settings brightness_10_settings
              (World {["parameters.txt" := parameters_text brightness_10_settings]}
                     (now quiet_world) (io_fault quiet_world) 0 []))
    as (_ & _ & _ & _ & _ & _ & H & _).
  apply H; reflexivity.
Defined.

(** * An adjuster without a registered volume *)

(** X18: on an adjuster on which no volume was registered,
    [has_original_volume] answers [False], [apply_adjustments] without a
    volume raises [ValueError] and leaves the state as it was, and
    [apply_adjustments] on a volume passed explicitly does exactly what
    [apply_to_slice] does on it: same result, same exception, same
    allocations. With settings that are not the default ones the range is
    the one of the volume passed, [float(v.min())] and [float(v.max())]:
    a volume without elements raises [ValueError], and otherwise the call
    is the preview pipeline run with that range; the result is not cast
    back, it is a float32 array whatever the element type of the
    volume. *)
Theorem unregistered_adjuster_coincidence
        (ext : external) (st : pystate) (v : ndarray)
        (sarg : option AdjustmentSettings) :
  unregistered (self st) ->
  let s := effective_settings (self st) sarg in
  has_original_volume st = (Ok false, st)
  /\ get_original_volume st = (Ok None, st)
  /\ apply_adjustments ext None sarg st = (Raise ValueError, st)
  /\ apply_adjustments ext (Some v) sarg st = apply_to_slice ext v sarg st
  /\ (is_default s = false ->
      data v <> [] ->
      Float.eqb (gamma s) Float.zero = false ->
      runs (apply_adjustments ext (Some v) sarg) st
           (fun r => dtype_of r = float32 /\ shape r = shape v))
  /\ (is_default s = false ->
      data v = [] ->
      apply_adjustments ext (Some v) sarg st = (Raise ValueError, st))
  /\ (is_default s = false ->
      data v <> [] ->
      exists lo hi,
        reduced (least ext) v = Some lo /\ reduced (greatest ext) v = Some hi
        /\ reference_min ext (self st) v = Some lo
        /\ reference_max ext (self st) v = Some hi
        /\ slice_range ext (self st) v = Some (lo, hi)
        /\ apply_adjustments ext (Some v) sarg st = preview_pipeline ext v s lo hi st).
Proof.
  intros (Hv & Hd & Hlo & Hhi) s.
  assert (Eq : apply_adjustments ext (Some v) sarg st = apply_to_slice ext v sarg st).
  { unfold apply_adjustments, apply_to_slice, get_self, bind, ret.
    rewrite Hd, Hlo, Hhi.
    destruct (is_default _); [reflexivity|].
    unfold amin, amax, raise, ret.
    destruct (extremes_cases ext v) as [(_ & E1 & E2) | (_ & a & b & E1 & E2)];
      rewrite E1, ?E2; [reflexivity|].
    destruct (normalized_field ext v _ _ st) as [[n | e] st1]; [|reflexivity].
    destruct (apply_transforms ext n _ st1) as [[t | e] st2]; [|reflexivity].
    destruct (denormalized t _ _ st2) as [[r | e] st3]; reflexivity. }
  assert (Range : data v <> [] ->
                  exists lo hi,
                    reduced (least ext) v = Some lo /\ reduced (greatest ext) v = Some hi
                    /\ slice_range ext (self st) v = Some (lo, hi)).
  { intros Hne.
    destruct (extremes_cases ext v) as [(E & _) | (_ & a & b & Ea & Eb)]; [congruence|].
    exists (py_float a), (py_float b). unfold slice_range, reduced.
    rewrite Hlo, Ea, Eb. repeat split. }
  repeat apply conj.
  - unfold has_original_volume, get_self, bind, ret. rewrite Hv. reflexivity.
  - unfold get_original_volume, get_self, bind, ret. rewrite Hv. reflexivity.
  - unfold apply_adjustments, get_self, bind, raise. rewrite Hv. reflexivity.
  - exact Eq.
  - intros Hdef Hne Hg. unfold runs. rewrite Eq.
    destruct (Range Hne) as (lo & hi & _ & _ & Hr).
    rewrite (apply_to_slice_unfold ext v sarg st lo hi Hdef Hr).
    exact (preview_pipeline_shape ext v _ _ _ st Hg).
  - intros Hdef He. rewrite Eq.
    unfold apply_to_slice, get_self, bind, ret.
    fold (effective_settings (self st) sarg). fold s. rewrite Hdef, Hlo.
    unfold amin, least. rewrite He. reflexivity.
  - intros Hdef Hne. destruct (Range Hne) as (lo & hi & Rlo & Rhi & Hr).
    exists lo, hi. repeat apply conj; try assumption.
    + unfold reference_min. rewrite Hlo. exact Rlo.
    + unfold reference_max. rewrite Hhi. exact Rhi.
    + rewrite Eq. exact (apply_to_slice_unfold ext v sarg st lo hi Hdef Hr).
Qed.

Lemma unregistered_adjuster_coincidence_witness :
  apply_adjustments plain_external (Some demo_volume) (Some brightness_10_settings)
                    fresh_state
  = apply_to_slice plain_external demo_volume (Some brightness_10_settings) fresh_state
  /\ runs (apply_adjustments plain_external (Some demo_volume)
                             (Some brightness_10_settings)) fresh_state
          (fun r => dtype_of r = float32 /\ shape r = shape demo_volume)
  /\ apply_adjustments plain_external (Some demo_volume) (Some brightness_10_settings)
                       fresh_state
     = preview_pipeline plain_external demo_volume brightness_10_settings
                        (PyFloat.of_int 0) (PyFloat.of_int 255) fresh_state
  /\ apply_adjustments plain_external (Some empty_volume) (Some brightness_10_settings)
                       fresh_state
     = (Raise ValueError, fresh_state).
Proof.
  destruct (unregistered_adjuster_coincidence plain_external fresh_state demo_volume
              (Some brightness_10_settings)) as (_ & _ & _ & E & R & _ & P).
  - repeat split.
  - split; [exact E|]. split; [apply R; [reflexivity | discriminate | reflexivity]|].
    split.
    + destruct P as (lo & hi & Hlo & Hhi & _ & _ & _ & Hp);
        [reflexivity | discriminate |].
      injection Hlo as <-. injection Hhi as <-. exact Hp.
    + destruct (unregistered_adjuster_coincidence plain_external fresh_state
                  empty_volume (Some brightness_10_settings))
        as (_ & _ & _ & _ & _ & Z & _); [repeat split|].
      apply Z; reflexivity.
Defined.
